(** * A shallow embedding of the configuration core of fdyytu/BK

    The development follows [src/config/base.py] (the [BaseConfig] class),
    [src/config/implementations.py] ([SchemaValidator], [TypeValidator],
    [EnvironmentLoader], [MemoryCache] and the configuration templates),
    [src/config/manager.py] ([ConfigContainer] and [ConfigManager]) and
    [src/config/configs.py] (the application configurations and their
    factory).

    Python objects are modelled by value, but for [backup] and [restore],
    which share mappings: there the mappings are objects of a store.  A
    method that mutates [self] becomes a function from the state before the
    call to the state after it, paired with what the call returns or raises.
    Logging is left out: it changes neither a state nor a result. *)

From Stdlib Require Import ZArith String Ascii List Lia Bool.
From Stdlib Require Import Floats.PrimFloat Floats.SpecFloat Floats.FloatOps.
From Stdlib Require Import DecimalString DecimalZ.
From stdpp Require Import base option list strings gmap.

Set Warnings "-register-all".
Local Open Scope Z_scope.
Local Open Scope string_scope.

(** ** Python values *)

(** What a configuration value can be ([ConfigValue] of base.py, with [None]).
    A [dict] is an association list in insertion order, as Python iterates it. *)
Inductive Value : Type :=
| VNone
| VBool (b : bool)
| VInt (n : Z)
| VFloat (f : float)
| VStr (s : string)
| VList (items : list Value)
| VDict (entries : list (string * Value)).

Definition Dict : Type := list (string * Value).

(** [value is None] *)
Definition is_None (v : Value) : bool :=
  match v with VNone => true | _ => false end.

(** Naive [datetime] values, as microseconds on the time line. *)
Definition datetime : Type := Z.

(** ** Dictionaries *)

Module PyDict.

(** [d.get(k)], [None] when [k not in d] *)
Fixpoint get {A : Type} (d : list (string * A)) (k : string) : option A :=
  match d with
  | [] => None
  | (k', v) :: d' => if String.eqb k' k then Some v else get d' k
  end.

(** [k in d] *)
Definition mem {A : Type} (k : string) (d : list (string * A)) : bool :=
  match get d k with Some _ => true | None => false end.

(** [d[k] = v]: an existing key keeps its place, a new one goes last. *)
Fixpoint set {A : Type} (d : list (string * A)) (k : string) (v : A) : list (string * A) :=
  match d with
  | [] => [(k, v)]
  | (k', v') :: d' => if String.eqb k' k then (k', v) :: d' else (k', v') :: set d' k v
  end.

(** [del d[k]] *)
Fixpoint del {A : Type} (d : list (string * A)) (k : string) : list (string * A) :=
  match d with
  | [] => []
  | (k', v') :: d' => if String.eqb k' k then del d' k else (k', v') :: del d' k
  end.

(** [list(d.keys())] *)
Definition keys {A : Type} (d : list (string * A)) : list string := map fst d.

End PyDict.

(** ** Built-in string operations (strings are sequences of ASCII characters) *)

Module Py.

Definition ascii_lower (c : ascii) : ascii :=
  let n := nat_of_ascii c in
  if Nat.leb 65 n && Nat.leb n 90 then ascii_of_nat (n + 32) else c.

(** [s.lower()] *)
Fixpoint lower (s : string) : string :=
  match s with
  | EmptyString => EmptyString
  | String c s' => String (ascii_lower c) (lower s')
  end.

(** [s.startswith(p)] *)
Fixpoint startswith (s p : string) : bool :=
  match p, s with
  | EmptyString, _ => true
  | String a p', String b s' => if Ascii.eqb a b then startswith s' p' else false
  | String _ _, EmptyString => false
  end.

(** [p in s] for strings: [p] occurs in [s] *)
Fixpoint contains (p s : string) : bool :=
  if startswith s p then true
  else match s with
       | EmptyString => false
       | String _ s' => contains p s'
       end.

(** [s[n:]] *)
Fixpoint drop (n : nat) (s : string) : string :=
  match n, s with
  | O, _ => s
  | S n', String _ s' => drop n' s'
  | S _, EmptyString => EmptyString
  end.

(** [s.split(sep)] for a one-character separator: never the empty list. *)
Fixpoint split (sep : ascii) (s : string) : list string :=
  match s with
  | EmptyString => [EmptyString]
  | String c s' =>
      if Ascii.eqb c sep then EmptyString :: split sep s'
      else match split sep s' with
           | h :: t => String c h :: t
           | [] => [String c EmptyString]
           end
  end.

(** White space as [int()] strips it from an ASCII text: the characters
    from tab to carriage return, and the space. *)
Definition is_space (c : ascii) : bool :=
  let n := nat_of_ascii c in
  (Nat.leb 9 n && Nat.leb n 13) || Nat.eqb n 32.

Definition digit_of (c : ascii) : option Z :=
  let n := nat_of_ascii c in
  if Nat.leb 48 n && Nat.leb n 57 then Some (Z.of_nat (n - 48)) else None.

(** The text without the white space [int()] skips at its start, and at
    both ends. *)
Fixpoint lstrip (s : string) : string :=
  match s with
  | String c s' => if is_space c then lstrip s' else s
  | EmptyString => EmptyString
  end.

Definition strip (s : string) : string :=
  String.rev (lstrip (String.rev (lstrip s))).

(** Decimal digits, with single underscores allowed between two digits.
    [seen] tells that the character before was a digit. *)
Fixpoint parse_digits (acc : Z) (seen : bool) (s : string) : option Z :=
  match s with
  | EmptyString => if seen then Some acc else None
  | String c s' =>
      match digit_of c with
      | Some d => parse_digits (10 * acc + d) true s'
      | None =>
          if Ascii.eqb c "_" && seen
          then match s' with
               | String c' _ =>
                   match digit_of c' with
                   | Some _ => parse_digits acc false s'
                   | None => None
                   end
               | EmptyString => None
               end
          else None
      end
  end.

(** The digits of a literal as [int()] counts them: every digit, leading
    zeros included, and no underscore. *)
Fixpoint count_digits (s : string) : Z :=
  match s with
  | EmptyString => 0
  | String c s' =>
      match digit_of c with
      | Some _ => 1 + count_digits s'
      | None => count_digits s'
      end
  end.

(** [sys.get_int_max_str_digits()], as CPython sets it by default. *)
Definition max_str_digits : Z := 4300.

(** The digits after the sign: a literal with more digits than the limit is
    refused. *)
Definition parse_literal (s : string) : option Z :=
  if Z.ltb max_str_digits (count_digits s) then None else parse_digits 0 false s.

(** [int(s)] in base ten: [None] stands for [ValueError]. *)
Definition int (s : string) : option Z :=
  match strip s with
  | String "-" s' => option_map Z.opp (parse_literal s')
  | String "+" s' => parse_literal s'
  | s' => parse_literal s'
  end.

(** [str(n)] for an integer *)
Definition str_int (n : Z) : string := NilZero.string_of_int (Z.to_int n).

(** [l.remove(x)] on a list that holds [x]: the first occurrence goes. *)
Fixpoint list_remove (x : nat) (l : list nat) : list nat :=
  match l with
  | [] => []
  | y :: l' => if Nat.eqb y x then l' else y :: list_remove x l'
  end.

End Py.

(** ** Exceptions and outcomes *)

(** The exceptions the modelled code raises, one constructor per shape of
    message.  [ConfigValidationError] and [ConfigLoadError] are subclasses of
    [ConfigException] in base.py.
    - [ConfigValidationError key errors] is
      [ConfigValidationError(f"Validation failed for '{key}': {errors}")];
    - [ConfigLoadError what cause] is [ConfigLoadError(f"{what}{cause}")];
    - [ConfigLoadErrors errors], raised by [load_all], is
      [ConfigLoadError(f"Failed to load some configurations: {errors}")], where
      the entry [(name, e)] is the text [f"Failed to load config '{name}': {e}"];
    - [TypeError] is the built-in error of an item access on a value that is
      no mapping;
    - [Exception msg] is any exception raised by a plug-in. *)
Inductive Exc : Type :=
| TypeError
| Exception (msg : string)
| ConfigException (msg : string)
| ConfigValidationError (key : string) (errors : list string)
| ConfigLoadError (what : string) (cause : Exc)
| ConfigLoadErrors (errors : list (string * Exc)).

Inductive Outcome (A : Type) : Type :=
| Ok (a : A)
| Raise (e : Exc).
Arguments Ok {A} a.
Arguments Raise {A} e.

Definition raises {A : Type} (o : Outcome A) : bool :=
  match o with Ok _ => false | Raise _ => true end.

(** A method over a state [S]: the state after the call and its outcome. *)
Definition M (S A : Type) : Type := S -> S * Outcome A.

Definition ret {S A : Type} (a : A) : M S A := fun s => (s, Ok a).

Definition raise {S A : Type} (e : Exc) : M S A := fun s => (s, Raise e).

Definition bind {S A B : Type} (m : M S A) (k : A -> M S B) : M S B :=
  fun s => match m s with
           | (s', Ok a) => k a s'
           | (s', Raise e) => (s', Raise e)
           end.

(** [try: m  except Exception as e: h e] *)
Definition try_except {S A : Type} (m : M S A) (h : Exc -> M S A) : M S A :=
  fun s => match m s with
           | (s', Ok a) => (s', Ok a)
           | (s', Raise e) => h e s'
           end.

Definition gets {S A : Type} (f : S -> A) : M S A := fun s => (s, Ok (f s)).

Definition modify {S : Type} (f : S -> S) : M S unit := fun s => (f s, Ok tt).

(** [for x in l: body x] *)
Fixpoint for_each {S A : Type} (l : list A) (body : A -> M S unit) : M S unit :=
  match l with
  | [] => ret tt
  | x :: l' => bind (body x) (fun _ => for_each l' body)
  end.

Declare Scope py_scope.
Delimit Scope py_scope with py.
Notation "x <- m ;; k" := (bind m (fun x => k))
  (at level 100, m at next level, right associativity) : py_scope.
Notation "m ;;; k" := (bind m (fun _ => k))
  (at level 100, right associativity) : py_scope.

(** ** Library functions the model leaves abstract *)

(** Functions of Python's standard library whose results the embedded code
    only passes on.  [None] and [Raise] stand for the exception the function
    raises ([ValueError], [json.JSONDecodeError]); [re_match pattern s] is
    [inl b] when [re.match(pattern, s)] returns ([b] tells whether there is a
    match) and [inr text] when it raises an error that prints as [text]. *)
Class Python : Type := {
  repr : Value -> string;
  re_match : string -> string -> bool + string;
  float_of_string : string -> option float;
  json_loads : string -> option Value;
  isoformat : datetime -> string;
  fromisoformat : string -> Outcome datetime
}.

(** [str(v)] *)
Definition str `{Python} (v : Value) : string :=
  match v with
  | VNone => "None"
  | VBool true => "True"
  | VBool false => "False"
  | VInt n => Py.str_int n
  | VStr s => s
  | _ => repr v
  end.

(** ** Enumerations and metadata (base.py) *)

Inductive ConfigSource : Type := ENVIRONMENT | FILE | DATABASE | REMOTE | MEMORY.

Inductive ConfigPriority : Type := LOW | MEDIUM | HIGH | CRITICAL.

(** [source.value] *)
Definition ConfigSource_value (s : ConfigSource) : string :=
  match s with
  | ENVIRONMENT => "environment"
  | FILE => "file"
  | DATABASE => "database"
  | REMOTE => "remote"
  | MEMORY => "memory"
  end.

(** [ConfigSource(v)], a [ValueError] when no member has the value *)
Definition ConfigSource_of_value (v : string) : Outcome ConfigSource :=
  if String.eqb v "environment" then Ok ENVIRONMENT
  else if String.eqb v "file" then Ok FILE
  else if String.eqb v "database" then Ok DATABASE
  else if String.eqb v "remote" then Ok REMOTE
  else if String.eqb v "memory" then Ok MEMORY
  else Raise (Exception "ValueError").

Definition ConfigPriority_value (p : ConfigPriority) : Z :=
  match p with LOW => 1 | MEDIUM => 2 | HIGH => 3 | CRITICAL => 4 end.

Definition ConfigPriority_of_value (v : Z) : Outcome ConfigPriority :=
  if Z.eqb v 1 then Ok LOW
  else if Z.eqb v 2 then Ok MEDIUM
  else if Z.eqb v 3 then Ok HIGH
  else if Z.eqb v 4 then Ok CRITICAL
  else Raise (Exception "ValueError").

Record ConfigMetadata : Type := mkMetadata {
  source : ConfigSource;
  priority : ConfigPriority;
  created_at : datetime;
  updated_at : option datetime;
  version : string;
  encrypted : bool;
  cached : bool
}.

(** [ConfigMetadata(source=s, priority=p, created_at=now)] with the dataclass's
    defaults for the other fields *)
Definition new_metadata (s : ConfigSource) (p : ConfigPriority) (now : datetime) : ConfigMetadata :=
  mkMetadata s p now None "1.0.0" false false.

(** ** Plug-in interfaces (base.py) *)

(** [IConfigValidator]: an object with a state of type [V]. *)
Class IConfigValidator (V : Type) : Type := {
  validator_validate : V -> string -> Value -> V * Outcome bool;
  validator_get_validation_errors : V -> list string
}.

(** [IConfigCache]: an object with a state of type [C].  A [get] that finds
    nothing returns [None].  The first argument of [get] and [set] is the
    clock at the call. *)
Class IConfigCache (C : Type) : Type := {
  cache_get : datetime -> C -> string -> C * Outcome Value;
  cache_set : datetime -> C -> string -> Value -> option Z -> C * Outcome unit;
  cache_invalidate : C -> string -> C * Outcome unit;
  cache_clear : C -> C * Outcome unit
}.

(** [IConfigEncryption] *)
Record IConfigEncryption : Type := {
  encrypt : string -> Outcome string;
  decrypt : string -> Outcome string
}.

(** [IConfigLoader] *)
Record IConfigLoader : Type := {
  loader_load : string -> Outcome Dict
}.

(** The text of one entry of [BaseConfig._validation_errors]:
    - [MissingRequiredKeys keys] is [f"Missing required keys: {keys}"];
    - [KeyError key error] is [f"Key '{key}': {error}"];
    - [ValidationError e] is [f"Validation error: {e}"]. *)
Inductive ValidationMessage : Type :=
| MissingRequiredKeys (keys : list string)
| KeyError (key : string) (error : string)
| ValidationError (e : Exc).

(** One call [observer.on_config_changed(key, old_value, new_value)]. *)
Record Notification : Type := mkNotification {
  observer : nat;
  changed_key : string;
  old_value : Value;
  new_value : Value
}.

(** ** [BaseConfig] (base.py) *)

Module BaseConfig.
Section BaseConfig.
Context `{Python} {V C : Type} `{!IConfigValidator V} `{!IConfigCache C}.
Local Open Scope py_scope.

(** The state of one configuration object.  The first three fields are what
    the subtype's [get_config_name], [get_default_values] and
    [get_required_keys] return; [notifications] records, oldest first, the
    calls made to observers. *)
Record t : Type := mk {
  config_name : string;
  default_values : Dict;
  required_keys : list string;
  _data : Dict;
  _metadata : gmap string ConfigMetadata;
  _observers : list nat;
  _validator : option V;
  _loader : option IConfigLoader;
  _encryption : option IConfigEncryption;
  _cache : option C;
  _loaded : bool;
  _validated : bool;
  _readonly : bool;
  _validation_errors : list ValidationMessage;
  notifications : list Notification
}.

Definition with_data (d : Dict) (c : t) : t :=
  mk (config_name c) (default_values c) (required_keys c) d (_metadata c)
     (_observers c) (_validator c) (_loader c) (_encryption c) (_cache c)
     (_loaded c) (_validated c) (_readonly c) (_validation_errors c) (notifications c).

Definition with_metadata (m : gmap string ConfigMetadata) (c : t) : t :=
  mk (config_name c) (default_values c) (required_keys c) (_data c) m
     (_observers c) (_validator c) (_loader c) (_encryption c) (_cache c)
     (_loaded c) (_validated c) (_readonly c) (_validation_errors c) (notifications c).

Definition with_validator (v : option V) (c : t) : t :=
  mk (config_name c) (default_values c) (required_keys c) (_data c) (_metadata c)
     (_observers c) v (_loader c) (_encryption c) (_cache c)
     (_loaded c) (_validated c) (_readonly c) (_validation_errors c) (notifications c).

Definition with_cache (ch : option C) (c : t) : t :=
  mk (config_name c) (default_values c) (required_keys c) (_data c) (_metadata c)
     (_observers c) (_validator c) (_loader c) (_encryption c) ch
     (_loaded c) (_validated c) (_readonly c) (_validation_errors c) (notifications c).

Definition with_loaded (b : bool) (c : t) : t :=
  mk (config_name c) (default_values c) (required_keys c) (_data c) (_metadata c)
     (_observers c) (_validator c) (_loader c) (_encryption c) (_cache c)
     b (_validated c) (_readonly c) (_validation_errors c) (notifications c).

Definition with_validated (b : bool) (c : t) : t :=
  mk (config_name c) (default_values c) (required_keys c) (_data c) (_metadata c)
     (_observers c) (_validator c) (_loader c) (_encryption c) (_cache c)
     (_loaded c) b (_readonly c) (_validation_errors c) (notifications c).

Definition with_readonly (b : bool) (c : t) : t :=
  mk (config_name c) (default_values c) (required_keys c) (_data c) (_metadata c)
     (_observers c) (_validator c) (_loader c) (_encryption c) (_cache c)
     (_loaded c) (_validated c) b (_validation_errors c) (notifications c).

Definition with_validation_errors (l : list ValidationMessage) (c : t) : t :=
  mk (config_name c) (default_values c) (required_keys c) (_data c) (_metadata c)
     (_observers c) (_validator c) (_loader c) (_encryption c) (_cache c)
     (_loaded c) (_validated c) (_readonly c) l (notifications c).

Definition with_notifications (l : list Notification) (c : t) : t :=
  mk (config_name c) (default_values c) (required_keys c) (_data c) (_metadata c)
     (_observers c) (_validator c) (_loader c) (_encryption c) (_cache c)
     (_loaded c) (_validated c) (_readonly c) (_validation_errors c) l.

(** [__init__]: the object a subtype's constructor returns. *)
Definition init (name : string) (defaults : Dict) (required : list string)
    (validator : option V) (loader : option IConfigLoader)
    (encryption : option IConfigEncryption) (cache : option C) : t :=
  mk name defaults required [] ∅ [] validator loader encryption cache
     false false false [] [].

(** *** Helper methods *)

(** The descent of [_get_nested_value] from [value] along [keys]. *)
Fixpoint get_path (value : Value) (keys : list string) (default : Value) : Value :=
  match keys with
  | [] => value
  | k :: keys' =>
      match value with
      | VDict d =>
          match PyDict.get d k with
          | Some v => get_path v keys' default
          | None => default
          end
      | _ => default
      end
  end.

Definition _get_nested_value (data : Dict) (key : string) (default : Value) : Value :=
  get_path (VDict data) (Py.split "." key) default.

(** The walk of [_set_nested_value] from [data] along [keys]: a missing
    intermediate key is bound to a new empty mapping, and an item access on a
    value that is no mapping raises [TypeError].  The result is the tree after
    the walk, also when it raises. *)
Fixpoint set_path (data : Value) (keys : list string) (value : Value) : Value * Outcome unit :=
  match keys with
  | [] => (data, Ok tt)
  | [k] =>
      match data with
      | VDict d => (VDict (PyDict.set d k value), Ok tt)
      | _ => (data, Raise TypeError)
      end
  | k :: keys' =>
      match data with
      | VDict d =>
          let d1 := if PyDict.mem k d then d else PyDict.set d k (VDict []) in
          match PyDict.get d1 k with
          | Some child =>
              let '(child', r) := set_path child keys' value in
              (VDict (PyDict.set d1 k child'), r)
          | None => (VDict d1, Raise TypeError)
          end
      | _ => (data, Raise TypeError)
      end
  end.

Definition _set_nested_value (key : string) (value : Value) : M t unit :=
  fun c =>
    match set_path (VDict (_data c)) (Py.split "." key) value with
    | (VDict d, r) => (with_data d c, r)
    | (_, r) => (c, r)
    end.

(** The recursive [merge_dict] of [_merge_data], by recursion on the source
    mapping: a key bound to a mapping on both sides is merged, any other key
    is overwritten. *)
Fixpoint merge_value (source : Value) (target : Dict) {struct source} : Dict :=
  match source with
  | VDict s =>
      (fix go (s : list (string * Value)) (tgt : Dict) {struct s} : Dict :=
         match s with
         | [] => tgt
         | (key, value) :: rest =>
             go rest
                match PyDict.get tgt key, value with
                | Some (VDict t'), VDict _ => PyDict.set tgt key (VDict (merge_value value t'))
                | _, _ => PyDict.set tgt key value
                end
         end) s target
  | _ => target
  end.

Definition _merge_data (new_data : Dict) : M t unit :=
  modify (fun c => with_data (merge_value (VDict new_data) (_data c)) c).

Definition _is_encrypted (c : t) (key : string) : bool :=
  match _metadata c !! key with
  | Some m => encrypted m
  | None => false
  end.

Definition sensitive_patterns : list string :=
  ["password"; "secret"; "key"; "token"; "credential"].

Definition _should_encrypt (key : string) : bool :=
  existsb (fun pattern => Py.contains pattern (Py.lower key)) sensitive_patterns.

(** Every observer is called in turn; an observer that raises is logged and
    the loop goes on, so the state records the calls only. *)
Definition _notify_observers (key : string) (old new : Value) : M t unit :=
  modify (fun c =>
    with_notifications
      (notifications c ++ map (fun o => mkNotification o key old new) (_observers c)) c).

(** A call of a method of the cache, when a cache is attached. *)
Definition on_cache {A : Type} (op : C -> C * Outcome A) (absent : A) : M t A :=
  fun c =>
    match _cache c with
    | Some ch => let '(ch', r) := op ch in (with_cache (Some ch') c, r)
    | None => (c, Ok absent)
    end.

(** A call of [self._validator.validate], when a validator is attached. *)
Definition on_validator (key : string) (value : Value) : M t bool :=
  fun c =>
    match _validator c with
    | Some v =>
        let '(v', r) := validator_validate v key value in
        (with_validator (Some v') c, r)
    | None => (c, Ok true)
    end.

Definition validator_errors (c : t) : list string :=
  match _validator c with
  | Some v => validator_get_validation_errors v
  | None => []
  end.

(** [if self._is_encrypted(key) and self._encryption:
       value = self._encryption.decrypt(str(value))] *)
Definition decrypt_if_needed (key : string) (value : Value) : M t Value :=
  fun c =>
    match _is_encrypted c key, _encryption c with
    | true, Some e =>
        match decrypt e (str value) with
        | Ok s => (c, Ok (VStr s))
        | Raise x => (c, Raise x)
        end
    | _, _ => (c, Ok value)
    end.

(** [if self._should_encrypt(key) and self._encryption:
       value = self._encryption.encrypt(str(value))] *)
Definition encrypt_if_needed (key : string) (value : Value) : M t Value :=
  fun c =>
    match _should_encrypt key, _encryption c with
    | true, Some e =>
        match encrypt e (str value) with
        | Ok s => (c, Ok (VStr s))
        | Raise x => (c, Raise x)
        end
    | _, _ => (c, Ok value)
    end.

(** *** Configuration management *)

(** The body of the [try] of [get]. *)
Definition get_try (now : datetime) (key : string) (default : Value) : M t Value :=
  cached_value <- on_cache (fun ch => cache_get now ch key) VNone ;;
  if negb (is_None cached_value) then ret cached_value
  else
    value <- gets (fun c => _get_nested_value (_data c) key default) ;;
    value <- decrypt_if_needed key value ;;
    (if negb (is_None value)
     then on_cache (fun ch => cache_set now ch key value None) tt
     else ret tt) ;;;
    ret value.

Definition get (now : datetime) (key : string) (default : Value) : M t Value :=
  try_except (get_try now key default) (fun _ => ret default).

Definition set (now : datetime) (key : string) (value : Value)
    (metadata : option ConfigMetadata) : M t unit :=
  readonly <- gets _readonly ;;
  if readonly
  then raise (ConfigException ("Configuration is readonly, cannot set '" +:+ key +:+ "'"))
  else
    valid <- on_validator key value ;;
    (if valid then ret tt
     else errors <- gets validator_errors ;;
          raise (ConfigValidationError key errors)) ;;;
    old <- get now key VNone ;;
    value <- encrypt_if_needed key value ;;
    _set_nested_value key value ;;;
    modify (fun c =>
      with_metadata
        (<[key := match metadata with
                  | Some m => m
                  | None => new_metadata MEMORY MEDIUM now
                  end]> (_metadata c)) c) ;;;
    on_cache (fun ch => cache_invalidate ch key) tt ;;;
    _notify_observers key old value.

(** [load_defaults] writes into [_data] directly, without [set]. *)
Definition load_defaults (now : datetime) : M t unit :=
  try_except
    (defaults <- gets default_values ;;
     for_each defaults (fun '(key, value) =>
       present <- gets (fun c => PyDict.mem key (_data c)) ;;
       if present then ret tt
       else
         modify (fun c => with_data (PyDict.set (_data c) key value) c) ;;;
         modify (fun c =>
           with_metadata (<[key := new_metadata MEMORY LOW now]> (_metadata c)) c)) ;;;
     modify (with_loaded true))
    (fun e => raise (ConfigLoadError "Failed to load defaults: " e)).

(** [if self._loader and source]: a source that is [None] or empty is skipped. *)
Definition load (now : datetime) (src : option string) : M t unit :=
  try_except
    ((fun c =>
        match _loader c, src with
        | Some l, Some (String a s) =>
            match loader_load l (String a s) with
            | Ok data => _merge_data data c
            | Raise e => (c, Raise e)
            end
        | _, _ => (c, Ok tt)
        end) ;;;
     defaults <- gets default_values ;;
     for_each defaults (fun '(key, value) =>
       present <- gets (fun c => PyDict.mem key (_data c)) ;;
       if present then ret tt
       else set now key value (Some (new_metadata MEMORY LOW now))) ;;;
     modify (with_loaded true))
    (fun e => raise (ConfigLoadError "Failed to load configuration: " e)).

Definition add_validation_errors (l : list ValidationMessage) : M t unit :=
  modify (fun c => with_validation_errors (_validation_errors c ++ l) c).

Definition validate : M t bool :=
  modify (with_validation_errors []) ;;;
  try_except
    (required <- gets required_keys ;;
     missing_keys <- gets (fun c =>
       List.filter (fun key => negb (PyDict.mem key (_data c))) required) ;;
     (match missing_keys with
      | [] => ret tt
      | _ :: _ => add_validation_errors [MissingRequiredKeys missing_keys]
      end) ;;;
     has_validator <- gets (fun c => match _validator c with Some _ => true | None => false end) ;;
     (if has_validator
      then
        items <- gets _data ;;
        for_each items (fun '(key, value) =>
          valid <- on_validator key value ;;
          if valid then ret tt
          else errors <- gets validator_errors ;;
               add_validation_errors (map (KeyError key) errors))
      else ret tt) ;;;
     errors <- gets _validation_errors ;;
     match errors with
     | [] => modify (with_validated true) ;;; ret true
     | _ :: _ => modify (with_validated false) ;;; ret false
     end)
    (fun e =>
       add_validation_errors [ValidationError e] ;;;
       modify (with_validated false) ;;;
       ret false).

Definition get_validation_errors (c : t) : list ValidationMessage :=
  _validation_errors c.

(** *** Advanced features *)

Definition reload (now : datetime) : M t unit :=
  modify (with_loaded false) ;;;
  modify (with_validated false) ;;;
  on_cache cache_clear tt ;;;
  load now None ;;;
  validate ;;;
  ret tt.

(** One entry of the ['metadata'] mapping of a backup: enumeration members
    by their values, timestamps as ISO texts. *)
Record MetadataBackup : Type := mkMetadataBackup {
  backup_source : string;
  backup_priority : Z;
  backup_created_at : string;
  backup_updated_at : option string;
  backup_version : string;
  backup_encrypted : bool;
  backup_cached : bool
}.

Definition metadata_to_backup (v : ConfigMetadata) : MetadataBackup :=
  mkMetadataBackup
    (ConfigSource_value (source v))
    (ConfigPriority_value (priority v))
    (isoformat (created_at v))
    (option_map isoformat (updated_at v))
    (version v) (encrypted v) (cached v).

(** The [ConfigMetadata(...)] call of [restore]; an [updated_at] that is
    [None] or the empty text stays [None]. *)
Definition metadata_of_backup (meta : MetadataBackup) : Outcome ConfigMetadata :=
  match ConfigSource_of_value (backup_source meta) with
  | Raise e => Raise e
  | Ok src =>
      match ConfigPriority_of_value (backup_priority meta) with
      | Raise e => Raise e
      | Ok prio =>
          match fromisoformat (backup_created_at meta) with
          | Raise e => Raise e
          | Ok created =>
              match
                match backup_updated_at meta with
                | Some (String a s) =>
                    match fromisoformat (String a s) with
                    | Ok d => Ok (Some d)
                    | Raise e => Raise e
                    end
                | _ => Ok None
                end
              with
              | Raise e => Raise e
              | Ok updated =>
                  Ok (mkMetadata src prio created updated
                        (backup_version meta) (backup_encrypted meta) (backup_cached meta))
              end
          end
      end
  end.

(** [backup] and [restore] copy [_data] with [dict.copy()], which copies the
    top level and shares every nested mapping with the object: they are
    modelled in [SharedData] below, where mappings are objects of a store. *)

Definition add_observer (o : nat) (c : t) : t :=
  mk (config_name c) (default_values c) (required_keys c) (_data c) (_metadata c)
     (_observers c ++ [o]) (_validator c) (_loader c) (_encryption c) (_cache c)
     (_loaded c) (_validated c) (_readonly c) (_validation_errors c) (notifications c).

(** [if observer in self._observers: self._observers.remove(observer)] *)
Definition remove_observer (o : nat) (c : t) : t :=
  if existsb (Nat.eqb o) (_observers c)
  then mk (config_name c) (default_values c) (required_keys c) (_data c) (_metadata c)
          (Py.list_remove o (_observers c)) (_validator c) (_loader c) (_encryption c)
          (_cache c) (_loaded c) (_validated c) (_readonly c) (_validation_errors c)
          (notifications c)
  else c.

Definition set_readonly (readonly : bool) (c : t) : t := with_readonly readonly c.

Definition is_loaded (c : t) : bool := _loaded c.

Definition is_validated (c : t) : bool := _validated c.

Definition get_metadata (c : t) (key : string) : option ConfigMetadata :=
  _metadata c !! key.

Definition get_all_keys (c : t) : list string := PyDict.keys (_data c).

Definition has_key (c : t) (key : string) : bool := PyDict.mem key (_data c).

Definition remove_key (key : string) : M t unit :=
  readonly <- gets _readonly ;;
  if readonly then raise (ConfigException "Configuration is readonly")
  else
    found <- gets (fun c => PyDict.get (_data c) key) ;;
    match found with
    | Some old =>
        modify (fun c => with_data (PyDict.del (_data c) key) c) ;;;
        modify (fun c => with_metadata (delete key (_metadata c)) c) ;;;
        on_cache (fun ch => cache_invalidate ch key) tt ;;;
        _notify_observers key old VNone
    | None => ret tt
    end.

End BaseConfig.
Arguments t V C : clear implicits.
End BaseConfig.

(** ** Plug-in implementations (implementations.py) *)

Module SchemaValidator.
Section SchemaValidator.
Context `{Python}.

(** The types the schemas of the repository name under ['type']. *)
Inductive PyType : Type := py_str | py_int | py_float | py_bool | py_list | py_dict.

(** [ty.__name__] *)
Definition type_name (ty : PyType) : string :=
  match ty with
  | py_str => "str"
  | py_int => "int"
  | py_float => "float"
  | py_bool => "bool"
  | py_list => "list"
  | py_dict => "dict"
  end.

(** [isinstance(v, ty)]; [bool] is a subclass of [int]. *)
Definition isinstance (v : Value) (ty : PyType) : bool :=
  match ty, v with
  | py_str, VStr _ => true
  | py_int, VInt _ => true
  | py_int, VBool _ => true
  | py_float, VFloat _ => true
  | py_bool, VBool _ => true
  | py_list, VList _ => true
  | py_dict, VDict _ => true
  | _, _ => false
  end.

(** One entry of a schema.  Bounds are integers and choices are texts, as in
    every schema of the repository; a missing ['choices'] is the empty list. *)
Record Entry : Type := mkEntry {
  entry_type : option PyType;
  entry_required : bool;
  entry_min : option Z;
  entry_max : option Z;
  entry_pattern : option string;
  entry_choices : list string
}.

Record t : Type := mk {
  schema : list (string * Entry);
  errors : list string
}.

(** The exact order of a float and an integer, [None] for a NaN. *)
Definition float_compare_int (f : float) (m : Z) : option comparison :=
  match Prim2SF f with
  | S754_nan => None
  | S754_zero _ => Some (Z.compare 0 m)
  | S754_infinity false => Some Gt
  | S754_infinity true => Some Lt
  | S754_finite s mant e =>
      let x := if s then Z.neg mant else Z.pos mant in
      if Z.leb 0 e then Some (Z.compare (x * 2 ^ e) m) else Some (Z.compare x (m * 2 ^ (- e)))
  end.

(** [value < m] and [value > m] for [value] an [int], a [bool] or a [float];
    [None] when [isinstance(value, (int, float))] is false. *)
Definition number_compare (value : Value) (m : Z) : option (option comparison) :=
  match value with
  | VInt n => Some (Some (Z.compare n m))
  | VBool b => Some (Some (Z.compare (Z.b2z b) m))
  | VFloat f => Some (float_compare_int f m)
  | _ => None
  end.

Definition below (value : Value) (m : Z) : bool :=
  match number_compare value m with Some (Some Lt) => true | _ => false end.

Definition above (value : Value) (m : Z) : bool :=
  match number_compare value m with Some (Some Gt) => true | _ => false end.

(** [value in choices], for choices that are texts *)
Definition in_choices (value : Value) (choices : list string) : bool :=
  match value with
  | VStr s => existsb (String.eqb s) choices
  | _ => false
  end.

Definition fail (self : t) (message : string) : t * Outcome bool :=
  (mk (schema self) [message], Ok false).

Definition pass (self : t) : t * Outcome bool :=
  (mk (schema self) [], Ok true).

(** The checks of [validate], each the message of its failure. *)
Definition check_type (key : string) (value : Value) (entry : Entry) : option string :=
  match entry_type entry with
  | Some ty =>
      if negb (isinstance value ty)
      then Some ("'" +:+ key +:+ "' must be of type " +:+ type_name ty)
      else None
  | None => None
  end.

Definition check_min (key : string) (value : Value) (entry : Entry) : option string :=
  match entry_min entry with
  | Some m =>
      if below value m then Some ("'" +:+ key +:+ "' must be >= " +:+ Py.str_int m) else None
  | None => None
  end.

Definition check_max (key : string) (value : Value) (entry : Entry) : option string :=
  match entry_max entry with
  | Some m =>
      if above value m then Some ("'" +:+ key +:+ "' must be <= " +:+ Py.str_int m) else None
  | None => None
  end.

(** A pattern that is missing or empty is skipped; an error of [re.match] is
    caught by the [except] of [validate]. *)
Definition check_pattern (key : string) (value : Value) (entry : Entry) : option string :=
  match value, entry_pattern entry with
  | VStr s, Some (String a p) =>
      match re_match (String a p) s with
      | inl true => None
      | inl false => Some ("'" +:+ key +:+ "' does not match pattern " +:+ String a p)
      | inr text => Some ("Validation error for '" +:+ key +:+ "': " +:+ text)
      end
  | _, _ => None
  end.

Definition check_choices (key : string) (value : Value) (entry : Entry) : option string :=
  match entry_choices entry with
  | [] => None
  | choices =>
      if negb (in_choices value choices)
      then Some ("'" +:+ key +:+ "' must be one of " +:+ repr (VList (map VStr choices)))
      else None
  end.

(** [validate] clears [errors], then stops at the first check that fails. *)
Definition validate (self : t) (key : string) (value : Value) : t * Outcome bool :=
  match PyDict.get (schema self) key with
  | None => pass self
  | Some entry =>
      if entry_required entry && is_None value
      then fail self ("'" +:+ key +:+ "' is required")
      else if is_None value then pass self
      else
        match check_type key value entry with
        | Some message => fail self message
        | None =>
        match check_min key value entry with
        | Some message => fail self message
        | None =>
        match check_max key value entry with
        | Some message => fail self message
        | None =>
        match check_pattern key value entry with
        | Some message => fail self message
        | None =>
        match check_choices key value entry with
        | Some message => fail self message
        | None => pass self
        end end end end end
  end.

Definition get_validation_errors (self : t) : list string := errors self.

#[global] Instance validator : IConfigValidator t := {
  validator_validate := validate;
  validator_get_validation_errors := get_validation_errors
}.

End SchemaValidator.
End SchemaValidator.

Module TypeValidator.

Record t : Type := mk {
  type_mapping : list (string * SchemaValidator.PyType);
  errors : list string
}.

(** [validate] clears [errors] and checks the type of a key of the mapping. *)
Definition validate (self : t) (key : string) (value : Value) : t * Outcome bool :=
  match PyDict.get (type_mapping self) key with
  | Some expected_type =>
      if negb (SchemaValidator.isinstance value expected_type)
      then (mk (type_mapping self)
               ["'" +:+ key +:+ "' must be of type " +:+ SchemaValidator.type_name expected_type],
            Ok false)
      else (mk (type_mapping self) [], Ok true)
  | None => (mk (type_mapping self) [], Ok true)
  end.

Definition get_validation_errors (self : t) : list string := errors self.

#[global] Instance validator : IConfigValidator t := {
  validator_validate := validate;
  validator_get_validation_errors := get_validation_errors
}.

End TypeValidator.

Module MemoryCache.

(** [_ttl] maps a key to the time it expires at. *)
Record t : Type := mk {
  _cache : gmap string Value;
  _ttl : gmap string datetime
}.

Definition init : t := mk ∅ ∅.

Definition invalidate (self : t) (key : string) : t * Outcome unit :=
  (mk (delete key (_cache self)) (delete key (_ttl self)), Ok tt).

Definition get (now : datetime) (self : t) (key : string) : t * Outcome Value :=
  match _cache self !! key with
  | Some value =>
      match _ttl self !! key with
      | Some expiry =>
          if Z.ltb expiry now then (fst (invalidate self key), Ok VNone)
          else (self, Ok value)
      | None => (self, Ok value)
      end
  | None => (self, Ok VNone)
  end.

(** [ttl] counts seconds; a [ttl] that is [None] or [0] clears the expiry. *)
Definition set (now : datetime) (self : t) (key : string) (value : Value)
    (ttl : option Z) : t * Outcome unit :=
  let cache := <[key := value]> (_cache self) in
  match ttl with
  | Some seconds =>
      if Z.eqb seconds 0 then (mk cache (delete key (_ttl self)), Ok tt)
      else (mk cache (<[key := now + seconds * 1000000]> (_ttl self)), Ok tt)
  | None => (mk cache (delete key (_ttl self)), Ok tt)
  end.

Definition clear (self : t) : t * Outcome unit := (mk ∅ ∅, Ok tt).

#[global] Instance cache : IConfigCache t := {
  cache_get := get;
  cache_set := set;
  cache_invalidate := invalidate;
  cache_clear := clear
}.

End MemoryCache.

Module EnvironmentLoader.
Section EnvironmentLoader.
Context `{Python}.

Record t : Type := mk { prefix : string }.

(** The cascade of [_parse_env_value]: boolean, integer, float, JSON, text. *)
Definition _parse_env_value (value : string) : Value :=
  if String.eqb (Py.lower value) "true" || String.eqb (Py.lower value) "false"
  then VBool (String.eqb (Py.lower value) "true")
  else
    match Py.int value with
    | Some n => VInt n
    | None =>
        match float_of_string value with
        | Some f => VFloat f
        | None =>
            match json_loads value with
            | Some v => v
            | None => VStr value
            end
        end
    end.

(** The key an environment variable is stored under. *)
Definition config_key (self : t) (key : string) : string :=
  Py.lower (Py.drop (String.length (prefix self)) key).

(** [if self.prefix and not key.startswith(self.prefix): continue] *)
Definition skipped (self : t) (key : string) : bool :=
  match prefix self with
  | EmptyString => false
  | String _ _ => negb (Py.startswith key (prefix self))
  end.

(** [load], with [environ] for [os.environ.items()]; the [source] argument
    is not read. *)
Definition load (self : t) (environ : list (string * string)) : Dict :=
  fold_left
    (fun config '(key, value) =>
       if skipped self key then config
       else PyDict.set config (config_key self key) (_parse_env_value value))
    environ [].

End EnvironmentLoader.
End EnvironmentLoader.

(** ** Configuration templates (implementations.py) *)

Module DatabaseConfig.

Definition get_schema : list (string * SchemaValidator.Entry) :=
  [("host", SchemaValidator.mkEntry (Some SchemaValidator.py_str) true None None None []);
   ("port", SchemaValidator.mkEntry (Some SchemaValidator.py_int) true (Some 1) (Some 65535) None []);
   ("database", SchemaValidator.mkEntry (Some SchemaValidator.py_str) true None None None []);
   ("username", SchemaValidator.mkEntry (Some SchemaValidator.py_str) true None None None []);
   ("password", SchemaValidator.mkEntry (Some SchemaValidator.py_str) true None None None []);
   ("pool_size", SchemaValidator.mkEntry (Some SchemaValidator.py_int) false (Some 1) (Some 100) None []);
   ("max_overflow", SchemaValidator.mkEntry (Some SchemaValidator.py_int) false (Some 0) (Some 50) None []);
   ("pool_timeout", SchemaValidator.mkEntry (Some SchemaValidator.py_int) false (Some 1) (Some 300) None []);
   ("ssl_mode", SchemaValidator.mkEntry (Some SchemaValidator.py_str) false None None None ["disable"; "require"; "verify-ca"; "verify-full"])].

Definition get_defaults : Dict :=
  [("host", VStr "localhost");
   ("port", VInt 5432);
   ("pool_size", VInt 10);
   ("max_overflow", VInt 20);
   ("pool_timeout", VInt 30);
   ("ssl_mode", VStr "disable")].

End DatabaseConfig.

Module CacheConfig.

Definition get_schema : list (string * SchemaValidator.Entry) :=
  [("backend", SchemaValidator.mkEntry (Some SchemaValidator.py_str) true None None None ["memory"; "redis"; "memcached"]);
   ("host", SchemaValidator.mkEntry (Some SchemaValidator.py_str) false None None None []);
   ("port", SchemaValidator.mkEntry (Some SchemaValidator.py_int) false (Some 1) (Some 65535) None []);
   ("password", SchemaValidator.mkEntry (Some SchemaValidator.py_str) false None None None []);
   ("db", SchemaValidator.mkEntry (Some SchemaValidator.py_int) false (Some 0) (Some 15) None []);
   ("default_ttl", SchemaValidator.mkEntry (Some SchemaValidator.py_int) false (Some 1) None None []);
   ("max_connections", SchemaValidator.mkEntry (Some SchemaValidator.py_int) false (Some 1) (Some 1000) None [])].

Definition get_defaults : Dict :=
  [("backend", VStr "memory");
   ("host", VStr "localhost");
   ("port", VInt 6379);
   ("db", VInt 0);
   ("default_ttl", VInt 3600);
   ("max_connections", VInt 10)].

End CacheConfig.

Module SecurityConfig.

Definition get_schema : list (string * SchemaValidator.Entry) :=
  [("secret_key", SchemaValidator.mkEntry (Some SchemaValidator.py_str) true None None None []);
   ("jwt_algorithm", SchemaValidator.mkEntry (Some SchemaValidator.py_str) false None None None ["HS256"; "HS384"; "HS512"; "RS256"]);
   ("jwt_expiration", SchemaValidator.mkEntry (Some SchemaValidator.py_int) false (Some 60) (Some 86400) None []);
   ("password_min_length", SchemaValidator.mkEntry (Some SchemaValidator.py_int) false (Some 6) (Some 128) None []);
   ("password_require_uppercase", SchemaValidator.mkEntry (Some SchemaValidator.py_bool) false None None None []);
   ("password_require_lowercase", SchemaValidator.mkEntry (Some SchemaValidator.py_bool) false None None None []);
   ("password_require_numbers", SchemaValidator.mkEntry (Some SchemaValidator.py_bool) false None None None []);
   ("password_require_symbols", SchemaValidator.mkEntry (Some SchemaValidator.py_bool) false None None None []);
   ("max_login_attempts", SchemaValidator.mkEntry (Some SchemaValidator.py_int) false (Some 1) (Some 10) None []);
   ("lockout_duration", SchemaValidator.mkEntry (Some SchemaValidator.py_int) false (Some 60) (Some 3600) None [])].

Definition get_defaults : Dict :=
  [("jwt_algorithm", VStr "HS256");
   ("jwt_expiration", VInt 3600);
   ("password_min_length", VInt 8);
   ("password_require_uppercase", VBool true);
   ("password_require_lowercase", VBool true);
   ("password_require_numbers", VBool true);
   ("password_require_symbols", VBool false);
   ("max_login_attempts", VInt 5);
   ("lockout_duration", VInt 900)].

End SecurityConfig.

(** ** [ConfigContainer] (manager.py) *)

Module ConfigContainer.
Section ConfigContainer.

(** [Service] is what the container hands out.  A factory is a callable
    without arguments: it may read and change a world [W] outside the
    container, and it may raise.  The lock is left out, and so is
    [_services], which nothing reads or writes. *)
Context {W Service : Type}.

Record t : Type := mk {
  _singletons : list (string * Service);
  _factories : list (string * (W -> W * Outcome Service))
}.

Definition init : t := mk [] [].

Definition register_singleton (name : string) (instance : Service) (self : t) : t :=
  mk (PyDict.set (_singletons self) name instance) (_factories self).

Definition register_factory (name : string) (factory : W -> W * Outcome Service)
    (self : t) : t :=
  mk (_singletons self) (PyDict.set (_factories self) name factory).

(** [get]: a singleton first, then a factory, whose instance is kept as a
    singleton. *)
Definition get (name : string) : M (W * t) Service :=
  fun '(w, self) =>
    match PyDict.get (_singletons self) name with
    | Some instance => ((w, self), Ok instance)
    | None =>
        match PyDict.get (_factories self) name with
        | Some factory =>
            match factory w with
            | (w', Ok instance) =>
                ((w', mk (PyDict.set (_singletons self) name instance) (_factories self)),
                 Ok instance)
            | (w', Raise e) => ((w', self), Raise e)
            end
        | None =>
            ((w, self), Raise (ConfigException ("Service '" +:+ name +:+ "' not found")))
        end
    end.

Definition has (self : t) (name : string) : bool :=
  PyDict.mem name (_singletons self) || PyDict.mem name (_factories self).

End ConfigContainer.
Arguments t W Service : clear implicits.
End ConfigContainer.

(** ** [ConfigManager] (manager.py) *)

Module ConfigManager.
Section ConfigManager.
Context `{Python} {V C : Type} `{!IConfigValidator V} `{!IConfigCache C}.
Local Open Scope py_scope.

Inductive ConfigStrategy : Type := LAZY | EAGER | ON_DEMAND.

Inductive ConfigEnvironment : Type := DEVELOPMENT | TESTING | STAGING | PRODUCTION.

(** The registry.  The lock is left out: calls are modelled one at a time. *)
Record t : Type := mk {
  _configs : list (string * BaseConfig.t V C);
  _strategy : ConfigStrategy;
  _environment : ConfigEnvironment;
  _auto_reload : bool;
  _reload_interval : Z;
  _last_reload : datetime
}.

Definition with_configs (l : list (string * BaseConfig.t V C)) (m : t) : t :=
  mk l (_strategy m) (_environment m) (_auto_reload m) (_reload_interval m) (_last_reload m).

Definition with_last_reload (d : datetime) (m : t) : t :=
  mk (_configs m) (_strategy m) (_environment m) (_auto_reload m) (_reload_interval m) d.

(** [__init__] *)
Definition init (now : datetime) : t := mk [] LAZY DEVELOPMENT false 60 now.

(** A method called on the object registered under [name]: the registry
    holds the object, so it sees the object's new state. *)
Definition on_config {A : Type} (name : string) (method : M (BaseConfig.t V C) A) : M t A :=
  fun m =>
    match PyDict.get (_configs m) name with
    | Some config =>
        let '(config', r) := method config in
        (with_configs (PyDict.set (_configs m) name config') m, r)
    | None => (m, Raise (Exception "KeyError"))
    end.

Definition is_LAZY (s : ConfigStrategy) : bool :=
  match s with LAZY => true | _ => false end.

Definition is_EAGER (s : ConfigStrategy) : bool :=
  match s with EAGER => true | _ => false end.

(** [config.load()] then [config.validate()] *)
Definition load_and_validate (now : datetime) : M (BaseConfig.t V C) unit :=
  BaseConfig.load now None ;;;
  BaseConfig.validate ;;;
  ret tt.

Definition register_config (now : datetime) (name : string) (config : BaseConfig.t V C)
    (auto_load : bool) : M t unit :=
  modify (fun m => with_configs (PyDict.set (_configs m) name config) m) ;;;
  eager <- gets (fun m => is_EAGER (_strategy m)) ;;
  if auto_load && eager then on_config name (load_and_validate now) else ret tt.

(** [get_config] returns the registered object: here its state after the
    lazy load, which the registry holds too. *)
Definition get_config (now : datetime) (name : string) : M t (BaseConfig.t V C) :=
  found <- gets (fun m => PyDict.get (_configs m) name) ;;
  match found with
  | None => raise (ConfigException ("Config '" +:+ name +:+ "' not found"))
  | Some config =>
      lazy <- gets (fun m => is_LAZY (_strategy m)) ;;
      (if lazy && negb (BaseConfig.is_loaded config)
       then on_config name (load_and_validate now)
       else ret tt) ;;;
      on_config name (gets id)
  end.

Definition get_config_value (now : datetime) (config_name key : string)
    (default : Value) : M t Value :=
  try_except
    (get_config now config_name ;;;
     on_config config_name (BaseConfig.get now key default))
    (fun _ => ret default).

Definition set_config_value (now : datetime) (config_name key : string)
    (value : Value) : M t unit :=
  get_config now config_name ;;;
  on_config config_name (BaseConfig.set now key value None).

(** *** Bulk operations *)

(** The loop shared by the bulk operations,
    [for name, config in self._configs.items(): try: method(config) except ...]:
    the method is called on every registered object in turn, and what each
    call returned or raised is handed to the caller of the loop. *)
Fixpoint each_config {A : Type} (method : M (BaseConfig.t V C) A) (names : list string)
    (m : t) : t * list (string * Outcome A) :=
  match names with
  | [] => (m, [])
  | name :: names' =>
      let '(m1, r) := on_config name method m in
      let '(m2, rs) := each_config method names' m1 in
      (m2, (name, r) :: rs)
  end.

(** The entries of a loop that raised, with what they raised. *)
Fixpoint failures {A : Type} (rs : list (string * Outcome A)) : list (string * Exc) :=
  match rs with
  | [] => []
  | (name, Raise e) :: rs' => (name, e) :: failures rs'
  | (_, Ok _) :: rs' => failures rs'
  end.

(** [if not config.is_loaded(): config.load()] *)
Definition load_if_needed (now : datetime) : M (BaseConfig.t V C) unit :=
  fun config =>
    if BaseConfig.is_loaded config then (config, Ok tt)
    else BaseConfig.load now None config.

Definition load_all (now : datetime) : M t unit :=
  fun m =>
    let '(m', rs) := each_config (load_if_needed now) (PyDict.keys (_configs m)) m in
    match failures rs with
    | [] => (m', Ok tt)
    | errors => (m', Raise (ConfigLoadErrors errors))
    end.

(** One entry of the error list of [validate_all]:
    - [ValidationFailed name] is [f"Validation failed for config '{name}'"];
    - [ValidationRaised name e] is [f"Validation error for config '{name}': {e}"]. *)
Inductive ValidateAllMessage : Type :=
| ValidationFailed (name : string)
| ValidationRaised (name : string) (e : Exc).

Fixpoint validation_messages (rs : list (string * Outcome bool)) : list ValidateAllMessage :=
  match rs with
  | [] => []
  | (_, Ok true) :: rs' => validation_messages rs'
  | (name, Ok false) :: rs' => ValidationFailed name :: validation_messages rs'
  | (name, Raise e) :: rs' => ValidationRaised name e :: validation_messages rs'
  end.

(** [validate_all] logs the error list and returns [False] when it has an
    entry; the list is returned here beside the state for the proofs. *)
Definition validate_all_errors (m : t) : t * list ValidateAllMessage :=
  let '(m', rs) := each_config BaseConfig.validate (PyDict.keys (_configs m)) m in
  (m', validation_messages rs).

Definition validate_all : M t bool :=
  fun m =>
    match validate_all_errors m with
    | (m', []) => (m', Ok true)
    | (m', _ :: _) => (m', Ok false)
    end.

(** [reload_all] logs a failure of [reload] and goes on: it keeps no list of
    errors and raises nothing. *)
Definition reload_all (now : datetime) : M t unit :=
  fun m =>
    let '(m', _) := each_config (BaseConfig.reload now) (PyDict.keys (_configs m)) m in
    (with_last_reload now m', Ok tt).

(** *** The registry as a mapping *)

Definition has_config (m : t) (name : string) : bool := PyDict.mem name (_configs m).

(** [_config_paths] is an empty mapping that nothing writes to, so the
    branch that deletes from it is never taken; it is left out. *)
Definition remove_config (name : string) (m : t) : t :=
  if PyDict.mem name (_configs m) then with_configs (PyDict.del (_configs m) name) m else m.

Definition get_config_names (m : t) : list string := PyDict.keys (_configs m).

Definition clear_all (m : t) : t := with_configs [] m.

Definition set_loading_strategy (strategy : ConfigStrategy) (m : t) : t :=
  mk (_configs m) strategy (_environment m) (_auto_reload m) (_reload_interval m)
     (_last_reload m).

(** *** Hot reloading *)

Definition enable_auto_reload (interval : Z) (m : t) : t :=
  mk (_configs m) (_strategy m) (_environment m) true interval (_last_reload m).

Definition disable_auto_reload (m : t) : t :=
  mk (_configs m) (_strategy m) (_environment m) false (_reload_interval m) (_last_reload m).

(** [d.seconds] for the [timedelta] of [d] microseconds: the seconds that
    are left once the whole days are taken out, from 0 to 86399. *)
Definition timedelta_seconds (d : Z) : Z := Z.modulo (Z.div d 1000000) 86400.

Definition check_and_reload (now : datetime) : M t unit :=
  fun m =>
    if negb (_auto_reload m) then (m, Ok tt)
    else if Z.geb (timedelta_seconds (now - _last_reload m)) (_reload_interval m)
         then try_except (reload_all now) (fun _ => ret tt) m
         else (m, Ok tt).

End ConfigManager.
Arguments t V C : clear implicits.
End ConfigManager.

(** ** Application configurations (configs.py)

    Each subtype of [BaseConfig] is the name, the defaults and the required
    keys its three methods return. *)

Module ApplicationConfig.

Definition get_config_name : string := "application".

Definition get_default_values : Dict :=
  [("app_name", VStr "Digital Product & PPOB Platform API");
   ("app_version", VStr "1.0.0");
   ("debug", VBool false);
   ("environment", VStr "production");
   ("host", VStr "0.0.0.0");
   ("port", VInt 8000);
   ("workers", VInt 4);
   ("max_request_size", VInt 16777216);
   ("request_timeout", VInt 30);
   ("cors_enabled", VBool true);
   ("cors_origins", VList [VStr "*"]);
   ("cors_methods", VList [VStr "GET"; VStr "POST"; VStr "PUT"; VStr "DELETE"; VStr "OPTIONS"]);
   ("cors_headers", VList [VStr "*"]);
   ("api_prefix", VStr "/api/v1");
   ("docs_url", VStr "/docs");
   ("redoc_url", VStr "/redoc");
   ("openapi_url", VStr "/openapi.json");
   ("timezone", VStr "UTC");
   ("locale", VStr "en_US");
   ("pagination_default_limit", VInt 20);
   ("pagination_max_limit", VInt 100)].

Definition get_required_keys : list string := ["app_name"; "host"; "port"].

End ApplicationConfig.

Module DatabaseConfiguration.

Definition get_config_name : string := "database".

Definition get_default_values : Dict := DatabaseConfig.get_defaults.

Definition get_required_keys : list string := ["host"; "port"; "database"; "username"; "password"].

End DatabaseConfiguration.

Module CacheConfiguration.

Definition get_config_name : string := "cache".

Definition get_default_values : Dict := CacheConfig.get_defaults.

Definition get_required_keys : list string := ["backend"].

End CacheConfiguration.

Module SecurityConfiguration.

Definition get_config_name : string := "security".

(** [token] is what [secrets.token_urlsafe(32)] returns at this call. *)
Definition get_default_values (token : string) : Dict :=
  let defaults := SecurityConfig.get_defaults in
  if PyDict.mem "secret_key" defaults then defaults
  else PyDict.set defaults "secret_key" (VStr token).

Definition get_required_keys : list string := ["secret_key"].

End SecurityConfiguration.

Module LoggingConfiguration.

Definition get_config_name : string := "logging".

Definition get_default_values : Dict :=
  [("level", VStr "INFO");
   ("format", VStr "%(asctime)s - %(name)s - %(levelname)s - %(message)s");
   ("date_format", VStr "%Y-%m-%d %H:%M:%S");
   ("handlers", VList [VStr "console"; VStr "file"]);
   ("console_handler", VDict
       [("class", VStr "logging.StreamHandler");
        ("level", VStr "INFO");
        ("formatter", VStr "default")]);
   ("file_handler", VDict
       [("class", VStr "logging.handlers.RotatingFileHandler");
        ("level", VStr "DEBUG");
        ("formatter", VStr "detailed");
        ("filename", VStr "logs/app.log");
        ("maxBytes", VInt 10485760);
        ("backupCount", VInt 5)]);
   ("loggers", VDict
       [("uvicorn", VDict
          [("level", VStr "INFO")]);
        ("sqlalchemy", VDict
          [("level", VStr "WARNING")]);
        ("redis", VDict
          [("level", VStr "WARNING")])]);
   ("disable_existing_loggers", VBool false)].

Definition get_required_keys : list string := ["level"; "format"].

End LoggingConfiguration.

Module PaymentConfiguration.

Definition get_config_name : string := "payment".

Definition get_default_values : Dict :=
  [("default_gateway", VStr "midtrans");
   ("gateways", VDict
       [("midtrans", VDict
          [("enabled", VBool true);
           ("sandbox", VBool true);
           ("server_key", VStr "");
           ("client_key", VStr "");
           ("merchant_id", VStr "");
           ("timeout", VInt 30);
           ("notification_url", VStr "/api/v1/payment/midtrans/notification");
           ("return_url", VStr "/payment/success");
           ("error_url", VStr "/payment/error")]);
        ("xendit", VDict
          [("enabled", VBool false);
           ("sandbox", VBool true);
           ("secret_key", VStr "");
           ("public_key", VStr "");
           ("webhook_token", VStr "");
           ("timeout", VInt 30);
           ("callback_url", VStr "/api/v1/payment/xendit/callback")]);
        ("doku", VDict
          [("enabled", VBool false);
           ("sandbox", VBool true);
           ("mall_id", VStr "");
           ("shared_key", VStr "");
           ("timeout", VInt 30);
           ("notify_url", VStr "/api/v1/payment/doku/notify")])]);
   ("auto_settlement", VBool true);
   ("settlement_delay", VInt 24);
   ("max_retry_attempts", VInt 3);
   ("retry_delay", VInt 300);
   ("supported_currencies", VList [VStr "IDR"]);
   ("min_amount", VInt 1000);
   ("max_amount", VInt 50000000)].

Definition get_required_keys : list string := ["default_gateway"; "gateways"].

End PaymentConfiguration.

Module NotificationConfiguration.

Definition get_config_name : string := "notification".

Definition get_default_values : Dict :=
  [("email", VDict
       [("enabled", VBool true);
        ("provider", VStr "smtp");
        ("smtp", VDict
          [("host", VStr "localhost");
           ("port", VInt 587);
           ("username", VStr "");
           ("password", VStr "");
           ("use_tls", VBool true);
           ("use_ssl", VBool false);
           ("timeout", VInt 30)]);
        ("from_email", VStr "noreply@example.com");
        ("from_name", VStr "Digital Platform");
        ("templates_dir", VStr "templates/email");
        ("max_retry_attempts", VInt 3)]);
   ("sms", VDict
       [("enabled", VBool true);
        ("provider", VStr "twilio");
        ("twilio", VDict
          [("account_sid", VStr "");
           ("auth_token", VStr "");
           ("from_number", VStr "")]);
        ("max_retry_attempts", VInt 3)]);
   ("push", VDict
       [("enabled", VBool true);
        ("provider", VStr "firebase");
        ("firebase", VDict
          [("server_key", VStr "");
           ("project_id", VStr "")]);
        ("max_retry_attempts", VInt 3)]);
   ("webhook", VDict
       [("enabled", VBool true);
        ("timeout", VInt 30);
        ("max_retry_attempts", VInt 3);
        ("retry_delay", VInt 60)])].

Definition get_required_keys : list string := [].

End NotificationConfiguration.

Module PPOBConfiguration.

Definition get_config_name : string := "ppob".

Definition get_default_values : Dict :=
  [("providers", VDict
       [("mobilepulsa", VDict
          [("enabled", VBool true);
           ("api_key", VStr "");
           ("secret_key", VStr "");
           ("base_url", VStr "https://api.mobilepulsa.net/v1");
           ("timeout", VInt 30);
           ("max_retry_attempts", VInt 3)])]);
   ("categories", VDict
       [("pulsa", VDict
          [("enabled", VBool true);
           ("commission_rate", VFloat 0x1.999999999999ap-5);
           ("min_amount", VInt 5000);
           ("max_amount", VInt 1000000)]);
        ("data", VDict
          [("enabled", VBool true);
           ("commission_rate", VFloat 0x1.eb851eb851eb8p-6);
           ("min_amount", VInt 5000);
           ("max_amount", VInt 500000)]);
        ("pln", VDict
          [("enabled", VBool true);
           ("commission_rate", VFloat 0x1.47ae147ae147bp-6);
           ("min_amount", VInt 20000);
           ("max_amount", VInt 5000000)]);
        ("game", VDict
          [("enabled", VBool true);
           ("commission_rate", VFloat 0x1.47ae147ae147bp-4);
           ("min_amount", VInt 5000);
           ("max_amount", VInt 2000000)])]);
   ("auto_process", VBool true);
   ("process_delay", VInt 5);
   ("inquiry_timeout", VInt 30);
   ("transaction_timeout", VInt 60);
   ("status_check_interval", VInt 30);
   ("max_status_checks", VInt 10)].

Definition get_required_keys : list string := ["providers"].

End PPOBConfiguration.

Module MonitoringConfiguration.

Definition get_config_name : string := "monitoring".

Definition get_default_values : Dict :=
  [("enabled", VBool true);
   ("metrics", VDict
       [("enabled", VBool true);
        ("endpoint", VStr "/metrics");
        ("include_in_schema", VBool false);
        ("collect_default_metrics", VBool true);
        ("custom_metrics", VDict
          [("request_duration", VBool true);
           ("request_count", VBool true);
           ("error_count", VBool true);
           ("active_connections", VBool true)])]);
   ("health_check", VDict
       [("enabled", VBool true);
        ("endpoint", VStr "/health");
        ("include_in_schema", VBool false);
        ("checks", VDict
          [("database", VBool true);
           ("cache", VBool true);
           ("external_apis", VBool true);
           ("disk_space", VBool true);
           ("memory_usage", VBool true)])]);
   ("alerting", VDict
       [("enabled", VBool true);
        ("channels", VDict
          [("email", VDict
             [("enabled", VBool true);
              ("recipients", VList [VStr "admin@example.com"])]);
           ("slack", VDict
             [("enabled", VBool false);
              ("webhook_url", VStr "");
              ("channel", VStr "#alerts")])]);
        ("rules", VDict
          [("high_error_rate", VDict
             [("threshold", VFloat 0x1.999999999999ap-5);
              ("window", VInt 300);
              ("severity", VStr "critical")]);
           ("high_response_time", VDict
             [("threshold", VFloat 0x1.0000000000000p+1);
              ("window", VInt 300);
              ("severity", VStr "warning")]);
           ("low_disk_space", VDict
             [("threshold", VFloat 0x1.999999999999ap-4);
              ("severity", VStr "warning")])])]);
   ("tracing", VDict
       [("enabled", VBool false);
        ("service_name", VStr "digital-platform-api");
        ("jaeger", VDict
          [("agent_host", VStr "localhost");
           ("agent_port", VInt 6831)])])].

Definition get_required_keys : list string := [].

End MonitoringConfiguration.

Module RateLimitConfiguration.

Definition get_config_name : string := "rate_limit".

Definition get_default_values : Dict :=
  [("enabled", VBool true);
   ("storage", VStr "redis");
   ("default_limits", VDict
       [("requests_per_minute", VInt 60);
        ("requests_per_hour", VInt 1000);
        ("requests_per_day", VInt 10000)]);
   ("endpoint_limits", VDict
       [("/api/v1/auth/login", VDict
          [("requests_per_minute", VInt 5);
           ("requests_per_hour", VInt 20)]);
        ("/api/v1/auth/register", VDict
          [("requests_per_minute", VInt 3);
           ("requests_per_hour", VInt 10)]);
        ("/api/v1/payment/*", VDict
          [("requests_per_minute", VInt 30);
           ("requests_per_hour", VInt 500)])]);
   ("user_type_limits", VDict
       [("guest", VDict
          [("requests_per_minute", VInt 30);
           ("requests_per_hour", VInt 500)]);
        ("user", VDict
          [("requests_per_minute", VInt 60);
           ("requests_per_hour", VInt 1000)]);
        ("partner", VDict
          [("requests_per_minute", VInt 120);
           ("requests_per_hour", VInt 2000)]);
        ("admin", VDict
          [("requests_per_minute", VInt 300);
           ("requests_per_hour", VInt 5000)])]);
   ("whitelist_ips", VList []);
   ("blacklist_ips", VList []);
   ("headers", VDict
       [("limit", VStr "X-RateLimit-Limit");
        ("remaining", VStr "X-RateLimit-Remaining");
        ("reset", VStr "X-RateLimit-Reset")]);
   ("error_message", VStr "Rate limit exceeded. Please try again later.");
   ("error_status_code", VInt 429)].

Definition get_required_keys : list string := [].

End RateLimitConfiguration.

Module TaskConfiguration.

Definition get_config_name : string := "tasks".

Definition get_default_values : Dict :=
  [("broker", VStr "redis");
   ("backend", VStr "redis");
   ("redis", VDict
       [("host", VStr "localhost");
        ("port", VInt 6379);
        ("db", VInt 1);
        ("password", VNone)]);
   ("rabbitmq", VDict
       [("host", VStr "localhost");
        ("port", VInt 5672);
        ("username", VStr "guest");
        ("password", VStr "guest");
        ("virtual_host", VStr "/")]);
   ("worker", VDict
       [("concurrency", VInt 4);
        ("max_tasks_per_child", VInt 1000);
        ("task_time_limit", VInt 300);
        ("task_soft_time_limit", VInt 240)]);
   ("beat", VDict
       [("enabled", VBool true);
        ("schedule", VDict
          [("cleanup_expired_sessions", VDict
             [("task", VStr "tasks.maintenance.cleanup.session_cleanup");
              ("schedule", VFloat 0x1.c200000000000p+11)]);
           ("update_exchange_rates", VDict
             [("task", VStr "tasks.ppob.maintenance.price_update");
              ("schedule", VFloat 0x1.c200000000000p+10)]);
           ("generate_daily_reports", VDict
             [("task", VStr "tasks.reporting.financial.daily_report");
              ("schedule", VDict
                [("hour", VInt 1);
                 ("minute", VInt 0)])])])]);
   ("routes", VDict
       [("email", VStr "email_queue");
        ("sms", VStr "sms_queue");
        ("push", VStr "push_queue");
        ("payment", VStr "payment_queue");
        ("ppob", VStr "ppob_queue");
        ("reports", VStr "reports_queue")]);
   ("retry", VDict
       [("max_retries", VInt 3);
        ("retry_delay", VInt 60);
        ("retry_backoff", VBool true);
        ("retry_jitter", VBool true)])].

Definition get_required_keys : list string := ["broker"].

End TaskConfiguration.

Module AppConfigFactory.

Definition app_validator : SchemaValidator.t :=
  SchemaValidator.mk
    [("app_name", SchemaValidator.mkEntry (Some SchemaValidator.py_str) true None None None []);
     ("port", SchemaValidator.mkEntry (Some SchemaValidator.py_int) false (Some 1) (Some 65535) None []);
     ("workers", SchemaValidator.mkEntry (Some SchemaValidator.py_int) false (Some 1) (Some 32) None []);
     ("debug", SchemaValidator.mkEntry (Some SchemaValidator.py_bool) false None None None [])]
    [].

(** [create_all_configs]; [token] is the secret the security configuration
    generates when its defaults are read. *)
Definition create_all_configs (token : string)
    : list (string * BaseConfig.t SchemaValidator.t MemoryCache.t) :=
  let config name defaults required validator :=
    BaseConfig.init name defaults required validator None None None in
  [("application",
    config ApplicationConfig.get_config_name ApplicationConfig.get_default_values
      ApplicationConfig.get_required_keys (Some app_validator));
   ("database",
    config DatabaseConfiguration.get_config_name DatabaseConfiguration.get_default_values
      DatabaseConfiguration.get_required_keys
      (Some (SchemaValidator.mk DatabaseConfig.get_schema [])));
   ("cache",
    config CacheConfiguration.get_config_name CacheConfiguration.get_default_values
      CacheConfiguration.get_required_keys
      (Some (SchemaValidator.mk CacheConfig.get_schema [])));
   ("security",
    config SecurityConfiguration.get_config_name
      (SecurityConfiguration.get_default_values token)
      SecurityConfiguration.get_required_keys
      (Some (SchemaValidator.mk SecurityConfig.get_schema [])));
   ("logging",
    config LoggingConfiguration.get_config_name LoggingConfiguration.get_default_values
      LoggingConfiguration.get_required_keys None);
   ("payment",
    config PaymentConfiguration.get_config_name PaymentConfiguration.get_default_values
      PaymentConfiguration.get_required_keys None);
   ("notification",
    config NotificationConfiguration.get_config_name
      NotificationConfiguration.get_default_values
      NotificationConfiguration.get_required_keys None);
   ("ppob",
    config PPOBConfiguration.get_config_name PPOBConfiguration.get_default_values
      PPOBConfiguration.get_required_keys None);
   ("monitoring",
    config MonitoringConfiguration.get_config_name MonitoringConfiguration.get_default_values
      MonitoringConfiguration.get_required_keys None);
   ("rate_limit",
    config RateLimitConfiguration.get_config_name RateLimitConfiguration.get_default_values
      RateLimitConfiguration.get_required_keys None);
   ("tasks",
    config TaskConfiguration.get_config_name TaskConfiguration.get_default_values
      TaskConfiguration.get_required_keys None)].

End AppConfigFactory.

(** ** [_data] as shared objects, [backup] and [restore] (base.py)

    [BaseConfig] above holds [_data] by value, which is exact as long as no
    mapping is reached from two places.  [backup] and [restore] copy the top
    level of [_data] only ([dict.copy()]), so a snapshot and the live object
    share the nested mappings.  This module models [_data] and [_metadata],
    the helper methods that walk [_data], and [backup] and [restore], with
    mappings as objects of a store, as Python holds them. *)

Module SharedData.

(** What a key is bound to: a value that is no mapping, or a reference to a
    mapping of the store. *)
Inductive Cell : Type :=
| Atom (v : Value)
| Ref (address : nat).

(** A [dict] object, and the store: the object at address [l] is the [l]-th. *)
Abbreviation Object := (list (string * Cell)) (only parsing).

Abbreviation Store := (list Object) (only parsing).

(** A new object goes at the end of the store. *)
Definition alloc (o : Object) (h : Store) : nat * Store := (length h, (h ++ [o])%list).

(** The cells of a value that is written: its mappings become new objects. *)
Fixpoint alloc_value (v : Value) (h : Store) {struct v} : Cell * Store :=
  match v with
  | VDict d =>
      let '(entries, h') :=
        (fix go (d : list (string * Value)) (entries : Object) (h : Store) {struct d}
           : Object * Store :=
           match d with
           | [] => (entries, h)
           | (k, x) :: d' =>
               let '(c, h1) := alloc_value x h in
               go d' (PyDict.set entries k c) h1
           end) d [] h in
      let '(l, h'') := alloc entries h' in
      (Ref l, h'')
  | _ => (Atom v, h)
  end.

(** The state: the store, the address [self._data] holds, and
    [self._metadata] in the order of its keys. *)
Record t : Type := mk {
  store : Store;
  _data : nat;
  _metadata : list (string * ConfigMetadata)
}.

(** [self._data = {}] and [self._metadata = {}] *)
Definition init : t := mk [[]] 0 [].

(** The descent of [_get_nested_value]. *)
Fixpoint get_path (h : Store) (value : Cell) (keys : list string) (default : Cell) : Cell :=
  match keys with
  | [] => value
  | k :: keys' =>
      match value with
      | Ref l =>
          match h !! l with
          | Some o =>
              match PyDict.get o k with
              | Some c => get_path h c keys' default
              | None => default
              end
          | None => default
          end
      | Atom _ => default
      end
  end.

Definition _get_nested_value (self : t) (key : string) (default : Value) : Cell :=
  get_path (store self) (Ref (_data self)) (Py.split "." key) (Atom default).

(** The walk of [_set_nested_value]: it changes the object it arrives at, in
    place. *)
Fixpoint set_path (h : Store) (data : Cell) (keys : list string) (value : Cell)
    : Store * Outcome unit :=
  match keys with
  | [] => (h, Ok tt)
  | [k] =>
      match data with
      | Ref l =>
          match h !! l with
          | Some o => (<[l := PyDict.set o k value]> h, Ok tt)
          | None => (h, Raise TypeError)
          end
      | Atom _ => (h, Raise TypeError)
      end
  | k :: keys' =>
      match data with
      | Ref l =>
          match h !! l with
          | Some o =>
              match PyDict.get o k with
              | Some child => set_path h child keys' value
              | None =>
                  let '(l', h1) := alloc [] h in
                  set_path (<[l := PyDict.set o k (Ref l')]> h1) (Ref l') keys' value
              end
          | None => (h, Raise TypeError)
          end
      | Atom _ => (h, Raise TypeError)
      end
  end.

Definition _set_nested_value (key : string) (value : Value) : M t unit :=
  fun self =>
    let '(cell, h) := alloc_value value (store self) in
    let '(h', r) := set_path h (Ref (_data self)) (Py.split "." key) cell in
    (mk h' (_data self) (_metadata self), r).

(** [d.copy()]: a new object with the entries of the object at [l]. *)
Definition copy (l : nat) (h : Store) : nat * Store :=
  alloc (default [] (h !! l)) h.

Section Backup.
Context `{Python}.

(** The mapping [backup()] returns, and any mapping handed to [restore]:
    each of its two keys may be missing.  ['data'] is a mapping of the store,
    ['metadata'] holds the serialized records in the order of their keys. *)
Record Backup : Type := mkBackup {
  backup_data : option nat;
  backup_metadata : option (list (string * BaseConfig.MetadataBackup))
}.

(** [backup]: ['data'] is the new object that [self._data.copy()] makes. *)
Definition backup (self : t) : Backup * t :=
  let '(snapshot, h) := copy (_data self) (store self) in
  (mkBackup (Some snapshot)
     (Some (map (fun kv => (fst kv, BaseConfig.metadata_to_backup (snd kv))) (_metadata self))),
   mk h (_data self) (_metadata self)).

(** [restore]: [self._data = backup['data'].copy()], then [_metadata] is
    emptied and rebuilt entry by entry; an entry that [ConfigMetadata(...)]
    refuses stops the loop with its error. *)
Definition restore (b : Backup) : M t unit :=
  bind
    (match backup_data b with
     | Some snapshot =>
         modify (fun self =>
           let '(l, h) := copy snapshot (store self) in mk h l (_metadata self))
     | None => ret tt
     end)
    (fun _ =>
       match backup_metadata b with
       | Some metas =>
           bind (modify (fun self => mk (store self) (_data self) []))
             (fun _ =>
                for_each metas (fun '(key, meta) =>
                  fun self =>
                    match BaseConfig.metadata_of_backup meta with
                    | Ok m =>
                        (mk (store self) (_data self) (PyDict.set (_metadata self) key m),
                         Ok tt)
                    | Raise e => (self, Raise e)
                    end))
       | None => ret tt
       end).

End Backup.

End SharedData.

(** ** Vocabulary of the statements *)

(** The descent that [_get_nested_value] performs, told as the spec tells it:
    the value a dotted path leads to, or nothing when a segment is missing or
    is looked up in a value that is no mapping. *)
Fixpoint lookup_path (value : Value) (keys : list string) : option Value :=
  match keys with
  | [] => Some value
  | k :: keys' =>
      match value with
      | VDict d =>
          match PyDict.get d k with
          | Some v => lookup_path v keys'
          | None => None
          end
      | _ => None
      end
  end.

(** A path can be written when each of its intermediate segments is missing
    or bound to a mapping. *)
Fixpoint writable (data : Value) (keys : list string) : bool :=
  match keys with
  | [] => true
  | [k] => match data with VDict _ => true | _ => false end
  | k :: keys' =>
      match data with
      | VDict d =>
          match PyDict.get d k with
          | Some child => writable child keys'
          | None => true
          end
      | _ => false
      end
  end.

Section Vocabulary.
Context `{Python} {V C : Type} `{!IConfigValidator V} `{!IConfigCache C}.

(** What [get] reads from [_data] when the cache has nothing: the value the
    path leads to (or the default), decrypted when the key is flagged. *)
Definition read (c : BaseConfig.t V C) (key : string) (default : Value) : Outcome Value :=
  snd (BaseConfig.decrypt_if_needed key
         (BaseConfig._get_nested_value (BaseConfig._data c) key default) c).

(** What [set] writes under the key: the value, or its cipher text. *)
Definition stored (c : BaseConfig.t V C) (key : string) (value : Value) : Outcome Value :=
  snd (BaseConfig.encrypt_if_needed key value c).

(** The metadata record [set] binds the key to. *)
Definition metadata_written (metadata : option ConfigMetadata) (now : datetime)
    : ConfigMetadata :=
  match metadata with
  | Some m => m
  | None => new_metadata MEMORY MEDIUM now
  end.

(** One turn of the loop of [load_defaults], as a function of the state. *)
Definition load_default (now : datetime) (c : BaseConfig.t V C) (kv : string * Value)
    : BaseConfig.t V C :=
  if PyDict.mem (fst kv) (BaseConfig._data c) then c
  else BaseConfig.with_metadata
         (<[fst kv := new_metadata MEMORY LOW now]> (BaseConfig._metadata c))
         (BaseConfig.with_data (PyDict.set (BaseConfig._data c) (fst kv) (snd kv)) c).

End Vocabulary.

(** What the spec says [load_defaults] does to [_data]: each default whose
    key is not present yet is added, in the order of the defaults. *)
Definition add_defaults (defaults data : Dict) : Dict :=
  fold_left (fun d '(key, value) => if PyDict.mem key d then d else PyDict.set d key value)
            defaults data.

(** What the model needs of [datetime.isoformat] and
    [datetime.fromisoformat]: a printed time is not the empty text, and it
    parses back to the time it prints. *)
Class IsoLaws `{Python} : Prop := {
  fromisoformat_isoformat : forall d, fromisoformat (isoformat d) = Ok d;
  isoformat_nonempty : forall d, isoformat d <> EmptyString
}.

(** The required keys that are not keys of [_data]. *)
Definition missing_keys {V C : Type} (c : BaseConfig.t V C) : list string :=
  List.filter (fun key => negb (PyDict.mem key (BaseConfig._data c)))
              (BaseConfig.required_keys c).

(** The messages a [SchemaValidator] with this schema leaves for one key and
    value. *)
Definition schema_messages `{Python} (schema : list (string * SchemaValidator.Entry))
    (key : string) (value : Value) : list string :=
  SchemaValidator.errors
    (fst (SchemaValidator.validate (SchemaValidator.mk schema []) key value)).

(** A number under a bound, and over it. *)
Definition under (value : Value) (m : Z) : Prop :=
  match value with
  | VInt n => (n < m)%Z
  | VBool b => (Z.b2z b < m)%Z
  | VFloat f => SchemaValidator.float_compare_int f m = Some Lt
  | _ => False
  end.

Definition over (value : Value) (m : Z) : Prop :=
  match value with
  | VInt n => (m < n)%Z
  | VBool b => (m < Z.b2z b)%Z
  | VFloat f => SchemaValidator.float_compare_int f m = Some Gt
  | _ => False
  end.

(** A schema violation, as the spec tells the constraints of an entry: a
    required value is [None]; or the value is not [None] and is not of the
    expected type, is a number under the minimum or over the maximum, is a
    text the pattern does not match, or is not one of the choices. *)
Definition violates `{Python} (entry : SchemaValidator.Entry) (value : Value) : Prop :=
  (SchemaValidator.entry_required entry = true /\ value = VNone)
  \/ (value <> VNone
      /\ ((exists ty, SchemaValidator.entry_type entry = Some ty
                      /\ SchemaValidator.isinstance value ty = false)
          \/ (exists m, SchemaValidator.entry_min entry = Some m /\ under value m)
          \/ (exists m, SchemaValidator.entry_max entry = Some m /\ over value m)
          \/ (exists s a p,
                value = VStr s
                /\ SchemaValidator.entry_pattern entry = Some (String a p)
                /\ re_match (String a p) s = inl false)
          \/ (SchemaValidator.entry_choices entry <> []
              /\ forall s, value = VStr s -> ~ In s (SchemaValidator.entry_choices entry)))).

(** The pattern of an entry cannot be run on a text: [re.match] raises. *)
Definition pattern_raises `{Python} (entry : SchemaValidator.Entry) (value : Value) : Prop :=
  exists s a p text,
    value = VStr s
    /\ SchemaValidator.entry_pattern entry = Some (String a p)
    /\ re_match (String a p) s = inr text.

(** The aggregated error list, as the spec tells it: one message naming all
    the missing required keys, when there is one, then the messages of the
    validator for every key of [_data], in the order of the keys. *)
Definition expected_errors `{Python} {C : Type} (c : BaseConfig.t SchemaValidator.t C)
    : list ValidationMessage :=
  match missing_keys c with
  | [] => []
  | keys => [MissingRequiredKeys keys]
  end
  ++ match BaseConfig._validator c with
     | Some vs =>
         flat_map
           (fun kv => map (KeyError (fst kv))
                          (schema_messages (SchemaValidator.schema vs) (fst kv) (snd kv)))
           (BaseConfig._data c)
     | None => []
     end.

Definition is_nil {A : Type} (l : list A) : bool :=
  match l with [] => true | _ :: _ => false end.

(** A method run on every object of a registry on its own: the objects it
    leaves, and what each call returned or raised, by name. *)
Definition states_after {V C A : Type} (method : M (BaseConfig.t V C) A)
    (configs : list (string * BaseConfig.t V C)) : list (string * BaseConfig.t V C) :=
  map (fun nc => (fst nc, fst (method (snd nc)))) configs.

Definition outcomes_of {V C A : Type} (method : M (BaseConfig.t V C) A)
    (configs : list (string * BaseConfig.t V C)) : list (string * Outcome A) :=
  map (fun nc => (fst nc, snd (method (snd nc)))) configs.

(** A store is closed when every reference held by one of its objects is an
    address of the store. *)
Definition cell_in (h : SharedData.Store) (c : SharedData.Cell) : Prop :=
  match c with
  | SharedData.Ref l => (l < length h)%nat
  | SharedData.Atom _ => True
  end.

Definition closed (h : SharedData.Store) : Prop :=
  forall l o k c, h !! l = Some o -> PyDict.get o k = Some c -> cell_in h c.

(** The contract of a cache that works: no call raises, and a key that was
    invalidated is not found.  [MemoryCache] honours it. *)
Class CacheLaws (C : Type) `{!IConfigCache C} : Prop := {
  cache_get_returns : forall now ch key, raises (snd (cache_get now ch key)) = false;
  cache_set_returns : forall now ch key value ttl,
    raises (snd (cache_set now ch key value ttl)) = false;
  cache_invalidate_returns : forall ch key, raises (snd (cache_invalidate ch key)) = false;
  cache_clear_returns : forall ch, raises (snd (cache_clear ch)) = false;
  cache_get_invalidated : forall now ch key,
    snd (cache_get now (fst (cache_invalidate ch key)) key) = Ok VNone
}.

Definition ttl_covered (self : MemoryCache.t) : Prop :=
  forall key, is_Some (MemoryCache._ttl self !! key) -> is_Some (MemoryCache._cache self !! key).

Definition schema_of_types (type_mapping : list (string * SchemaValidator.PyType))
    : list (string * SchemaValidator.Entry) :=
  map (fun kt => (fst kt, SchemaValidator.mkEntry (Some (snd kt)) false None None None []))
      type_mapping.

(** A method respects a relation between states when every call of it,
    whether it returns or raises, leaves a state the relation ties to the
    state it was called on. *)
Definition respects {S A : Type} (R : S -> S -> Prop) (m : M S A) : Prop :=
  forall s s' r, m s = (s', r) -> R s s'.

(** The states that agree on what [f] reads. *)
Definition same_on {S X : Type} (f : S -> X) : S -> S -> Prop :=
  fun s s' => f s' = f s.

(** A key without a dot: a path of one segment. *)
Definition top_level (key : string) : Prop := Py.split "." key = [key].


Section MoreVocabulary.
Context `{Python} {V C : Type} `{!IConfigValidator V} `{!IConfigCache C}.

(** What [set], [load], [validate], [reload] and [remove_key] never write:
    the subtype's answers, the plug-ins but the validator and the cache, the
    observers and the readonly flag. *)
Definition fixed_part (c : BaseConfig.t V C) :=
  (BaseConfig.config_name c, BaseConfig.default_values c, BaseConfig.required_keys c,
   BaseConfig._observers c, BaseConfig._loader c, BaseConfig._encryption c,
   BaseConfig._readonly c).

(** The loop of [load] over the defaults: a default whose key is not a key
    of [_data] goes through [set]. *)
Definition load_missing (now : datetime) (defaults : Dict) : M (BaseConfig.t V C) unit :=
  for_each defaults (fun '(key, value) =>
    bind (gets (fun c => PyDict.mem key (BaseConfig._data c)))
      (fun present =>
         if present then ret tt
         else BaseConfig.set now key value (Some (new_metadata MEMORY LOW now)))).

(** The call of the loader in [load], with the merge of what it returns. *)
Definition load_source (src : option string) : M (BaseConfig.t V C) unit :=
  fun c =>
    match BaseConfig._loader c, src with
    | Some l, Some (String a s) =>
        match loader_load l (String a s) with
        | Ok data => BaseConfig._merge_data data c
        | Raise e => (c, Raise e)
        end
    | _, _ => (c, Ok tt)
    end.

(** The body of the [try] of [load], up to the assignment of [_loaded]. *)
Definition load_body (now : datetime) (src : option string) : M (BaseConfig.t V C) unit :=
  bind (load_source src)
    (fun _ => bind (gets BaseConfig.default_values) (fun defaults => load_missing now defaults)).

End MoreVocabulary.

(** The states that agree on what [g] binds to every key but [k0]. *)
Definition same_except {S K X : Type} (g : S -> K -> X) (k0 : K) : S -> S -> Prop :=
  fun s s' => forall k, k <> k0 -> g s' k = g s k.

(** The states whose later one has every top-level key of the earlier one. *)
Definition keeps_keys {V C : Type} (c c' : BaseConfig.t V C) : Prop :=
  forall k, PyDict.mem k (BaseConfig._data c) = true -> PyDict.mem k (BaseConfig._data c') = true.

(** ** Sample plug-ins and library functions

    Concrete instances on which the statements below are run.  [python]
    prints a time as its count of microseconds; [cipher] stands for a
    reversible [IConfigEncryption] such as [FernetEncryption]. *)

Module Sample.

Definition print_time (d : datetime) : string := Py.str_int d.

Definition parse_time (s : string) : Outcome datetime :=
  match NilZero.int_of_string s with
  | Some i => Ok (Z.of_int i)
  | None => Raise (Exception "ValueError")
  end.

Definition python : Python := {|
  repr := fun _ => "<repr>";
  re_match := fun _ _ => inl true;
  float_of_string := fun _ => None;
  json_loads := fun _ => None;
  isoformat := print_time;
  fromisoformat := parse_time
|}.

Definition cipher : IConfigEncryption := {|
  encrypt := fun s => Ok ("enc:" +:+ s);
  decrypt := fun s =>
    if Py.startswith s "enc:" then Ok (Py.drop 4 s)
    else Raise (Exception "InvalidToken")
|}.

(** A configuration object without plug-ins, defaults or required keys. *)
Definition plain : BaseConfig.t SchemaValidator.t MemoryCache.t :=
  BaseConfig.init "sample" [] [] None None None None.

(** An object with an encryptor, no cache and no validator. *)
Definition with_cipher : BaseConfig.t SchemaValidator.t MemoryCache.t :=
  BaseConfig.init "sample" [] [] None None (Some cipher) None.

(** An object with an in-memory cache. *)
Definition with_memory_cache : BaseConfig.t SchemaValidator.t MemoryCache.t :=
  BaseConfig.init "sample" [] [] None None None (Some MemoryCache.init).

(** An object that is locked before its default has been loaded: [load]
    and [reload] raise on it. *)
Definition locked (name : string) : BaseConfig.t SchemaValidator.t MemoryCache.t :=
  BaseConfig.set_readonly true
    (BaseConfig.init name [("host", VStr "localhost")] [] None None None None).

(** A registry of three objects, two of them locked. *)
Definition registry : ConfigManager.t SchemaValidator.t MemoryCache.t :=
  ConfigManager.with_configs
    [("application", BaseConfig.init "application" [("port", VInt 8000)] ["port"]
                       None None None None);
     ("database", locked "database");
     ("cache", locked "cache")]
    (ConfigManager.init 0).

End Sample.

(** * Properties *)

(** ** Readonly objects *)

Section Readonly.
Context `{Python} {V C : Type} `{!IConfigValidator V} `{!IConfigCache C}.

(** C5: on an object whose [_readonly] flag is set, [set] and [remove_key]
    raise the readonly [ConfigException] and return the state they were
    called on, so [_data], [_metadata] and every other field are unchanged,
    whatever the key, the value and the metadata. *)
Theorem readonly_rejects_set_and_remove_key
    (c : BaseConfig.t V C) (now : datetime) (key : string) (value : Value)
    (metadata : option ConfigMetadata) :
  BaseConfig._readonly c = true ->
  BaseConfig.set now key value metadata c
    = (c, Raise (ConfigException ("Configuration is readonly, cannot set '" +:+ key +:+ "'")))
  /\ BaseConfig.remove_key key c
    = (c, Raise (ConfigException "Configuration is readonly")).
Proof.
  intros Hro.
  unfold BaseConfig.set, BaseConfig.remove_key, bind, gets, raise.
  rewrite Hro. split; reflexivity.
Qed.

End Readonly.

Section ReadonlyExample.
#[local] Existing Instance Sample.python.

Lemma readonly_rejects_set_and_remove_key_witness :
  let c := BaseConfig.set_readonly true
             (BaseConfig.with_data [("port", VInt 8000)] Sample.plain) in
  (BaseConfig.set 0 "port" (VInt 9) None c
     = (c, Raise (ConfigException "Configuration is readonly, cannot set 'port'")))
  /\ BaseConfig.remove_key "port" c
     = (c, Raise (ConfigException "Configuration is readonly")).
Proof.
  intros c.
  exact (readonly_rejects_set_and_remove_key c 0 "port" (VInt 9) None eq_refl).
Defined.

End ReadonlyExample.

(** ** Dictionaries and paths *)

Section DictFacts.
Context {A : Type}.
Implicit Types (d : list (string * A)) (k : string) (v : A).

Lemma dict_get_set_eq d k v : PyDict.get (PyDict.set d k v) k = Some v.
Proof.
  induction d as [|[k' v'] d IH]; simpl.
  - now rewrite String.eqb_refl.
  - destruct (String.eqb k' k) eqn:E; simpl; rewrite E; auto.
Qed.

Lemma dict_get_set_ne d k k' v :
  k <> k' -> PyDict.get (PyDict.set d k v) k' = PyDict.get d k'.
Proof.
  intros Hne. induction d as [|[k0 v0] d IH]; simpl.
  - destruct (String.eqb_spec k k'); congruence.
  - destruct (String.eqb_spec k0 k) as [->|Hk]; simpl.
    + destruct (String.eqb_spec k k'); congruence.
    + now rewrite IH.
Qed.

Lemma dict_set_get_same d k v : PyDict.get d k = Some v -> PyDict.set d k v = d.
Proof.
  induction d as [|[k' v'] d IH]; simpl; [discriminate|].
  destruct (String.eqb k' k) eqn:E.
  - now intros [= ->].
  - intros Hg. now rewrite IH.
Qed.

Lemma dict_mem_get d k : PyDict.mem k d = true <-> exists v, PyDict.get d k = Some v.
Proof.
  unfold PyDict.mem. destruct (PyDict.get d k); split; eauto; try discriminate.
  intros [? [=]].
Qed.

Lemma dict_mem_false_get d k : PyDict.mem k d = false <-> PyDict.get d k = None.
Proof.
  unfold PyDict.mem. destruct (PyDict.get d k); split; congruence.
Qed.

Lemma dict_mem_keys d k : PyDict.mem k d = true <-> In k (PyDict.keys d).
Proof.
  unfold PyDict.mem, PyDict.keys. induction d as [|[k' v'] d IH]; simpl.
  - split; [discriminate | tauto].
  - destruct (String.eqb_spec k' k) as [->|Hne].
    + split; auto.
    + rewrite IH. split; [auto | intros [?|?]; congruence].
Qed.

Lemma dict_mem_set d k k' v :
  PyDict.mem k' (PyDict.set d k v) = String.eqb k k' || PyDict.mem k' d.
Proof.
  unfold PyDict.mem. destruct (String.eqb_spec k k') as [->|Hne]; simpl.
  - now rewrite dict_get_set_eq.
  - now rewrite dict_get_set_ne.
Qed.

Lemma dict_keys_set_present d k v :
  PyDict.mem k d = true -> PyDict.keys (PyDict.set d k v) = PyDict.keys d.
Proof.
  unfold PyDict.mem, PyDict.keys. induction d as [|[k' v'] d IH]; simpl; [discriminate|].
  destruct (String.eqb_spec k' k) as [->|Hne]; simpl; [reflexivity|].
  intros Hm. now rewrite IH.
Qed.

Lemma dict_get_del_eq d k : PyDict.get (PyDict.del d k) k = None.
Proof.
  induction d as [|[k' v'] d IH]; simpl; [reflexivity|].
  destruct (String.eqb k' k) eqn:E; simpl; [|rewrite E]; auto.
Qed.

Lemma dict_del_absent d k : PyDict.get d k = None -> PyDict.del d k = d.
Proof.
  induction d as [|[k' v'] d IH]; simpl; [reflexivity|].
  destruct (String.eqb k' k); [discriminate|]. intros Hg. now rewrite IH.
Qed.

End DictFacts.

Lemma split_nonempty sep s : Py.split sep s <> [].
Proof.
  destruct s as [|c s]; simpl; [discriminate|].
  destruct (Ascii.eqb c sep); [discriminate|].
  destruct (Py.split sep s); discriminate.
Qed.

Lemma get_path_lookup value keys default :
  BaseConfig.get_path value keys default
  = match lookup_path value keys with Some v => v | None => default end.
Proof.
  revert value. induction keys as [|k keys IH]; intros value; simpl; [reflexivity|].
  destruct value; try reflexivity.
  destruct (PyDict.get entries k); [apply IH | reflexivity].
Qed.

Lemma set_path_step data k k2 keys value :
  BaseConfig.set_path data (k :: k2 :: keys) value
  = match data with
    | VDict d =>
        let d1 := if PyDict.mem k d then d else PyDict.set d k (VDict []) in
        match PyDict.get d1 k with
        | Some child =>
            let '(child', r) := BaseConfig.set_path child (k2 :: keys) value in
            (VDict (PyDict.set d1 k child'), r)
        | None => (VDict d1, Raise TypeError)
        end
    | _ => (data, Raise TypeError)
    end.
Proof. reflexivity. Qed.

Lemma writable_step data k k2 keys :
  writable data (k :: k2 :: keys)
  = match data with
    | VDict d =>
        match PyDict.get d k with
        | Some child => writable child (k2 :: keys)
        | None => true
        end
    | _ => false
    end.
Proof. reflexivity. Qed.

Lemma set_path_dict d keys value :
  exists d', fst (BaseConfig.set_path (VDict d) keys value) = VDict d'.
Proof.
  destruct keys as [|k [|k2 keys]]; [simpl; eauto ..|].
  rewrite set_path_step. cbv zeta.
  destruct (PyDict.get _ k) as [child|]; [|simpl; eauto].
  destruct (BaseConfig.set_path child (k2 :: keys) value); simpl; eauto.
Qed.

Lemma set_path_empty_ok keys value :
  snd (BaseConfig.set_path (VDict []) keys value) = Ok tt.
Proof.
  induction keys as [|k [|k2 keys] IH]; try reflexivity.
  rewrite set_path_step. cbn [PyDict.mem PyDict.get PyDict.set].
  rewrite String.eqb_refl.
  destruct (BaseConfig.set_path (VDict []) (k2 :: keys) value); simpl in *; auto.
Qed.

(** A walk that raises has changed nothing. *)
Lemma set_path_raise_unchanged data keys value data' e :
  BaseConfig.set_path data keys value = (data', Raise e) -> data' = data.
Proof.
  revert data data'. induction keys as [|k [|k2 keys] IH]; intros data data'.
  - simpl. congruence.
  - simpl. destruct data; congruence.
  - rewrite set_path_step. destruct data; try congruence. cbv zeta.
    destruct (PyDict.mem k entries) eqn:Hm.
    + apply dict_mem_get in Hm as [child Hc]. rewrite Hc.
      destruct (BaseConfig.set_path child (k2 :: keys) value) as [child' r] eqn:Hs.
      intros [= <- ->]. apply IH in Hs. subst child'.
      now rewrite dict_set_get_same.
    + rewrite dict_get_set_eq.
      pose proof (set_path_empty_ok (k2 :: keys) value) as Hok.
      destruct (BaseConfig.set_path (VDict []) (k2 :: keys) value) as [child' r].
      simpl in Hok. subst r. congruence.
Qed.

Lemma set_path_writable data keys value :
  writable data keys = true -> snd (BaseConfig.set_path data keys value) = Ok tt.
Proof.
  revert data. induction keys as [|k [|k2 keys] IH]; intros data.
  - reflexivity.
  - simpl. destruct data; simpl; congruence.
  - rewrite set_path_step, writable_step. destruct data; try discriminate. cbv zeta.
    unfold PyDict.mem. destruct (PyDict.get entries k) as [child|] eqn:Hc.
    + rewrite Hc. intros Hw. apply IH in Hw.
      destruct (BaseConfig.set_path child (k2 :: keys) value); auto.
    + intros _. rewrite dict_get_set_eq.
      pose proof (set_path_empty_ok (k2 :: keys) value) as Hok.
      destruct (BaseConfig.set_path (VDict []) (k2 :: keys) value); auto.
Qed.

Lemma set_path_ok_writable data keys value :
  snd (BaseConfig.set_path data keys value) = Ok tt -> writable data keys = true.
Proof.
  revert data. induction keys as [|k [|k2 keys] IH]; intros data.
  - reflexivity.
  - simpl. destruct data; simpl; congruence.
  - rewrite set_path_step, writable_step. destruct data; try discriminate. cbv zeta.
    unfold PyDict.mem. destruct (PyDict.get entries k) as [child|] eqn:Hc; [|reflexivity].
    rewrite Hc. intros Hs. apply IH.
    destruct (BaseConfig.set_path child (k2 :: keys) value); auto.
Qed.

(** What a walk that returned has written is what the descent reads back. *)
Lemma get_path_set_path data keys value data' default :
  keys <> [] ->
  BaseConfig.set_path data keys value = (data', Ok tt) ->
  BaseConfig.get_path data' keys default = value.
Proof.
  revert data data'. induction keys as [|k [|k2 keys] IH]; intros data data' Hne.
  - congruence.
  - simpl. destruct data; try congruence. intros [= <-].
    now rewrite dict_get_set_eq.
  - rewrite set_path_step. destruct data; try congruence. cbv zeta.
    set (d1 := if PyDict.mem k entries then entries else PyDict.set entries k (VDict [])).
    destruct (PyDict.get d1 k) as [child|]; [|congruence].
    destruct (BaseConfig.set_path child (k2 :: keys) value) as [child' r] eqn:Hs.
    intros [= <- ->]. cbn [BaseConfig.get_path]. rewrite dict_get_set_eq.
    eapply IH; [discriminate | exact Hs].
Qed.

(** ** What [get] and [set] do to the state *)

Section ConfigFacts.
Context `{Python} {V C : Type} `{!IConfigValidator V} `{!IConfigCache C}.
Implicit Types (c : BaseConfig.t V C) (key : string) (now : datetime).

Lemma with_cache_id c : BaseConfig.with_cache (BaseConfig._cache c) c = c.
Proof. now destruct c. Qed.

Lemma with_validator_id c : BaseConfig.with_validator (BaseConfig._validator c) c = c.
Proof. now destruct c. Qed.

Lemma on_cache_absent {A : Type} (op : C -> C * Outcome A) (absent : A) c :
  BaseConfig._cache c = None -> BaseConfig.on_cache op absent c = (c, Ok absent).
Proof. unfold BaseConfig.on_cache. now intros ->. Qed.

Lemma on_cache_present {A : Type} (op : C -> C * Outcome A) (absent : A) c ch :
  BaseConfig._cache c = Some ch ->
  BaseConfig.on_cache op absent c
  = (BaseConfig.with_cache (Some (fst (op ch))) c, snd (op ch)).
Proof. unfold BaseConfig.on_cache. intros ->. now destruct (op ch). Qed.

Lemma on_cache_state {A : Type} (op : C -> C * Outcome A) (absent : A) c :
  exists x, fst (BaseConfig.on_cache op absent c) = BaseConfig.with_cache x c.
Proof.
  destruct (BaseConfig._cache c) as [ch|] eqn:E.
  - rewrite (on_cache_present _ _ _ ch E). simpl. eauto.
  - rewrite on_cache_absent by assumption. exists None. simpl. rewrite <- E.
    symmetry. apply with_cache_id.
Qed.

Lemma decrypt_if_needed_state key value c :
  fst (BaseConfig.decrypt_if_needed key value c) = c.
Proof.
  unfold BaseConfig.decrypt_if_needed.
  destruct (BaseConfig._is_encrypted c key), (BaseConfig._encryption c); try reflexivity.
  now destruct (decrypt _ _).
Qed.

Lemma encrypt_if_needed_state key value c :
  fst (BaseConfig.encrypt_if_needed key value c) = c.
Proof.
  unfold BaseConfig.encrypt_if_needed.
  destruct (BaseConfig._should_encrypt key), (BaseConfig._encryption c); try reflexivity.
  now destruct (encrypt _ _).
Qed.

Lemma get_no_cache c now key default :
  BaseConfig._cache c = None ->
  BaseConfig.get now key default c
  = (c, Ok match read c key default with Ok v => v | Raise _ => default end).
Proof.
  intros Hc. unfold BaseConfig.get, BaseConfig.get_try, try_except, bind.
  rewrite on_cache_absent by assumption. cbn [negb is_None].
  unfold gets, read.
  pose proof (decrypt_if_needed_state key
    (BaseConfig._get_nested_value (BaseConfig._data c) key default) c) as Hs.
  destruct (BaseConfig.decrypt_if_needed _ _ c) as [c' [v|e]]; simpl in Hs; subst c'.
  - cbn [snd]. destruct (is_None v); cbn [negb].
    + reflexivity.
    + rewrite on_cache_absent by assumption. reflexivity.
  - reflexivity.
Qed.

Lemma get_returns c now key default :
  exists x v, BaseConfig.get now key default c = (BaseConfig.with_cache x c, Ok v)
              /\ (BaseConfig._cache c = None -> x = None).
Proof.
  unfold BaseConfig.get, BaseConfig.get_try, try_except, bind.
  destruct (BaseConfig._cache c) as [ch|] eqn:Hc.
  - rewrite (on_cache_present _ _ _ ch Hc).
    destruct (cache_get now ch key) as [ch1 [cached|e]]; cbn [fst snd].
    + destruct (is_None cached); cbn [negb].
      * unfold gets.
        set (c1 := BaseConfig.with_cache (Some ch1) c).
        pose proof (decrypt_if_needed_state key
          (BaseConfig._get_nested_value (BaseConfig._data c1) key default) c1) as Hs.
        destruct (BaseConfig.decrypt_if_needed _ _ c1) as [c' [v|e]]; simpl in Hs; subst c'.
        -- destruct (is_None v); cbn [negb].
           ++ unfold ret. eexists _, _. split; [reflexivity | discriminate].
           ++ rewrite (on_cache_present _ _ _ ch1) by reflexivity.
              destruct (cache_set now ch1 key v None) as [ch2 [[]|e]]; cbn [fst snd];
                unfold ret; subst c1; simpl;
                (eexists _, _; split; [reflexivity | discriminate]).
        -- unfold ret. eexists _, _. split; [reflexivity | discriminate].
      * unfold ret. eexists _, _. split; [reflexivity | discriminate].
    + unfold ret. eexists _, _. split; [reflexivity | discriminate].
  - pose proof (get_no_cache c now key default Hc) as Hg.
    unfold BaseConfig.get, BaseConfig.get_try, try_except, bind in Hg. rewrite Hg.
    exists None. rewrite <- Hc, with_cache_id. eauto.
Qed.

Lemma encrypt_if_needed_result key value c c' :
  BaseConfig._encryption c' = BaseConfig._encryption c ->
  snd (BaseConfig.encrypt_if_needed key value c')
  = snd (BaseConfig.encrypt_if_needed key value c).
Proof.
  unfold BaseConfig.encrypt_if_needed. intros ->.
  destruct (BaseConfig._should_encrypt key), (BaseConfig._encryption c); try reflexivity.
  now destruct (encrypt _ _).
Qed.

(** The state a [set] that returns leaves: the validator and the cache have
    moved on, the value is written along the path, the metadata record of the
    key is replaced and the observers are notified. *)
Lemma set_returns_inv c now key value metadata c1 :
  BaseConfig.set now key value metadata c = (c1, Ok tt) ->
  BaseConfig._readonly c = false /\
  exists vs x1 x2 old value' d',
    stored c key value = Ok value'
    /\ BaseConfig.set_path (VDict (BaseConfig._data c)) (Py.split "." key) value'
       = (VDict d', Ok tt)
    /\ (x2 = None \/ exists ch ch', x1 = Some ch /\ x2 = Some ch'
                                   /\ cache_invalidate ch key = (ch', Ok tt))
    /\ (BaseConfig._cache c = None -> x2 = None)
    /\ c1 = BaseConfig.with_notifications
              (BaseConfig.notifications c
               ++ map (fun o => mkNotification o key old value') (BaseConfig._observers c))
              (BaseConfig.with_cache x2
                 (BaseConfig.with_metadata
                    (<[key := metadata_written metadata now]> (BaseConfig._metadata c))
                    (BaseConfig.with_data d'
                       (BaseConfig.with_cache x1 (BaseConfig.with_validator vs c))))).
Proof.
  unfold BaseConfig.set, bind at 1, gets at 1.
  destruct (BaseConfig._readonly c) eqn:Hro; [unfold raise; congruence|].
  intros Hset. split; [reflexivity|].
  unfold bind at 1 in Hset.
  assert (Hv : exists vs r, BaseConfig.on_validator key value c
                            = (BaseConfig.with_validator vs c, r)).
  { unfold BaseConfig.on_validator. destruct (BaseConfig._validator c) as [v|] eqn:Ev.
    - destruct (validator_validate v key value) as [v' r]. eauto.
    - exists None, (Ok true). rewrite <- Ev, with_validator_id. reflexivity. }
  destruct Hv as (vs & r & Hv). rewrite Hv in Hset.
  destruct r as [valid|e]; [|congruence].
  unfold bind at 1 in Hset.
  destruct valid; [|unfold bind, gets, raise in Hset; congruence].
  unfold ret at 1 in Hset.
  set (c_v := BaseConfig.with_validator vs c) in *.
  unfold bind at 1 in Hset.
  destruct (get_returns c_v now key VNone) as (x1 & old & Hg & Hx1). rewrite Hg in Hset.
  set (c_g := BaseConfig.with_cache x1 c_v) in *.
  unfold bind at 1 in Hset.
  pose proof (encrypt_if_needed_state key value c_g) as He.
  assert (Hst : snd (BaseConfig.encrypt_if_needed key value c_g) = stored c key value)
    by (apply encrypt_if_needed_result; reflexivity).
  destruct (BaseConfig.encrypt_if_needed key value c_g) as [c' [value'|e]];
    simpl in He, Hst; subst c'; [|congruence].
  unfold bind at 1 in Hset.
  unfold BaseConfig._set_nested_value in Hset.
  change (BaseConfig._data c_g) with (BaseConfig._data c) in Hset.
  destruct (set_path_dict (BaseConfig._data c) (Py.split "." key) value') as [d' Hd].
  destruct (BaseConfig.set_path (VDict (BaseConfig._data c)) (Py.split "." key) value')
    as [tree r] eqn:Hsp.
  simpl in Hd. subst tree.
  destruct r as [[]|e]; [|congruence].
  unfold bind at 1, modify at 1 in Hset.
  set (c_m := BaseConfig.with_metadata _ _) in Hset.
  unfold bind at 1 in Hset.
  destruct (BaseConfig._cache c_m) as [ch|] eqn:Hc.
  - rewrite (on_cache_present _ _ _ ch Hc) in Hset.
    destruct (cache_invalidate ch key) as [ch' [[]|e]] eqn:Hinv; cbn [fst snd] in Hset;
      [|congruence].
    unfold BaseConfig._notify_observers, modify in Hset.
    injection Hset as <-.
    exists vs, x1, (Some ch'), old, value', d'.
    split; [now symmetry|]. split; [exact Hsp|].
    split; [right; exists ch, ch'; simpl in Hc; auto|].
    split; [|reflexivity].
    intros Hn. simpl in Hc. rewrite (Hx1 Hn) in Hc. discriminate.
  - rewrite on_cache_absent in Hset by assumption.
    unfold BaseConfig._notify_observers, modify in Hset.
    injection Hset as <-.
    exists vs, x1, None, old, value', d'.
    split; [now symmetry|]. split; [exact Hsp|].
    split; [now left|].
    split; [reflexivity|].
    simpl in Hc. subst x1. reflexivity.
Qed.

Lemma read_frame c c' key default :
  BaseConfig._data c' = BaseConfig._data c ->
  BaseConfig._metadata c' = BaseConfig._metadata c ->
  BaseConfig._encryption c' = BaseConfig._encryption c ->
  read c' key default = read c key default.
Proof.
  unfold read, BaseConfig.decrypt_if_needed, BaseConfig._is_encrypted.
  intros -> -> ->.
  destruct (BaseConfig._metadata c !! key) as [m|]; [destruct (encrypted m)|];
    destruct (BaseConfig._encryption c); try reflexivity.
  now destruct (decrypt _ _).
Qed.

(** A [get] that finds nothing in a working cache reads [_data]. *)
Lemma get_cache_miss `{!CacheLaws C} c now key default ch :
  BaseConfig._cache c = Some ch ->
  snd (cache_get now ch key) = Ok VNone ->
  snd (BaseConfig.get now key default c)
  = Ok match read c key default with Ok v => v | Raise _ => default end.
Proof.
  intros Hc Hmiss.
  unfold BaseConfig.get, BaseConfig.get_try, try_except, bind.
  rewrite (on_cache_present _ _ _ ch Hc).
  destruct (cache_get now ch key) as [ch1 r]. cbn [fst snd] in *. subst r.
  cbn [negb is_None]. unfold gets.
  set (c1 := BaseConfig.with_cache (Some ch1) c).
  assert (Hr : read c1 key default = read c key default) by (apply read_frame; reflexivity).
  unfold read in Hr at 1.
  change (BaseConfig._data c1) with (BaseConfig._data c) in *.
  pose proof (decrypt_if_needed_state key
    (BaseConfig._get_nested_value (BaseConfig._data c) key default) c1) as Hs.
  destruct (BaseConfig.decrypt_if_needed _ _ c1) as [c' [v|e]];
    cbn [fst snd] in Hs, Hr; subst c'; rewrite <- Hr.
  - destruct (is_None v); cbn [negb]; [reflexivity|].
    rewrite (on_cache_present _ _ _ ch1) by reflexivity.
    pose proof (cache_set_returns now ch1 key v None) as Hset.
    destruct (cache_set now ch1 key v None) as [ch2 [[]|e]]; cbn [fst snd] in *;
      [reflexivity | discriminate].
  - reflexivity.
Qed.

(** After a [set] that returned, [get] returns what [set] wrote under the key,
    as long as the metadata record does not flag the key as encrypted (or no
    encryptor is attached) and the cache, if there is one, works. *)
Lemma get_after_set c now key value metadata c1 now' default :
  BaseConfig._cache c = None \/ CacheLaws C ->
  encrypted (metadata_written metadata now) = false \/ BaseConfig._encryption c = None ->
  BaseConfig.set now key value metadata c = (c1, Ok tt) ->
  exists v, stored c key value = Ok v
            /\ BaseConfig._get_nested_value (BaseConfig._data c1) key default = v
            /\ snd (BaseConfig.get now' key default c1) = Ok v.
Proof.
  intros Hcache Hplain Hset.
  apply set_returns_inv in Hset
    as (Hro & vs & x1 & x2 & old & v & d' & Hst & Hsp & Hx & Hnone & ->).
  exists v. split; [exact Hst|].
  set (c1 := BaseConfig.with_notifications _ _).
  assert (Hval : BaseConfig._get_nested_value (BaseConfig._data c1) key default = v).
  { unfold BaseConfig._get_nested_value. cbn [c1 BaseConfig._data
      BaseConfig.with_notifications BaseConfig.with_cache BaseConfig.with_metadata
      BaseConfig.with_data].
    eapply get_path_set_path; [apply split_nonempty | exact Hsp]. }
  split; [exact Hval|].
  assert (Hread : read c1 key default = Ok v).
  { unfold read. rewrite Hval.
    unfold BaseConfig.decrypt_if_needed, BaseConfig._is_encrypted.
    cbn [c1 BaseConfig._metadata BaseConfig._encryption
      BaseConfig.with_notifications BaseConfig.with_cache BaseConfig.with_metadata
      BaseConfig.with_data BaseConfig.with_validator].
    rewrite lookup_insert_eq.
    destruct Hplain as [-> | ->]; [reflexivity|].
    now destruct (encrypted _). }
  destruct Hx as [-> | (ch & ch' & -> & -> & Hinv)].
  - rewrite get_no_cache by reflexivity. cbn [snd]. now rewrite Hread.
  - destruct Hcache as [Hn | Hlaws]; [apply Hnone in Hn; discriminate|].
    rewrite (get_cache_miss c1 now' key default ch') by
      (try reflexivity;
       pose proof (cache_get_invalidated now' ch key) as Hg;
       now rewrite Hinv in Hg).
    now rewrite Hread.
Qed.

End ConfigFacts.

#[global] Instance memory_cache_laws : CacheLaws MemoryCache.t.
Proof.
  split.
  - intros now ch key. cbn [cache_get MemoryCache.cache]. unfold MemoryCache.get.
    destruct (MemoryCache._cache ch !! key); [|reflexivity].
    destruct (MemoryCache._ttl ch !! key); [|reflexivity].
    now destruct (Z.ltb _ _).
  - intros now ch key value ttl. cbn [cache_set MemoryCache.cache]. unfold MemoryCache.set.
    destruct ttl as [seconds|]; [|reflexivity]. now destruct (Z.eqb seconds 0).
  - reflexivity.
  - reflexivity.
  - intros now ch key. cbn [cache_get cache_invalidate MemoryCache.cache].
    unfold MemoryCache.get, MemoryCache.invalidate. cbn [fst MemoryCache._cache].
    now rewrite lookup_delete_eq.
Qed.

Section SetReturns.
Context `{Python} {V C : Type} `{!IConfigValidator V} `{!IConfigCache C}.
Implicit Types (c : BaseConfig.t V C) (key : string) (now : datetime).

(** [set] returns when the object is not readonly, the validator accepts the
    value, the encryptor (if it is called) and the cache (if there is one) do
    not fail, and the path can be written. *)
Lemma set_returns c now key value metadata :
  BaseConfig._cache c = None \/ CacheLaws C ->
  BaseConfig._readonly c = false ->
  snd (BaseConfig.on_validator key value c) = Ok true ->
  raises (stored c key value) = false ->
  writable (VDict (BaseConfig._data c)) (Py.split "." key) = true ->
  exists c1, BaseConfig.set now key value metadata c = (c1, Ok tt).
Proof.
  intros Hcache Hro Hvalid Henc Hw.
  unfold BaseConfig.set, bind at 1, gets at 1. rewrite Hro.
  unfold bind at 1.
  assert (Hv : exists vs, BaseConfig.on_validator key value c
                          = (BaseConfig.with_validator vs c, Ok true)).
  { revert Hvalid. unfold BaseConfig.on_validator.
    destruct (BaseConfig._validator c) as [v|] eqn:Ev.
    - destruct (validator_validate v key value) as [v' r]. cbn [snd]. intros ->. eauto.
    - intros _. exists None. rewrite <- Ev, with_validator_id. reflexivity. }
  destruct Hv as (vs & ->).
  unfold bind at 1, ret at 1.
  set (c_v := BaseConfig.with_validator vs c).
  unfold bind at 1.
  destruct (get_returns c_v now key VNone) as (x1 & old & -> & Hx1).
  set (c_g := BaseConfig.with_cache x1 c_v).
  unfold bind at 1.
  pose proof (encrypt_if_needed_state key value c_g) as He.
  assert (Hst : snd (BaseConfig.encrypt_if_needed key value c_g) = stored c key value)
    by (apply encrypt_if_needed_result; reflexivity).
  destruct (BaseConfig.encrypt_if_needed key value c_g) as [c' [value'|e]];
    cbn [fst snd] in He, Hst; subst c'; [|rewrite <- Hst in Henc; discriminate].
  unfold bind at 1, BaseConfig._set_nested_value.
  change (BaseConfig._data c_g) with (BaseConfig._data c).
  destruct (set_path_dict (BaseConfig._data c) (Py.split "." key) value') as [d' Hd].
  pose proof (set_path_writable _ _ value' Hw) as Hok.
  destruct (BaseConfig.set_path (VDict (BaseConfig._data c)) (Py.split "." key) value')
    as [tree r]. cbn [fst snd] in Hd, Hok. subst tree r.
  unfold bind at 1, modify at 1.
  set (c_m := BaseConfig.with_metadata _ _).
  unfold bind at 1.
  destruct (BaseConfig._cache c_m) as [ch|] eqn:Hc.
  - rewrite (on_cache_present _ _ _ ch Hc).
    destruct Hcache as [Hn | Hlaws].
    { apply Hx1 in Hn. subst x1. discriminate. }
    pose proof (cache_invalidate_returns ch key) as Hinv.
    destruct (cache_invalidate ch key) as [ch' [[]|e]]; cbn [fst snd] in *;
      [|discriminate].
    unfold BaseConfig._notify_observers, modify. eauto.
  - rewrite on_cache_absent by assumption.
    unfold BaseConfig._notify_observers, modify. eauto.
Qed.

End SetReturns.

(** ** Writing a value and reading it back *)

Section SetThenGet.
Context `{Python} {V C : Type} `{!IConfigValidator V} `{!IConfigCache C}.
Implicit Types (c : BaseConfig.t V C) (key : string) (now : datetime).

Lemma stored_plain c key value :
  BaseConfig._should_encrypt key = false -> stored c key value = Ok value.
Proof. unfold stored, BaseConfig.encrypt_if_needed. now intros ->. Qed.

Lemma stored_cipher c key value e text :
  BaseConfig._should_encrypt key = true ->
  BaseConfig._encryption c = Some e ->
  encrypt e (str value) = Ok text ->
  stored c key value = Ok (VStr text).
Proof. unfold stored, BaseConfig.encrypt_if_needed. now intros -> -> ->. Qed.

(** A path whose first segment is not a key of the mapping can be written:
    the write creates every intermediate mapping. *)
Lemma writable_created d k keys :
  PyDict.get d k = None -> writable (VDict d) (k :: keys) = true.
Proof. intros Hk. destruct keys; [reflexivity|]. rewrite writable_step. now rewrite Hk. Qed.

(** C8 (amended): for a key that does not match the sensitive-name heuristic
    and a value the validator accepts, on an object that is not readonly and
    whose data binds no intermediate segment of the key to a value that is no
    mapping (a missing segment is created by the write), with no cache or a
    cache that works: [set] returns, a following [get] returns the value
    unchanged, and the value itself is what the path leads to in [_data]. *)
Theorem set_then_get_returns_value c now now' key value default :
  BaseConfig._cache c = None \/ CacheLaws C ->
  BaseConfig._should_encrypt key = false ->
  BaseConfig._readonly c = false ->
  snd (BaseConfig.on_validator key value c) = Ok true ->
  writable (VDict (BaseConfig._data c)) (Py.split "." key) = true ->
  exists c1,
    BaseConfig.set now key value None c = (c1, Ok tt)
    /\ snd (BaseConfig.get now' key default c1) = Ok value
    /\ BaseConfig._get_nested_value (BaseConfig._data c1) key default = value.
Proof.
  intros Hcache Hplain Hro Hvalid Hw.
  destruct (set_returns c now key value None Hcache Hro Hvalid) as [c1 Hset]; auto.
  { now rewrite stored_plain. }
  exists c1. split; [exact Hset|].
  destruct (get_after_set c now key value None c1 now' default Hcache (or_introl eq_refl) Hset)
    as (v & Hst & Hraw & Hget).
  rewrite stored_plain in Hst by assumption. injection Hst as <-. auto.
Qed.

(** C1: for a key that matches the sensitive-name heuristic, with an
    encryptor attached and no cache, after a [set] without metadata that
    returned, [get] returns the cipher text [set] stored in [_data], not the
    value: the metadata record [set] writes does not flag the key as
    encrypted, so [get] does not decrypt. *)
Theorem sensitive_get_returns_cipher_text c now now' key value default e text c1 :
  BaseConfig._should_encrypt key = true ->
  BaseConfig._encryption c = Some e ->
  BaseConfig._cache c = None ->
  encrypt e (str value) = Ok text ->
  BaseConfig.set now key value None c = (c1, Ok tt) ->
  snd (BaseConfig.get now' key default c1) = Ok (VStr text)
  /\ BaseConfig._get_nested_value (BaseConfig._data c1) key default = VStr text
  /\ BaseConfig._is_encrypted c1 key = false.
Proof.
  intros Hsens He Hcache Henc Hset.
  destruct (get_after_set c now key value None c1 now' default
              (or_introl Hcache) (or_introl eq_refl) Hset) as (v & Hst & Hraw & Hget).
  rewrite (stored_cipher c key value e text) in Hst by assumption. injection Hst as <-.
  split; [exact Hget|]. split; [exact Hraw|].
  apply set_returns_inv in Hset as (_ & vs & x1 & x2 & old & v & d' & _ & _ & _ & _ & ->).
  unfold BaseConfig._is_encrypted. cbn [BaseConfig._metadata
    BaseConfig.with_notifications BaseConfig.with_cache BaseConfig.with_metadata].
  now rewrite lookup_insert_eq.
Qed.

(** C10: on an object whose data is empty, after a [set] of the dotted key
    "a.b" that returned, [get] finds the value along the path, while
    [has_key] answers no and [remove_key] returns leaving the whole state as
    it was: nothing is removed and no observer is notified.  On every object
    [has_key] tells whether the key itself is a top-level key of [_data]. *)
Theorem has_key_and_remove_key_read_top_level_keys c now now' value default c1 :
  BaseConfig._cache c = None \/ CacheLaws C ->
  BaseConfig._data c = [] ->
  BaseConfig.set now "a.b" value None c = (c1, Ok tt) ->
  snd (BaseConfig.get now' "a.b" default c1) = Ok value
  /\ BaseConfig._data c1 = [("a", VDict [("b", value)])]
  /\ BaseConfig.has_key c1 "a.b" = false
  /\ BaseConfig.remove_key "a.b" c1 = (c1, Ok tt)
  /\ (forall (c' : BaseConfig.t V C) k,
        BaseConfig.has_key c' k = true <-> In k (PyDict.keys (BaseConfig._data c'))).
Proof.
  intros Hcache Hfresh Hset.
  destruct (get_after_set c now "a.b" value None c1 now' default Hcache (or_introl eq_refl) Hset)
    as (v & Hst & _ & Hget).
  rewrite stored_plain in Hst by reflexivity. injection Hst as <-.
  split; [exact Hget|].
  apply set_returns_inv in Hset
    as (Hro & vs & x1 & x2 & old & v & d' & Hst & Hsp & _ & _ & ->).
  rewrite stored_plain in Hst by reflexivity. injection Hst as <-.
  rewrite Hfresh in Hsp. vm_compute in Hsp. injection Hsp as <-.
  split; [reflexivity|]. split; [reflexivity|].
  split.
  - unfold BaseConfig.remove_key, bind at 1, gets at 1.
    cbn [BaseConfig._readonly BaseConfig.with_notifications BaseConfig.with_cache
      BaseConfig.with_metadata BaseConfig.with_data BaseConfig.with_validator].
    rewrite Hro. reflexivity.
  - intros c' k. apply dict_mem_keys.
Qed.

End SetThenGet.

Section SetThenGetExamples.
#[local] Existing Instance Sample.python.

(** A dotted path whose two intermediate mappings the write creates. *)
Lemma set_then_get_returns_value_witness :
  let c := BaseConfig.with_data [("debug", VBool false)] Sample.plain in
  exists c1,
    BaseConfig.set 0 "server.http.port" (VInt 8080) None c = (c1, Ok tt)
    /\ snd (BaseConfig.get 1 "server.http.port" VNone c1) = Ok (VInt 8080)
    /\ BaseConfig._get_nested_value (BaseConfig._data c1) "server.http.port" VNone
       = VInt 8080.
Proof.
  intros c.
  exact (set_then_get_returns_value c 0 1 "server.http.port" (VInt 8080) VNone
           (or_introl eq_refl) eq_refl eq_refl eq_refl eq_refl).
Defined.

(** C8, as stated, fails where an intermediate segment of the path is bound
    to a number: the key is not sensitive, the object is not readonly and has
    no validator, yet [set] raises [TypeError], writes nothing, and the
    following [get] returns the default. *)
Lemma set_through_a_scalar_raises :
  let c := BaseConfig.with_data [("a", VInt 1)] Sample.plain in
  BaseConfig._should_encrypt "a.b" = false
  /\ BaseConfig._readonly c = false
  /\ snd (BaseConfig.on_validator "a.b" (VInt 2) c) = Ok true
  /\ BaseConfig.set 0 "a.b" (VInt 2) None c = (c, Raise TypeError)
  /\ snd (BaseConfig.get 1 "a.b" VNone c) = Ok VNone
  /\ Ok (A := Value) VNone <> Ok (VInt 2).
Proof.
  intros c. repeat split; try reflexivity. discriminate.
Qed.

Lemma sensitive_get_returns_cipher_text_witness :
  let c1 := fst (BaseConfig.set 0 "password" (VStr "hunter2") None Sample.with_cipher) in
  snd (BaseConfig.get 1 "password" VNone c1) = Ok (VStr "enc:hunter2")
  /\ BaseConfig._get_nested_value (BaseConfig._data c1) "password" VNone = VStr "enc:hunter2"
  /\ BaseConfig._is_encrypted c1 "password" = false.
Proof.
  intros c1.
  exact (sensitive_get_returns_cipher_text Sample.with_cipher 0 1 "password" (VStr "hunter2") VNone
           Sample.cipher "enc:hunter2" c1 eq_refl eq_refl eq_refl eq_refl eq_refl).
Defined.

Lemma has_key_and_remove_key_read_top_level_keys_witness :
  let c1 := fst (BaseConfig.set 0 "a.b" (VInt 5) None
                   (BaseConfig.add_observer 7 Sample.plain)) in
  snd (BaseConfig.get 1 "a.b" VNone c1) = Ok (VInt 5)
  /\ BaseConfig._data c1 = [("a", VDict [("b", VInt 5)])]
  /\ BaseConfig.has_key c1 "a.b" = false
  /\ BaseConfig.remove_key "a.b" c1 = (c1, Ok tt)
  /\ (forall (c' : BaseConfig.t SchemaValidator.t MemoryCache.t) k,
        BaseConfig.has_key c' k = true <-> In k (PyDict.keys (BaseConfig._data c'))).
Proof.
  intros c1.
  exact (has_key_and_remove_key_read_top_level_keys
           (BaseConfig.add_observer 7 Sample.plain) 0 1 (VInt 5) VNone c1
           (or_introl eq_refl) eq_refl eq_refl).
Defined.

End SetThenGetExamples.

(** ** Reading never raises *)

Lemma try_except_default_returns {S A : Type} (m : M S A) (default : A) (s : S) :
  exists s' v, try_except m (fun _ => ret default) s = (s', Ok v).
Proof. unfold try_except, ret. destruct (m s) as [s' [a|e]]; eauto. Qed.

Section GetNeverRaises.
Context `{Python} {V C : Type} `{!IConfigValidator V} `{!IConfigCache C}.
Implicit Types (c : BaseConfig.t V C) (key : string) (now : datetime).

Lemma read_plain c key default :
  BaseConfig._is_encrypted c key = false \/ BaseConfig._encryption c = None ->
  read c key default
  = Ok match lookup_path (VDict (BaseConfig._data c)) (Py.split "." key) with
       | Some v => v
       | None => default
       end.
Proof.
  unfold read, BaseConfig.decrypt_if_needed, BaseConfig._get_nested_value.
  rewrite get_path_lookup.
  intros [-> | ->]; [reflexivity|]. now destruct (BaseConfig._is_encrypted c key).
Qed.

Lemma try_except_default_snd {S A : Type} (m : M S A) (d : A) (s : S) :
  snd (try_except m (fun _ => ret d) s)
  = match snd (m s) with Ok v => Ok v | Raise _ => Ok d end.
Proof. unfold try_except, ret. now destruct (m s) as [s' [a|e]]. Qed.

(** What [get_config_value] returns for a registered name: the default when
    a lazy load is due and fails, else what [get] returns on the registered
    object, after the lazy load when one is due. *)
Lemma get_config_value_registered (m : ConfigManager.t V C) name c0 now key default :
  PyDict.get (ConfigManager._configs m) name = Some c0 ->
  snd (ConfigManager.get_config_value now name key default m)
  = if ConfigManager.is_LAZY (ConfigManager._strategy m) && negb (BaseConfig.is_loaded c0)
    then match ConfigManager.load_and_validate now c0 with
         | (c, Ok _) => snd (BaseConfig.get now key default c)
         | (_, Raise _) => Ok default
         end
    else snd (BaseConfig.get now key default c0).
Proof.
  intros Hfound.
  assert (Hget : forall c l,
    PyDict.get l name = Some c ->
    snd (bind (ConfigManager.on_config name (gets id))
           (fun _ => ConfigManager.on_config name (BaseConfig.get now key default))
           (ConfigManager.with_configs l m))
    = snd (BaseConfig.get now key default c)).
  { intros c l Hl. unfold bind, ConfigManager.on_config at 1, gets at 1.
    cbn [ConfigManager._configs ConfigManager.with_configs]. rewrite Hl.
    unfold id. unfold ConfigManager.on_config.
    cbn [ConfigManager._configs ConfigManager.with_configs].
    rewrite dict_get_set_eq.
    destruct (get_returns c now key default) as (x & v & -> & _). reflexivity. }
  unfold ConfigManager.get_config_value. rewrite try_except_default_snd.
  unfold ConfigManager.get_config.
  unfold bind at 1. unfold bind at 1, gets at 1. rewrite Hfound.
  unfold bind at 1, gets at 1.
  destruct (ConfigManager.is_LAZY (ConfigManager._strategy m)
            && negb (BaseConfig.is_loaded c0)).
  - unfold bind at 1. unfold ConfigManager.on_config at 1. rewrite Hfound.
    destruct (ConfigManager.load_and_validate now c0) as [c [[]|e]]; [|reflexivity].
    pose proof (Hget c (PyDict.set (ConfigManager._configs m) name c)
                  (dict_get_set_eq _ _ _)) as E.
    unfold bind in E. rewrite E.
    now destruct (get_returns c now key default) as (x & v & -> & _).
  - unfold bind at 1, ret at 1.
    pose proof (Hget c0 (ConfigManager._configs m) Hfound) as E.
    replace (ConfigManager.with_configs (ConfigManager._configs m) m) with m in E
      by now destruct m.
    unfold bind in E. rewrite E.
    now destruct (get_returns c0 now key default) as (x & v & -> & _).
Qed.

(** C2 (amended): [get] and [get_config_value] never raise.  When the body
    of [get] raises, as it does when the cache or the decryption fails, [get]
    returns the caller's default; [get_config_value] returns it also for a
    name that is not registered.  A value other than [None] that the cache
    holds for the key is returned first, whatever [_data] holds.  When no
    cache is attached, or a working cache holds nothing for the key, and the
    key is not flagged as encrypted, [get] returns the value the path leads
    to, and the default when a segment is missing or is looked up in a value
    that is no mapping.  For a registered name [get_config_value] returns
    what [get] returns on the registered object, so the default in the same
    cases; when a lazy load is due it is run first, and its failure gives the
    default. *)
Theorem get_never_raises_and_falls_back_on_default c now key default :
  (exists c' v, BaseConfig.get now key default c = (c', Ok v))
  /\ (forall e, snd (BaseConfig.get_try now key default c) = Raise e ->
                snd (BaseConfig.get now key default c) = Ok default)
  /\ (forall ch, BaseConfig._cache c = Some ch ->
                 raises (snd (cache_get now ch key)) = true ->
                 snd (BaseConfig.get now key default c) = Ok default)
  /\ (BaseConfig._cache c = None -> raises (read c key default) = true ->
      BaseConfig.get now key default c = (c, Ok default))
  /\ (BaseConfig._cache c = None ->
      BaseConfig._is_encrypted c key = false \/ BaseConfig._encryption c = None ->
      BaseConfig.get now key default c
      = (c, Ok match lookup_path (VDict (BaseConfig._data c)) (Py.split "." key) with
               | Some v => v
               | None => default
               end))
  /\ (forall ch, CacheLaws C -> BaseConfig._cache c = Some ch ->
                 snd (cache_get now ch key) = Ok VNone ->
                 BaseConfig._is_encrypted c key = false \/ BaseConfig._encryption c = None ->
                 snd (BaseConfig.get now key default c)
                 = Ok match lookup_path (VDict (BaseConfig._data c)) (Py.split "." key) with
                      | Some v => v
                      | None => default
                      end)
  /\ (forall (m : ConfigManager.t V C) name,
        exists m' v, ConfigManager.get_config_value now name key default m = (m', Ok v))
  /\ (forall (m : ConfigManager.t V C) name,
        PyDict.get (ConfigManager._configs m) name = None ->
        ConfigManager.get_config_value now name key default m = (m, Ok default))
  /\ (forall ch v,
        BaseConfig._cache c = Some ch ->
        snd (cache_get now ch key) = Ok v -> v <> VNone ->
        BaseConfig.get now key default c
        = (BaseConfig.with_cache (Some (fst (cache_get now ch key))) c, Ok v))
  /\ (forall (m : ConfigManager.t V C) name,
        PyDict.get (ConfigManager._configs m) name = Some c ->
        ConfigManager.is_LAZY (ConfigManager._strategy m) && negb (BaseConfig.is_loaded c)
        = false ->
        snd (ConfigManager.get_config_value now name key default m)
        = snd (BaseConfig.get now key default c)
        /\ (forall e, snd (BaseConfig.get_try now key default c) = Raise e ->
                      snd (ConfigManager.get_config_value now name key default m)
                      = Ok default)
        /\ (BaseConfig._cache c = None ->
            BaseConfig._is_encrypted c key = false \/ BaseConfig._encryption c = None ->
            snd (ConfigManager.get_config_value now name key default m)
            = Ok match lookup_path (VDict (BaseConfig._data c)) (Py.split "." key) with
                 | Some v => v
                 | None => default
                 end))
  /\ (forall (m : ConfigManager.t V C) name c0,
        PyDict.get (ConfigManager._configs m) name = Some c0 ->
        ConfigManager.is_LAZY (ConfigManager._strategy m) && negb (BaseConfig.is_loaded c0)
        = true ->
        fst (ConfigManager.load_and_validate now c0) = c ->
        snd (ConfigManager.get_config_value now name key default m)
        = if raises (snd (ConfigManager.load_and_validate now c0)) then Ok default
          else snd (BaseConfig.get now key default c)).
Proof.
  repeat apply conj.
  - destruct (get_returns c now key default) as (x & v & Hg & _). eauto.
  - intros e He. unfold BaseConfig.get, try_except.
    destruct (BaseConfig.get_try now key default c) as [c' r]. cbn [snd] in He. now subst r.
  - intros ch Hc Hfail. unfold BaseConfig.get, BaseConfig.get_try, try_except, bind.
    rewrite (on_cache_present _ _ _ ch Hc).
    destruct (cache_get now ch key) as [ch' [v|e]]; [discriminate|reflexivity].
  - intros Hc Hfail. rewrite get_no_cache by assumption.
    now destruct (read c key default).
  - intros Hc Hplain. rewrite get_no_cache by assumption. now rewrite read_plain.
  - intros ch Hlaws Hc Hmiss Hplain.
    rewrite (get_cache_miss c now key default ch) by assumption. now rewrite read_plain.
  - intros m name. apply try_except_default_returns.
  - intros m name Hnone.
    unfold ConfigManager.get_config_value, ConfigManager.get_config, try_except,
      bind at 1, bind at 1, gets at 1.
    now rewrite Hnone.
  - intros ch v Hc Hhit Hv. unfold BaseConfig.get, BaseConfig.get_try, try_except, bind.
    rewrite (on_cache_present _ _ _ ch Hc).
    destruct (cache_get now ch key) as [ch1 r]. cbn [fst snd] in *. subst r.
    destruct v; try reflexivity. congruence.
  - intros m name Hfound Hlazy.
    rewrite (get_config_value_registered m name c now key default Hfound), Hlazy.
    split; [reflexivity|]. split.
    + intros e He. unfold BaseConfig.get, try_except.
      destruct (BaseConfig.get_try now key default c) as [c' r]. cbn [snd] in He.
      now subst r.
    + intros Hc Hplain. rewrite get_no_cache by assumption. now rewrite read_plain.
  - intros m name c0 Hfound Hlazy Hload.
    rewrite (get_config_value_registered m name c0 now key default Hfound), Hlazy.
    destruct (ConfigManager.load_and_validate now c0) as [c1 [[]|e]]; cbn in *; now subst.
Qed.

End GetNeverRaises.

Section GetExamples.
#[local] Existing Instance Sample.python.

(** C2, as stated, fails with the in-memory cache attached: a first [get] of
    a missing key stores its default in the cache, and the next [get] of the
    key returns that value, not the default of its own caller, though the
    path is still missing from [_data]. *)
Lemma get_returns_a_cached_default_on_a_missing_path :
  let c1 := fst (BaseConfig.get 0 "missing" (VInt 5) Sample.with_memory_cache) in
  lookup_path (VDict (BaseConfig._data c1)) (Py.split "." "missing") = None
  /\ snd (BaseConfig.get 1 "missing" (VInt 7) c1) = Ok (VInt 5)
  /\ Ok (VInt 5) <> Ok (VInt 7).
Proof.
  intros c1. split; [reflexivity|]. split; [vm_compute; reflexivity | discriminate].
Qed.

End GetExamples.

(** ** Loading the defaults *)

Section LoadDefaults.
Context `{Python} {V C : Type} `{!IConfigValidator V} `{!IConfigCache C}.
Implicit Types (c : BaseConfig.t V C) (key : string) (now : datetime).

Lemma load_defaults_unfold now c :
  BaseConfig.load_defaults now c
  = (BaseConfig.with_loaded true (fold_left (load_default now) (BaseConfig.default_values c) c), Ok tt).
Proof.
  unfold BaseConfig.load_defaults, try_except, bind at 1, gets at 1.
  assert (Hloop : forall l c0,
    for_each l (fun '(key, value) =>
       bind (gets (fun c => PyDict.mem key (BaseConfig._data c)))
         (fun present => if present then ret tt
            else bind (modify (fun c => BaseConfig.with_data
                                 (PyDict.set (BaseConfig._data c) key value) c))
                   (fun _ => modify (fun c => BaseConfig.with_metadata
                      (<[key := new_metadata MEMORY LOW now]> (BaseConfig._metadata c)) c))))
      c0 = (fold_left (load_default now) l c0, Ok tt)).
  { induction l as [|[k v] l IH]; intros c0; [reflexivity|].
    cbn [for_each fold_left]. unfold bind at 1, bind at 1, gets at 1.
    unfold load_default at 2. cbn [fst snd].
    destruct (PyDict.mem k (BaseConfig._data c0)).
    - unfold ret at 1. apply IH.
    - unfold bind at 1, modify at 1, modify at 1. apply IH. }
  unfold bind at 1. rewrite Hloop. reflexivity.
Qed.

Lemma load_default_data now l c :
  BaseConfig._data (fold_left (load_default now) l c) = add_defaults l (BaseConfig._data c).
Proof.
  unfold add_defaults. revert c. induction l as [|[k v] l IH]; intros c; [reflexivity|].
  cbn [fold_left]. rewrite IH. unfold load_default. cbn [fst snd].
  now destruct (PyDict.mem k (BaseConfig._data c)).
Qed.






End LoadDefaults.

Section LoadDefaultsExample.
#[local] Existing Instance Sample.python.


End LoadDefaultsExample.

(** ** Validation *)

Section Validate.
Context `{Python} {C : Type} `{!IConfigCache C}.
Implicit Types (c : BaseConfig.t SchemaValidator.t C).

(** A call of [SchemaValidator.validate] reads the schema only, leaves the
    messages of this call in [errors], and returns whether there is none. *)
Lemma schema_validate_spec (self : SchemaValidator.t) key value :
  SchemaValidator.validate self key value
  = (SchemaValidator.mk (SchemaValidator.schema self)
       (schema_messages (SchemaValidator.schema self) key value),
     Ok (is_nil (schema_messages (SchemaValidator.schema self) key value))).
Proof.
  unfold schema_messages, SchemaValidator.validate, SchemaValidator.pass, SchemaValidator.fail.
  cbn [SchemaValidator.schema].
  destruct (PyDict.get (SchemaValidator.schema self) key) as [entry|]; [|reflexivity].
  destruct (SchemaValidator.entry_required entry && is_None value); [reflexivity|].
  destruct (is_None value); [reflexivity|].
  destruct (SchemaValidator.check_type key value entry); [reflexivity|].
  destruct (SchemaValidator.check_min key value entry); [reflexivity|].
  destruct (SchemaValidator.check_max key value entry); [reflexivity|].
  destruct (SchemaValidator.check_pattern key value entry); [reflexivity|].
  destruct (SchemaValidator.check_choices key value entry); reflexivity.
Qed.

Lemma under_below value m : under value m <-> SchemaValidator.below value m = true.
Proof.
  unfold under, SchemaValidator.below, SchemaValidator.number_compare.
  destruct value as [|b|n|f|s|l|d]; try (split; [tauto | discriminate]).
  - rewrite <- Z.compare_lt_iff. destruct (Z.b2z b ?= m)%Z; split; congruence.
  - rewrite <- Z.compare_lt_iff. destruct (n ?= m)%Z; split; congruence.
  - destruct (SchemaValidator.float_compare_int f m) as [[]|]; split; congruence.
Qed.

Lemma over_above value m : over value m <-> SchemaValidator.above value m = true.
Proof.
  unfold over, SchemaValidator.above, SchemaValidator.number_compare.
  destruct value as [|b|n|f|s|l|d]; try (split; [tauto | discriminate]).
  - rewrite <- Z.compare_gt_iff. destruct (Z.b2z b ?= m)%Z; split; congruence.
  - rewrite <- Z.compare_gt_iff. destruct (n ?= m)%Z; split; congruence.
  - destruct (SchemaValidator.float_compare_int f m) as [[]|]; split; congruence.
Qed.

Lemma in_choices_false value choices :
  SchemaValidator.in_choices value choices = false
  <-> forall s, value = VStr s -> ~ In s choices.
Proof.
  unfold SchemaValidator.in_choices.
  destruct value as [|b|n|f|s|l|d]; try (split; [intros _ ? [=] | reflexivity]).
  rewrite <- not_true_iff_false, existsb_exists. split.
  - intros Hn s' [= <-] Hin. apply Hn. exists s. split; [exact Hin | apply String.eqb_refl].
  - intros Hn (x & Hin & Heq). apply String.eqb_eq in Heq. subst x. exact (Hn s eq_refl Hin).
Qed.

(** A value that violates the entry of its key leaves a message. *)
Lemma violation_leaves_a_message schema key value entry :
  PyDict.get schema key = Some entry -> violates entry value ->
  exists message, schema_messages schema key value = [message].
Proof.
  intros Hget Hv. unfold schema_messages, SchemaValidator.validate.
  cbn [SchemaValidator.schema]. rewrite Hget.
  unfold SchemaValidator.fail, SchemaValidator.pass.
  destruct Hv as [[Hreq ->]|[Hnn Hv]].
  - rewrite Hreq. cbn. eauto.
  - assert (Hnone : is_None value = false) by (destruct value; [congruence|reflexivity..]).
    rewrite Hnone, andb_false_r.
    destruct (SchemaValidator.check_type key value entry) eqn:Ht; [cbn; eauto|].
    destruct (SchemaValidator.check_min key value entry) eqn:Hmin; [cbn; eauto|].
    destruct (SchemaValidator.check_max key value entry) eqn:Hmax; [cbn; eauto|].
    destruct (SchemaValidator.check_pattern key value entry) eqn:Hpat; [cbn; eauto|].
    destruct (SchemaValidator.check_choices key value entry) eqn:Hch; [cbn; eauto|].
    exfalso.
    destruct Hv as [(ty & Hty & Hi)|[(m & Hm & Hu)|[(m & Hm & Ho)
                    |[(s & a & p & -> & Hp & Hre)|[Hne Hnot]]]]].
    + unfold SchemaValidator.check_type in Ht. rewrite Hty, Hi in Ht. discriminate.
    + unfold SchemaValidator.check_min in Hmin. apply under_below in Hu.
      rewrite Hm, Hu in Hmin. discriminate.
    + unfold SchemaValidator.check_max in Hmax. apply over_above in Ho.
      rewrite Hm, Ho in Hmax. discriminate.
    + unfold SchemaValidator.check_pattern in Hpat. rewrite Hp, Hre in Hpat. discriminate.
    + unfold SchemaValidator.check_choices in Hch. apply in_choices_false in Hnot.
      destruct (SchemaValidator.entry_choices entry) as [|x choices]; [congruence|].
      rewrite Hnot in Hch. discriminate.
Qed.

(** A message is left only for a key of the schema, and only for a value
    that violates its entry or on which the pattern cannot be run. *)
Lemma message_tells_a_violation schema key value message :
  In message (schema_messages schema key value) ->
  exists entry,
    PyDict.get schema key = Some entry
    /\ (violates entry value \/ pattern_raises entry value).
Proof.
  unfold schema_messages, SchemaValidator.validate. cbn [SchemaValidator.schema].
  unfold SchemaValidator.fail, SchemaValidator.pass.
  destruct (PyDict.get schema key) as [entry|]; [|intros []].
  intros Hin. exists entry. split; [reflexivity|].
  destruct (SchemaValidator.entry_required entry) eqn:Hreq;
    destruct (is_None value) eqn:Hnone; cbn [andb] in Hin;
    try (destruct value; try discriminate; left; left; now split);
    try (now destruct Hin).
  all: assert (Hnn : value <> VNone) by (intros ->; discriminate).
  all: destruct (SchemaValidator.check_type key value entry) eqn:Ht;
       [ left; right; split; [exact Hnn|]; left;
         unfold SchemaValidator.check_type in Ht;
         destruct (SchemaValidator.entry_type entry) as [ty|]; [|discriminate];
         exists ty; split; [reflexivity|];
         destruct (SchemaValidator.isinstance value ty); [discriminate|reflexivity] |].
  all: destruct (SchemaValidator.check_min key value entry) eqn:Hmin;
       [ left; right; split; [exact Hnn|]; right; left;
         unfold SchemaValidator.check_min in Hmin;
         destruct (SchemaValidator.entry_min entry) as [m|]; [|discriminate];
         exists m; split; [reflexivity|]; apply under_below;
         destruct (SchemaValidator.below value m); [reflexivity|discriminate] |].
  all: destruct (SchemaValidator.check_max key value entry) eqn:Hmax;
       [ left; right; split; [exact Hnn|]; right; right; left;
         unfold SchemaValidator.check_max in Hmax;
         destruct (SchemaValidator.entry_max entry) as [m|]; [|discriminate];
         exists m; split; [reflexivity|]; apply over_above;
         destruct (SchemaValidator.above value m); [reflexivity|discriminate] |].
  all: destruct (SchemaValidator.check_pattern key value entry) eqn:Hpat;
       [ unfold SchemaValidator.check_pattern in Hpat;
         destruct value as [|b|n|f|txt|l|d]; try discriminate;
         destruct (SchemaValidator.entry_pattern entry) as [[|a p]|] eqn:Hp; try discriminate;
         destruct (re_match (String a p) txt) as [[]|text] eqn:Hre; try discriminate;
         [ left; right; split; [exact Hnn|]; right; right; right; left;
           exists txt, a, p; auto
         | right; exists txt, a, p, text; auto ] |].
  all: destruct (SchemaValidator.check_choices key value entry) eqn:Hch; [|now destruct Hin].
  all: left; right; split; [exact Hnn|]; right; right; right; right.
  all: unfold SchemaValidator.check_choices in Hch.
  all: destruct (SchemaValidator.entry_choices entry) as [|x choices] eqn:Hc; [discriminate|].
  all: split; [discriminate|]; apply in_choices_false.
  all: destruct (SchemaValidator.in_choices value (x :: choices)); [discriminate|reflexivity].
Qed.

(** The loop of [validate] over the items of [_data]. *)
Lemma validate_loop (items : Dict) c vs :
  BaseConfig._validator c = Some vs ->
  exists vs',
    SchemaValidator.schema vs' = SchemaValidator.schema vs
    /\ for_each items (fun '(key, value) =>
         bind (BaseConfig.on_validator key value)
           (fun valid => if valid then ret tt
              else bind (gets BaseConfig.validator_errors)
                     (fun errors => BaseConfig.add_validation_errors
                                      (map (KeyError key) errors)))) c
       = (BaseConfig.with_validation_errors
            (BaseConfig._validation_errors c
             ++ flat_map (fun kv => map (KeyError (fst kv))
                            (schema_messages (SchemaValidator.schema vs) (fst kv) (snd kv)))
                         items)
            (BaseConfig.with_validator (Some vs') c),
          Ok tt).
Proof.
  revert c vs. induction items as [|[k v] items IH]; intros c vs Hvs.
  - exists vs. split; [reflexivity|]. cbn [for_each flat_map]. unfold ret.
    rewrite app_nil_r, <- Hvs, with_validator_id. now destruct c.
  - cbn [for_each flat_map fst snd]. unfold bind at 1, bind at 1.
    unfold BaseConfig.on_validator at 1. rewrite Hvs.
    cbn [validator_validate SchemaValidator.validator].
    rewrite schema_validate_spec.
    set (msgs := schema_messages (SchemaValidator.schema vs) k v).
    set (vs1 := SchemaValidator.mk (SchemaValidator.schema vs) msgs).
    set (c1 := BaseConfig.with_validator (Some vs1) c).
    assert (Hstep :
      (if is_nil msgs then ret tt
       else bind (gets BaseConfig.validator_errors)
              (fun errors => BaseConfig.add_validation_errors (map (KeyError k) errors))) c1
      = (BaseConfig.with_validation_errors
           (BaseConfig._validation_errors c ++ map (KeyError k) msgs) c1, Ok tt)).
    { destruct msgs as [|msg msgs'] eqn:Hm; cbn [is_nil].
      - unfold ret. cbn [map]. rewrite app_nil_r. subst c1. now destruct c.
      - unfold bind, gets, BaseConfig.add_validation_errors, modify.
        unfold BaseConfig.validator_errors. subst c1 vs1.
        cbn [BaseConfig._validator BaseConfig.with_validator
             validator_get_validation_errors SchemaValidator.validator].
        unfold SchemaValidator.get_validation_errors. cbn [SchemaValidator.errors].
        reflexivity. }
    rewrite Hstep. clear Hstep.
    destruct (IH (BaseConfig.with_validation_errors
                    (BaseConfig._validation_errors c ++ map (KeyError k) msgs) c1) vs1)
      as (vs' & Hschema & Hloop); [reflexivity|].
    exists vs'. split; [exact Hschema|].
    rewrite Hloop. cbn [SchemaValidator.schema vs1].
    subst c1. cbn [BaseConfig._validation_errors BaseConfig.with_validation_errors
      BaseConfig.with_validator].
    rewrite <- app_assoc. reflexivity.
Qed.

(** C4 (amended): [validate] returns; the error list it leaves is the
    aggregated one: one message naming every missing required key (the
    required keys that are no keys of [_data]), then the messages of the
    schema validator for the items of [_data], which are its top-level keys;
    it returns true exactly when that list is empty, and [_validated] is what
    it returns.  Every item of [_data] whose value violates the schema entry
    of its key has a message in the list, and a message is there only for
    such an item or for one whose pattern cannot be run.  So with two
    required keys missing and a value the schema rejects under a top-level
    key, the list names both keys and holds the message of the rejected
    value. *)
Theorem validate_reports_every_problem c :
  exists c',
    BaseConfig.validate c = (c', Ok (is_nil (expected_errors c)))
    /\ BaseConfig.get_validation_errors c' = expected_errors c
    /\ BaseConfig.is_validated c' = is_nil (expected_errors c)
    /\ (is_nil (expected_errors c) = true <-> expected_errors c = [])
    /\ BaseConfig._data c' = BaseConfig._data c
    /\ (forall k1 k2 key value vs message,
          In k1 (BaseConfig.required_keys c) -> PyDict.mem k1 (BaseConfig._data c) = false ->
          In k2 (BaseConfig.required_keys c) -> PyDict.mem k2 (BaseConfig._data c) = false ->
          BaseConfig._validator c = Some vs ->
          In (key, value) (BaseConfig._data c) ->
          In message (schema_messages (SchemaValidator.schema vs) key value) ->
          In k1 (missing_keys c) /\ In k2 (missing_keys c)
          /\ In (MissingRequiredKeys (missing_keys c)) (BaseConfig.get_validation_errors c')
          /\ In (KeyError key message) (BaseConfig.get_validation_errors c'))
    /\ (forall key value vs entry,
          BaseConfig._validator c = Some vs ->
          In (key, value) (BaseConfig._data c) ->
          PyDict.get (SchemaValidator.schema vs) key = Some entry ->
          violates entry value ->
          exists message, In (KeyError key message) (BaseConfig.get_validation_errors c'))
    /\ (forall key message,
          In (KeyError key message) (BaseConfig.get_validation_errors c') ->
          exists vs value entry,
            BaseConfig._validator c = Some vs
            /\ In (key, value) (BaseConfig._data c)
            /\ PyDict.get (SchemaValidator.schema vs) key = Some entry
            /\ (violates entry value \/ pattern_raises entry value))
    /\ (forall keys,
          In (MissingRequiredKeys keys) (BaseConfig.get_validation_errors c')
          <-> keys <> [] /\ keys = missing_keys c)
    /\ (forall k,
          In k (missing_keys c)
          <-> In k (BaseConfig.required_keys c) /\ PyDict.get (BaseConfig._data c) k = None).
Proof.
  assert (Hrun : exists c',
    BaseConfig.validate c = (c', Ok (is_nil (expected_errors c)))
    /\ BaseConfig._validation_errors c' = expected_errors c
    /\ BaseConfig._validated c' = is_nil (expected_errors c)
    /\ BaseConfig._data c' = BaseConfig._data c).
  { unfold BaseConfig.validate, bind at 1, modify at 1, try_except.
    unfold bind at 1, gets at 1. unfold bind at 1, gets at 1.
    cbn [BaseConfig.required_keys BaseConfig._data BaseConfig.with_validation_errors].
    fold (missing_keys c).
    set (c0 := BaseConfig.with_validation_errors [] c).
    set (part := match missing_keys c with [] => [] | keys => [MissingRequiredKeys keys] end).
    assert (Hmiss :
      (match missing_keys c with
       | [] => ret tt
       | _ :: _ => BaseConfig.add_validation_errors [MissingRequiredKeys (missing_keys c)]
       end) c0 = (BaseConfig.with_validation_errors part c, Ok tt)).
    { subst part c0. destruct (missing_keys c); reflexivity. }
    unfold bind at 1. rewrite Hmiss. clear Hmiss.
    unfold bind at 1, gets at 1.
    cbn [BaseConfig._validator BaseConfig.with_validation_errors].
    unfold expected_errors. fold part.
    destruct (BaseConfig._validator c) as [vs|] eqn:Hvs.
    - unfold bind at 1. unfold bind at 1, gets at 1.
      cbn [BaseConfig._data BaseConfig.with_validation_errors].
      destruct (validate_loop (BaseConfig._data c)
                  (BaseConfig.with_validation_errors part c) vs Hvs)
        as (vs' & _ & Hloop).
      rewrite Hloop. clear Hloop.
      cbn [BaseConfig._validation_errors BaseConfig.with_validation_errors].
      set (errs := (part ++ flat_map _ _)%list).
      unfold bind at 1, gets at 1.
      cbn [BaseConfig._validation_errors BaseConfig.with_validation_errors].
      destruct errs; eexists; (split; [reflexivity|]); cbn; auto.
    - unfold bind at 1, ret at 1. unfold bind at 1, gets at 1.
      cbn [BaseConfig._validation_errors BaseConfig.with_validation_errors].
      rewrite app_nil_r.
      destruct part; eexists; (split; [reflexivity|]); cbn; auto. }
  destruct Hrun as (c' & Hv & He & Hf & Hd).
  exists c'. split; [exact Hv|]. split; [exact He|]. split; [exact Hf|].
  split; [destruct (expected_errors c); cbn; split; congruence|].
  split; [exact Hd|].
  assert (Hk : forall k, In k (BaseConfig.required_keys c) ->
                         PyDict.mem k (BaseConfig._data c) = false -> In k (missing_keys c)).
  { intros k Hr Hm. unfold missing_keys. apply filter_In. now rewrite Hm. }
  unfold BaseConfig.get_validation_errors. rewrite He.
  split; [|split; [|split; [|split]]].
  - intros k1 k2 key value vs message Hr1 Hm1 Hr2 Hm2 Hvs Hin Hmsg.
    split; [now apply Hk|]. split; [now apply Hk|].
    unfold expected_errors. rewrite Hvs.
    split; apply in_or_app.
    + left. pose proof (Hk k1 Hr1 Hm1) as Hne.
      destruct (missing_keys c); [contradiction | now left].
    + right. apply in_flat_map. exists (key, value). split; [exact Hin|].
      cbn [fst snd]. now apply in_map.
  - intros key value vs entry Hvs Hin Hget Hviol.
    destruct (violation_leaves_a_message _ key value entry Hget Hviol) as [message Hm].
    exists message. unfold expected_errors. rewrite Hvs. apply in_or_app. right.
    apply in_flat_map. exists (key, value). split; [exact Hin|].
    cbn [fst snd]. rewrite Hm. now left.
  - intros key message Hin. unfold expected_errors in Hin.
    apply in_app_or in Hin as [Hin|Hin].
    + destruct (missing_keys c); [destruct Hin|]. now destruct Hin as [[=]|[]].
    + destruct (BaseConfig._validator c) as [vs|]; [|destruct Hin].
      apply in_flat_map in Hin as ([k v] & Hkv & Hin). cbn [fst snd] in Hin.
      apply in_map_iff in Hin as (msg & [= <- <-] & Hmsg).
      destruct (message_tells_a_violation _ _ _ _ Hmsg) as (entry & Hget & Hviol).
      exists vs, v, entry. auto.
  - intros keys. unfold expected_errors. rewrite in_app_iff. split.
    + intros [Hin|Hin].
      * destruct (missing_keys c) eqn:Hmk; [destruct Hin|].
        destruct Hin as [[= <-]|[]]. split; [discriminate|reflexivity].
      * exfalso. destruct (BaseConfig._validator c); [|destruct Hin].
        apply in_flat_map in Hin as (kv & _ & Hin).
        now apply in_map_iff in Hin as (? & [=] & _).
    + intros [Hne ->]. left. destruct (missing_keys c); [congruence|now left].
  - intros k. unfold missing_keys.
    now rewrite filter_In, negb_true_iff, dict_mem_false_get.
Qed.

End Validate.

Section ValidateExample.
#[local] Existing Instance Sample.python.

(** Two required keys missing and a port that is a text, in one call. *)
Example validate_names_both_missing_keys_and_the_bad_port :
  let validator := SchemaValidator.mk
    [("host", SchemaValidator.mkEntry (Some SchemaValidator.py_str) true None None None []);
     ("port", SchemaValidator.mkEntry (Some SchemaValidator.py_int) true
                (Some 1) (Some 65535) None [])] [] in
  let c : BaseConfig.t SchemaValidator.t MemoryCache.t :=
    BaseConfig.with_data [("host", VStr "localhost"); ("port", VStr "eighty")]
      (BaseConfig.init "database" [] ["host"; "port"; "database"; "username"]
         (Some validator) None None None) in
  let '(c', r) := BaseConfig.validate c in
  r = Ok false
  /\ BaseConfig.is_validated c' = false
  /\ BaseConfig.get_validation_errors c'
     = [MissingRequiredKeys ["database"; "username"];
        KeyError "port" "'port' must be of type int"].
Proof. vm_compute. repeat split. Qed.

(** C4, as stated, fails for a value below the top level: with two required
    keys missing and a text where the schema wants an integer under
    server.port, [get] finds the text under that key, it violates the entry
    of the key and [set] refuses it, yet [validate] hands only the items of
    [_data] to the validator and reports the missing keys alone. *)
Lemma validate_misses_a_violation_below_the_top_level :
  let entry :=
    SchemaValidator.mkEntry (Some SchemaValidator.py_int) true (Some 1) (Some 65535) None [] in
  let c0 : BaseConfig.t SchemaValidator.t MemoryCache.t :=
    BaseConfig.init "server" [("server", VDict [("port", VStr "eighty")])]
      ["host"; "database"]
      (Some (SchemaValidator.mk [("server.port", entry)] [])) None None None in
  let c := fst (BaseConfig.load_defaults 0 c0) in
  let '(c', r) := BaseConfig.validate c in
  snd (BaseConfig.get 1 "server.port" VNone c) = Ok (VStr "eighty")
  /\ violates entry (VStr "eighty")
  /\ raises (snd (BaseConfig.set 1 "server.port" (VStr "eighty") None c)) = true
  /\ r = Ok false
  /\ BaseConfig.get_validation_errors c' = [MissingRequiredKeys ["host"; "database"]].
Proof.
  vm_compute. repeat split.
  right. split; [discriminate|]. left. now exists SchemaValidator.py_int.
Qed.

End ValidateExample.

(** ** The environment loader *)





Section EnvironmentLoaderFacts.
Context `{Python}.
Implicit Types (self : EnvironmentLoader.t) (environ : list (string * string)).





End EnvironmentLoaderFacts.

(** ** Bulk operations of the registry *)

Local Open Scope list_scope.

Lemma dict_get_app_absent {A : Type} (d1 d2 : list (string * A)) k :
  ~ In k (PyDict.keys d1) -> PyDict.get (d1 ++ d2) k = PyDict.get d2 k.
Proof.
  induction d1 as [|[k' v'] d1 IH]; cbn; [reflexivity|].
  intros Hn. destruct (String.eqb_spec k' k) as [->|Hne]; [tauto|]. apply IH. tauto.
Qed.

Lemma dict_set_app_absent {A : Type} (d1 d2 : list (string * A)) k v :
  ~ In k (PyDict.keys d1) -> PyDict.set (d1 ++ d2) k v = d1 ++ PyDict.set d2 k v.
Proof.
  induction d1 as [|[k' v'] d1 IH]; cbn; [reflexivity|].
  intros Hn. destruct (String.eqb_spec k' k) as [->|Hne]; [tauto|]. rewrite IH; tauto.
Qed.

Section BulkOperations.
Context `{Python} {V C : Type} `{!IConfigValidator V} `{!IConfigCache C}.
Implicit Types (m : ConfigManager.t V C) (configs : list (string * BaseConfig.t V C)).

(** The shared loop calls the method once on every registered object, each
    on its own state, and stops at none. *)
Lemma each_config_spec {A : Type} (method : M (BaseConfig.t V C) A) done todo m :
  NoDup (PyDict.keys (done ++ todo)) ->
  ConfigManager.each_config method (PyDict.keys todo)
    (ConfigManager.with_configs (done ++ todo) m)
  = (ConfigManager.with_configs (done ++ states_after method todo) m,
     outcomes_of method todo).
Proof.
  revert done. induction todo as [|[name config] todo IH]; intros done Hnd.
  - reflexivity.
  - cbn [PyDict.keys map fst ConfigManager.each_config].
    assert (Hdone : ~ In name (PyDict.keys done)).
    { unfold PyDict.keys in Hnd. rewrite map_app in Hnd. cbn in Hnd.
      apply NoDup_app in Hnd as (_ & Hdisj & _).
      intros Hin. apply list_elem_of_In in Hin. apply (Hdisj name Hin). now left. }
    unfold ConfigManager.on_config at 1.
    cbn [ConfigManager._configs ConfigManager.with_configs].
    rewrite dict_get_app_absent by assumption. cbn [PyDict.get]. rewrite String.eqb_refl.
    destruct (method config) as [config' r] eqn:Hm.
    rewrite dict_set_app_absent by assumption. cbn [PyDict.set]. rewrite String.eqb_refl.
    change (ConfigManager.with_configs (done ++ (name, config') :: todo)
              (ConfigManager.with_configs (done ++ (name, config) :: todo) m))
      with (ConfigManager.with_configs (done ++ (name, config') :: todo) m).
    replace (done ++ (name, config') :: todo) with ((done ++ [(name, config')]) ++ todo)
      by now rewrite <- app_assoc.
    fold (PyDict.keys todo).
    rewrite IH.
    + unfold states_after, outcomes_of. cbn [map fst snd]. rewrite Hm. cbn [fst snd].
      now rewrite <- app_assoc.
    + unfold PyDict.keys in *. rewrite !map_app in *. cbn [map fst] in *.
      now rewrite <- app_assoc.
Qed.

Lemma each_config_all {A : Type} (method : M (BaseConfig.t V C) A) m :
  NoDup (PyDict.keys (ConfigManager._configs m)) ->
  ConfigManager.each_config method (PyDict.keys (ConfigManager._configs m)) m
  = (ConfigManager.with_configs (states_after method (ConfigManager._configs m)) m,
     outcomes_of method (ConfigManager._configs m)).
Proof.
  intros Hnd. pose proof (each_config_spec method [] (ConfigManager._configs m) m Hnd) as Hs.
  cbn [app] in Hs. rewrite <- Hs. f_equal. now destruct m.
Qed.

Lemma failures_complete {A : Type} (rs : list (string * Outcome A)) name e :
  In (name, e) (ConfigManager.failures rs) <-> In (name, Raise e) rs.
Proof.
  induction rs as [|[n [a|x]] rs IH]; cbn [ConfigManager.failures].
  - reflexivity.
  - rewrite IH. cbn. split; [auto | intros [[=]|?]; auto].
  - cbn. rewrite IH. split; intros [[= -> ->]|?]; auto.
Qed.

Lemma validate_returns (c : BaseConfig.t V C) :
  exists b, snd (BaseConfig.validate c) = Ok b.
Proof.
  unfold BaseConfig.validate, bind at 1, modify at 1, try_except.
  match goal with |- context [match ?body ?s with _ => _ end] =>
    destruct (body s) as [s' [b|e]] end.
  - eauto.
  - exists false. reflexivity.
Qed.

Lemma validation_messages_failed (rs : list (string * Outcome bool)) name :
  In (name, Ok false) rs -> In (ConfigManager.ValidationFailed name)
                               (ConfigManager.validation_messages rs).
Proof.
  induction rs as [|[n [[|]|x]] rs IH]; cbn [ConfigManager.validation_messages].
  - intros [].
  - intros [[=]|Hin]; auto.
  - intros [[= ->]|Hin]; [now left|right; auto].
  - intros [[=]|Hin]. right; auto.
Qed.

Lemma validation_messages_nil (rs : list (string * Outcome bool)) :
  ConfigManager.validation_messages rs = [] <-> forall name r, In (name, r) rs -> r = Ok true.
Proof.
  induction rs as [|[n [[|]|x]] rs IH]; cbn [ConfigManager.validation_messages].
  - split; [intros _ ? ? [] | reflexivity].
  - rewrite IH. split.
    + intros Hall name r [[= <- <-]|Hin]; eauto.
    + intros Hall name r Hin. apply (Hall name). now right.
  - split; [discriminate|]. intros Hall. specialize (Hall n (Ok false) (or_introl eq_refl)).
    discriminate.
  - split; [discriminate|]. intros Hall. specialize (Hall n (Raise x) (or_introl eq_refl)).
    discriminate.
Qed.

(** C3 (amended): on a registry whose names are distinct, each bulk
    operation calls its method on every registered object, whatever the other
    calls did.  [load_all] raises one [ConfigLoadError] that lists, with its
    name, every object whose load raised, and returns when there is none;
    [validate_all] builds the list with the name of every object whose
    validation failed and returns whether the list is empty; [reload_all]
    records the time and returns, also when a reload raised. *)
Theorem bulk_operations_visit_every_config m now :
  NoDup (PyDict.keys (ConfigManager._configs m)) ->
  let configs := ConfigManager._configs m in
  let loads := outcomes_of (ConfigManager.load_if_needed now) configs in
  let validations := outcomes_of BaseConfig.validate configs in
  (ConfigManager.load_all now m
   = (ConfigManager.with_configs (states_after (ConfigManager.load_if_needed now) configs) m,
      match ConfigManager.failures loads with
      | [] => Ok tt
      | errors => Raise (ConfigLoadErrors errors)
      end)
   /\ forall name config e,
        In (name, config) configs ->
        snd (ConfigManager.load_if_needed now config) = Raise e ->
        In (name, e) (ConfigManager.failures loads))
  /\ (ConfigManager.validate_all_errors m
      = (ConfigManager.with_configs (states_after BaseConfig.validate configs) m,
         ConfigManager.validation_messages validations)
      /\ ConfigManager.validate_all m
         = (ConfigManager.with_configs (states_after BaseConfig.validate configs) m,
            Ok (is_nil (ConfigManager.validation_messages validations)))
      /\ (is_nil (ConfigManager.validation_messages validations) = true
          <-> forall name config, In (name, config) configs ->
                snd (BaseConfig.validate config) = Ok true)
      /\ forall name config,
           In (name, config) configs ->
           snd (BaseConfig.validate config) = Ok false ->
           In (ConfigManager.ValidationFailed name)
              (ConfigManager.validation_messages validations))
  /\ ConfigManager.reload_all now m
     = (ConfigManager.with_last_reload now
          (ConfigManager.with_configs (states_after (BaseConfig.reload now) configs) m),
        Ok tt).
Proof.
  intros Hnd configs loads validations.
  assert (Hin : forall {A} (method : M (BaseConfig.t V C) A) name config,
            In (name, config) configs ->
            In (name, snd (method config)) (outcomes_of method configs)).
  { intros A method name config Hc. unfold outcomes_of.
    apply in_map_iff. exists (name, config). auto. }
  split; [|split].
  - split.
    + unfold ConfigManager.load_all. rewrite each_config_all by assumption.
      fold configs loads. now destruct (ConfigManager.failures loads).
    + intros name config e Hc He. apply failures_complete. rewrite <- He.
      now apply Hin.
  - assert (Herr : ConfigManager.validate_all_errors m
      = (ConfigManager.with_configs (states_after BaseConfig.validate configs) m,
         ConfigManager.validation_messages validations)).
    { unfold ConfigManager.validate_all_errors. now rewrite each_config_all by assumption. }
    split; [exact Herr|]. split; [|split].
    + unfold ConfigManager.validate_all. rewrite Herr.
      now destruct (ConfigManager.validation_messages validations).
    + assert (Hnil : is_nil (ConfigManager.validation_messages validations) = true
                     <-> ConfigManager.validation_messages validations = []).
      { destruct (ConfigManager.validation_messages validations); cbn; split; congruence. }
      rewrite Hnil, validation_messages_nil. split.
      * intros Hall name config Hc. apply (Hall name). now apply Hin.
      * intros Hall name r Hr. unfold validations, outcomes_of in Hr.
        apply in_map_iff in Hr as ([n c] & [= <- <-] & Hc). eauto.
    + intros name config Hc Hf. apply validation_messages_failed. rewrite <- Hf.
      now apply Hin.
  - unfold ConfigManager.reload_all. now rewrite each_config_all by assumption.
Qed.

End BulkOperations.

Section BulkOperationsExamples.
#[local] Existing Instance Sample.python.

Lemma sample_registry_names_distinct :
  NoDup (PyDict.keys (ConfigManager._configs Sample.registry)).
Proof.
  cbn. repeat (constructor;
    [rewrite ?not_elem_of_cons; repeat split; try discriminate; apply not_elem_of_nil|]).
  constructor.
Qed.

Lemma bulk_operations_visit_every_config_witness :
  let m := Sample.registry in
  let now := 1 in
  let configs := ConfigManager._configs m in
  let loads := outcomes_of (ConfigManager.load_if_needed now) configs in
  let validations := outcomes_of BaseConfig.validate configs in
  (ConfigManager.load_all now m
   = (ConfigManager.with_configs (states_after (ConfigManager.load_if_needed now) configs) m,
      match ConfigManager.failures loads with
      | [] => Ok tt
      | errors => Raise (ConfigLoadErrors errors)
      end)
   /\ forall name config e,
        In (name, config) configs ->
        snd (ConfigManager.load_if_needed now config) = Raise e ->
        In (name, e) (ConfigManager.failures loads))
  /\ (ConfigManager.validate_all_errors m
      = (ConfigManager.with_configs (states_after BaseConfig.validate configs) m,
         ConfigManager.validation_messages validations)
      /\ ConfigManager.validate_all m
         = (ConfigManager.with_configs (states_after BaseConfig.validate configs) m,
            Ok (is_nil (ConfigManager.validation_messages validations)))
      /\ (is_nil (ConfigManager.validation_messages validations) = true
          <-> forall name config, In (name, config) configs ->
                snd (BaseConfig.validate config) = Ok true)
      /\ forall name config,
           In (name, config) configs ->
           snd (BaseConfig.validate config) = Ok false ->
           In (ConfigManager.ValidationFailed name)
              (ConfigManager.validation_messages validations))
  /\ ConfigManager.reload_all now m
     = (ConfigManager.with_last_reload now
          (ConfigManager.with_configs (states_after (BaseConfig.reload now) configs) m),
        Ok tt).
Proof.
  exact (bulk_operations_visit_every_config Sample.registry 1 sample_registry_names_distinct).
Defined.

(** On the sample registry [load_all] raises once and lists both locked
    objects, after it has loaded the first object. *)
Example load_all_lists_both_failures :
  let readonly name :=
    ConfigLoadError "Failed to load configuration: "
      (ConfigException "Configuration is readonly, cannot set 'host'") in
  let '(m', r) := ConfigManager.load_all 1 Sample.registry in
  r = Raise (ConfigLoadErrors [("database", readonly "database"); ("cache", readonly "cache")])
  /\ option_map BaseConfig.is_loaded (PyDict.get (ConfigManager._configs m') "application")
     = Some true.
Proof. vm_compute. split; reflexivity. Qed.

(** C3, as stated, fails for [reload_all]: the reload of both locked objects
    raises, and [reload_all] returns all the same, with no error. *)
Lemma reload_all_returns_when_a_reload_raised :
  raises (snd (BaseConfig.reload 1 (Sample.locked "database"))) = true
  /\ In ("database", Sample.locked "database") (ConfigManager._configs Sample.registry)
  /\ snd (ConfigManager.reload_all 1 Sample.registry) = Ok tt.
Proof. split; [reflexivity|]. split; [cbn; auto | reflexivity]. Qed.

End BulkOperationsExamples.

(** ** Backup and restore *)

Section BackupRestore.
Context `{Python}.

Lemma metadata_round_trip `{!IsoLaws} (m : ConfigMetadata) :
  BaseConfig.metadata_of_backup (BaseConfig.metadata_to_backup m) = Ok m.
Proof.
  destruct m as [src prio created updated ver enc cch].
  unfold BaseConfig.metadata_of_backup, BaseConfig.metadata_to_backup.
  cbn [BaseConfig.backup_source BaseConfig.backup_priority BaseConfig.backup_created_at
       BaseConfig.backup_updated_at BaseConfig.backup_version BaseConfig.backup_encrypted
       BaseConfig.backup_cached source priority created_at updated_at version encrypted cached].
  assert (Hs : ConfigSource_of_value (ConfigSource_value src) = Ok src) by now destruct src.
  assert (Hp : ConfigPriority_of_value (ConfigPriority_value prio) = Ok prio)
    by now destruct prio.
  rewrite Hs, Hp, fromisoformat_isoformat.
  destruct updated as [d|]; cbn [option_map]; [|reflexivity].
  pose proof (isoformat_nonempty d) as Hne.
  pose proof (fromisoformat_isoformat d) as Hrt.
  destruct (isoformat d) as [|a s]; [congruence|].
  now rewrite Hrt.
Qed.

(** A key that is new goes last. *)
Lemma dict_set_absent {A : Type} (d : list (string * A)) k v :
  k ∉ PyDict.keys d -> PyDict.set d k v = (d ++ [(k, v)])%list.
Proof.
  unfold PyDict.keys. induction d as [|[k' v'] d IH]; cbn; [reflexivity|].
  intros Hk. apply not_elem_of_cons in Hk as [Hne Hk].
  destruct (String.eqb_spec k' k); [congruence|]. now rewrite IH.
Qed.

(** The loop of [restore] over the entries [backup] wrote. *)
Lemma restore_loop `{!IsoLaws} (l acc : list (string * ConfigMetadata)) h r :
  NoDup (PyDict.keys (acc ++ l)) ->
  for_each (map (fun kv => (fst kv, BaseConfig.metadata_to_backup (snd kv))) l)
    (fun '(key, meta) => fun self =>
       match BaseConfig.metadata_of_backup meta with
       | Ok m =>
           (SharedData.mk (SharedData.store self) (SharedData._data self)
              (PyDict.set (SharedData._metadata self) key m), Ok tt)
       | Raise e => (self, Raise e)
       end) (SharedData.mk h r acc)
  = (SharedData.mk h r (acc ++ l)%list, Ok tt).
Proof.
  revert acc. induction l as [|[k m] l IH]; intros acc Hnd.
  - now rewrite app_nil_r.
  - cbn [map for_each fst snd]. unfold bind at 1.
    rewrite metadata_round_trip.
    cbn [SharedData.store SharedData._data SharedData._metadata].
    rewrite dict_set_absent.
    + rewrite (IH (acc ++ [(k, m)])%list) by now rewrite <- app_assoc.
      now rewrite <- app_assoc.
    + unfold PyDict.keys in *. rewrite fmap_app in Hnd.
      apply NoDup_app in Hnd as (_ & Hdisj & _).
      intros Hin. apply (Hdisj k Hin). cbn. left.
Qed.

(** [restore] of what [backup] returned: [_data] becomes a new copy of the
    snapshot and [_metadata] is rebuilt as it was. *)
Lemma restore_run `{!IsoLaws} (self s : SharedData.t) :
  NoDup (PyDict.keys (SharedData._metadata self)) ->
  SharedData.restore (fst (SharedData.backup self)) s
  = (SharedData.mk
       (SharedData.store s
        ++ [default [] (SharedData.store s !! length (SharedData.store self))])%list
       (length (SharedData.store s)) (SharedData._metadata self),
     Ok tt).
Proof.
  intros Hnd. unfold SharedData.restore, SharedData.backup, SharedData.copy, SharedData.alloc.
  cbn [fst SharedData.backup_data SharedData.backup_metadata].
  unfold bind at 1, modify at 1. unfold bind at 1, modify at 1.
  cbn [SharedData.store SharedData._data SharedData._metadata].
  exact (restore_loop (SharedData._metadata self) [] _ _ Hnd).
Qed.

(** Objects added to a closed store do not change what a path leads to. *)
Lemma shared_get_path_extend h ext c keys default :
  closed h -> cell_in h c ->
  SharedData.get_path (h ++ ext) c keys default = SharedData.get_path h c keys default.
Proof.
  intros Hcl. revert c. induction keys as [|k keys IH]; intros c Hc; [reflexivity|].
  cbn [SharedData.get_path]. destruct c as [v|l]; [reflexivity|].
  cbn in Hc. rewrite lookup_app_l by assumption.
  destruct (h !! l) as [o|] eqn:Ho; [|reflexivity].
  destruct (PyDict.get o k) as [c|] eqn:Hk; [|reflexivity].
  apply IH. exact (Hcl l o k c Ho Hk).
Qed.

(** A value that is no mapping is written as it is. *)
Lemma alloc_value_atom value h :
  (forall d, value <> VDict d) -> SharedData.alloc_value value h = (SharedData.Atom value, h).
Proof. intros Hd. destruct value; try reflexivity. now destruct (Hd entries). Qed.

(** C9: [backup] copies the top level of [_data] and shares what lies below,
    where the spec has a deep copy.  On an object whose [_data] is the
    mapping [root] and whose metadata keys are distinct, with [b] the backup
    and [s2] the state after it, and for [restore] run on any object of the
    store (the object itself, or another one, whatever its data and
    metadata):
    - [b] restored as it was taken makes [restore] return and gives the
      object the metadata of the backup, in its order; when every mapping
      the store refers to is in the store, every path reads as it did on the
      source;
    - a value written along a two-segment path through a mapping that
      existed at the backup is still read after [restore]: the snapshot
      holds that same mapping, so the value at backup time is not brought
      back;
    - a value written at the top level is undone by [restore]. *)
Theorem restore_of_backup_shares_the_nested_mappings (laws : IsoLaws)
    (self : SharedData.t) (root : list (string * SharedData.Cell)) :
  SharedData.store self !! SharedData._data self = Some root ->
  NoDup (PyDict.keys (SharedData._metadata self)) ->
  let b := fst (SharedData.backup self) in
  let s2 := snd (SharedData.backup self) in
  (forall data' metadata',
     exists s',
       SharedData.restore b (SharedData.mk (SharedData.store s2) data' metadata') = (s', Ok tt)
       /\ SharedData._metadata s' = SharedData._metadata self
       /\ (closed (SharedData.store self) ->
           forall key default,
             SharedData._get_nested_value s' key default
             = SharedData._get_nested_value self key default))
  /\ (forall key k1 k2 l child value default data' metadata',
        Py.split "." key = [k1; k2] ->
        PyDict.get root k1 = Some (SharedData.Ref l) ->
        SharedData.store self !! l = Some child ->
        (forall d, value <> VDict d) ->
        let s3 := fst (SharedData._set_nested_value key value s2) in
        exists s4,
          SharedData._set_nested_value key value s2
          = (SharedData.mk (SharedData.store s3) (SharedData._data self)
               (SharedData._metadata self), Ok tt)
          /\ SharedData.restore b (SharedData.mk (SharedData.store s3) data' metadata')
             = (s4, Ok tt)
          /\ SharedData._get_nested_value s4 key default = SharedData.Atom value
          /\ SharedData._get_nested_value self key default
             = match PyDict.get child k2 with
               | Some c => c
               | None => SharedData.Atom default
               end
          /\ SharedData._metadata s4 = SharedData._metadata self)
  /\ (forall key value default data' metadata',
        Py.split "." key = [key] ->
        (forall d, value <> VDict d) ->
        let s3 := fst (SharedData._set_nested_value key value s2) in
        exists s4,
          SharedData._set_nested_value key value s2
          = (SharedData.mk (SharedData.store s3) (SharedData._data self)
               (SharedData._metadata self), Ok tt)
          /\ SharedData._get_nested_value s3 key default = SharedData.Atom value
          /\ SharedData.restore b (SharedData.mk (SharedData.store s3) data' metadata')
             = (s4, Ok tt)
          /\ SharedData._get_nested_value s4 key default
             = SharedData._get_nested_value self key default).
Proof.
  destruct self as [h r md]. intros Hroot Hnd b s2.
  cbn [SharedData.store SharedData._data SharedData._metadata] in Hroot, Hnd.
  assert (Hr : (r < length h)%nat) by (apply lookup_lt_is_Some; eauto).
  assert (Hs2 : s2 = SharedData.mk (h ++ [root])%list r md).
  { unfold s2, SharedData.backup, SharedData.copy, SharedData.alloc.
    cbn [SharedData.store SharedData._data SharedData._metadata snd].
    now rewrite Hroot. }
  assert (Hsnap : (h ++ [root]) !! length h = Some root).
  { rewrite lookup_app_r by lia. now rewrite Nat.sub_diag. }
  split; [|split].
  - intros data' metadata'. eexists. split; [|split].
    + unfold b. rewrite restore_run by exact Hnd. reflexivity.
    + reflexivity.
    + intros Hcl key dflt. rewrite Hs2.
      cbn [SharedData.store SharedData._data SharedData._metadata].
      rewrite Hsnap. cbn [default]. unfold id. cbn [SharedData.store] in Hcl.
      unfold SharedData._get_nested_value.
      cbn [SharedData.store SharedData._data].
      pose proof (split_nonempty "." key) as Hne.
      destruct (Py.split "." key) as [|k keys]; [congruence|].
      cbn [SharedData.get_path].
      rewrite (lookup_app_r (h ++ [root]) [root] (length (h ++ [root]))) by lia.
      rewrite Nat.sub_diag, Hroot. cbn [lookup list_lookup].
      destruct (PyDict.get root k) as [c|] eqn:Hk; [|reflexivity].
      rewrite <- app_assoc. apply shared_get_path_extend; [exact Hcl|].
      exact (Hcl r root k c Hroot Hk).
  - intros key k1 k2 l child value dflt data' metadata' Hsplit Hk1 Hchild Hatom.
    cbn [SharedData.store] in Hchild.
    assert (Hl : (l < length h)%nat) by (apply lookup_lt_is_Some; eauto).
    set (h3 := <[l := PyDict.set child k2 (SharedData.Atom value)]> (h ++ [root])%list).
    assert (Hset : SharedData._set_nested_value key value s2
                   = (SharedData.mk h3 r md, Ok tt)).
    { rewrite Hs2. unfold SharedData._set_nested_value.
      cbn [SharedData.store SharedData._data SharedData._metadata].
      rewrite alloc_value_atom by exact Hatom. rewrite Hsplit.
      cbn [SharedData.set_path].
      rewrite (lookup_app_l h [root] r) by exact Hr. rewrite Hroot, Hk1.
      rewrite (lookup_app_l h [root] l) by exact Hl. rewrite Hchild.
      reflexivity. }
    rewrite Hset. cbn [fst SharedData.store SharedData._data SharedData._metadata].
    exists (SharedData.mk (h3 ++ [root])%list (length h3) md).
    assert (Hlen : length h3 = S (length h)).
    { unfold h3. rewrite length_insert, length_app. cbn. lia. }
    split; [reflexivity|]. split; [|split; [|split]].
    + unfold b. rewrite restore_run by exact Hnd.
      cbn [SharedData.store SharedData._data SharedData._metadata].
      unfold h3 at 2. rewrite list_lookup_insert_ne by lia.
      rewrite Hsnap. reflexivity.
    + unfold SharedData._get_nested_value.
      cbn [SharedData.store SharedData._data]. rewrite Hsplit.
      cbn [SharedData.get_path].
      rewrite (lookup_app_r h3 [root] (length h3)) by lia.
      rewrite Nat.sub_diag. cbn [lookup list_lookup]. rewrite Hk1.
      rewrite (lookup_app_l h3 [root] l) by lia.
      unfold h3. rewrite list_lookup_insert_eq by (rewrite length_app; cbn; lia).
      now rewrite dict_get_set_eq.
    + unfold SharedData._get_nested_value.
      cbn [SharedData.store SharedData._data]. rewrite Hsplit.
      cbn [SharedData.get_path]. rewrite Hroot, Hk1, Hchild.
      now destruct (PyDict.get child k2).
    + reflexivity.
  - intros key value dflt data' metadata' Hsplit Hatom.
    set (h3 := <[r := PyDict.set root key (SharedData.Atom value)]> (h ++ [root])%list).
    assert (Hset : SharedData._set_nested_value key value s2
                   = (SharedData.mk h3 r md, Ok tt)).
    { rewrite Hs2. unfold SharedData._set_nested_value.
      cbn [SharedData.store SharedData._data SharedData._metadata].
      rewrite alloc_value_atom by exact Hatom. rewrite Hsplit.
      cbn [SharedData.set_path].
      rewrite (lookup_app_l h [root] r) by exact Hr. rewrite Hroot.
      reflexivity. }
    rewrite Hset. cbn [fst SharedData.store SharedData._data SharedData._metadata].
    exists (SharedData.mk (h3 ++ [root])%list (length h3) md).
    assert (Hlen : length h3 = S (length h)).
    { unfold h3. rewrite length_insert, length_app. cbn. lia. }
    split; [reflexivity|]. split; [|split].
    + unfold SharedData._get_nested_value.
      cbn [SharedData.store SharedData._data]. rewrite Hsplit.
      cbn [SharedData.get_path].
      unfold h3. rewrite list_lookup_insert_eq by (rewrite length_app; cbn; lia).
      now rewrite dict_get_set_eq.
    + unfold b. rewrite restore_run by exact Hnd.
      cbn [SharedData.store SharedData._data SharedData._metadata].
      unfold h3 at 2. rewrite list_lookup_insert_ne by lia.
      rewrite Hsnap. reflexivity.
    + unfold SharedData._get_nested_value.
      cbn [SharedData.store SharedData._data]. rewrite Hsplit.
      cbn [SharedData.get_path].
      rewrite (lookup_app_r h3 [root] (length h3)) by lia.
      rewrite Nat.sub_diag. cbn [lookup list_lookup]. now rewrite Hroot.
Qed.

End BackupRestore.

Lemma sample_python_iso_laws : IsoLaws (H := Sample.python).
Proof.
  split.
  - intros d. cbn [isoformat fromisoformat Sample.python].
    unfold Sample.parse_time, Sample.print_time, Py.str_int.
    rewrite NilZero.isi.
    + now rewrite DecimalZ.of_to.
    + destruct d; cbn; try discriminate.
      intros [= Hp]. now apply DecimalPos.Unsigned.to_uint_nonnil in Hp.
    + destruct d; cbn; try discriminate.
      intros [= Hp]. now apply DecimalPos.Unsigned.to_uint_nonnil in Hp.
  - intros d. cbn [isoformat Sample.python]. unfold Sample.print_time, Py.str_int.
    destruct d as [|p|p]; cbn; try discriminate.
    pose proof (DecimalPos.Unsigned.to_uint_nonnil p) as Hp.
    unfold NilZero.string_of_uint. destruct (Pos.to_uint p); try congruence; discriminate.
Qed.

Section BackupRestoreExample.
#[local] Existing Instance Sample.python.

(** [set('server.port', 8000)], a backup, [set('server.port', 9000)] and
    [restore] of the backup on the same object: [get('server.port')] is
    9000, where it was 8000 at the backup. *)
Lemma restore_of_backup_shares_the_nested_mappings_witness :
  let self :=
    SharedData.mk
      [[("server", SharedData.Ref 1)]; [("port", SharedData.Atom (VInt 8000))]] 0
      [("server.port", mkMetadata MEMORY MEDIUM 5 None "1.0.0" false false)] in
  let b := fst (SharedData.backup self) in
  let s2 := snd (SharedData.backup self) in
  let s3 := fst (SharedData._set_nested_value "server.port" (VInt 9000) s2) in
  SharedData.store self
  = SharedData.store
      (fst (SharedData._set_nested_value "server.port" (VInt 8000) SharedData.init))
  /\ exists s4,
       SharedData._set_nested_value "server.port" (VInt 9000) s2
       = (SharedData.mk (SharedData.store s3) 0 (SharedData._metadata self), Ok tt)
       /\ SharedData.restore b (SharedData.mk (SharedData.store s3) 0 (SharedData._metadata self))
          = (s4, Ok tt)
       /\ SharedData._get_nested_value s4 "server.port" VNone = SharedData.Atom (VInt 9000)
       /\ SharedData._get_nested_value self "server.port" VNone
          = SharedData.Atom (VInt 8000)
       /\ SharedData._metadata s4 = SharedData._metadata self.
Proof.
  intros self b s2 s3. split; [reflexivity|].
  assert (Hnd : NoDup (PyDict.keys (SharedData._metadata self))).
  { cbn. apply NoDup_singleton. }
  destruct (restore_of_backup_shares_the_nested_mappings sample_python_iso_laws self
              [("server", SharedData.Ref 1)] eq_refl Hnd) as (_ & Hnested & _).
  exact (Hnested "server.port" "server" "port" 1%nat
           [("port", SharedData.Atom (VInt 8000))] (VInt 9000) VNone
           0%nat (SharedData._metadata self)
           eq_refl eq_refl eq_refl ltac:(discriminate)).
Defined.

End BackupRestoreExample.

(** * Further properties of the code *)

(** ** The in-memory cache *)



(** X2: in a new cache every key with an expiry is a key with a value, and
    [set], [get], [invalidate] and [clear] keep it so. *)
Theorem memory_cache_keeps_every_expiry_on_a_cached_key :
  ttl_covered MemoryCache.init
  /\ forall self, ttl_covered self ->
       forall now key value ttl,
         ttl_covered (fst (MemoryCache.set now self key value ttl))
         /\ ttl_covered (fst (MemoryCache.get now self key))
         /\ ttl_covered (fst (MemoryCache.invalidate self key))
         /\ ttl_covered (fst (MemoryCache.clear self)).
Proof.
  split.
  - intros key. cbn. rewrite lookup_empty. intros [? [=]].
  - intros self Hwf now key value ttl.
    assert (Hset : forall t, (forall k, is_Some (t !! k) -> k = key \/ is_Some (MemoryCache._ttl self !! k)) ->
              ttl_covered (MemoryCache.mk (<[key := value]> (MemoryCache._cache self)) t)).
    { intros t Ht k. cbn. intros Hk. destruct (Ht k Hk) as [->|Hk'].
      - rewrite lookup_insert_eq. eauto.
      - destruct (decide (key = k)) as [->|Hne].
        + rewrite lookup_insert_eq. eauto.
        + rewrite lookup_insert_ne by assumption. auto. }
    assert (Hinv : ttl_covered (fst (MemoryCache.invalidate self key))).
    { intros k. cbn. destruct (decide (key = k)) as [->|Hne].
      - rewrite lookup_delete_eq. intros [? [=]].
      - rewrite !lookup_delete_ne by assumption. auto. }
    split; [|split; [|split]].
    + unfold MemoryCache.set.
      destruct ttl as [s|]; [destruct (Z.eqb s 0)|]; cbn [fst]; apply Hset; intros k.
      * destruct (decide (key = k)) as [->|Hne]; [auto|].
        rewrite lookup_delete_ne by assumption. auto.
      * destruct (decide (key = k)) as [->|Hne]; [auto|].
        rewrite lookup_insert_ne by assumption. auto.
      * destruct (decide (key = k)) as [->|Hne]; [auto|].
        rewrite lookup_delete_ne by assumption. auto.
    + unfold MemoryCache.get.
      destruct (MemoryCache._cache self !! key); [|exact Hwf].
      destruct (MemoryCache._ttl self !! key); [|exact Hwf].
      destruct (Z.ltb _ _); [exact Hinv | exact Hwf].
    + exact Hinv.
    + intros k. cbn. rewrite lookup_empty. intros [? [=]].
Qed.

(** ** The schema validator and the type validator *)

Section ValidatorFacts.
Context `{Python}.

(** X3: a call of [SchemaValidator.validate] keeps the schema, leaves at
    most one message, returns true exactly when it leaves none, and does not
    depend on the messages an earlier call left. *)
Theorem schema_validator_leaves_at_most_one_message
    (self : SchemaValidator.t) (key : string) (value : Value) :
  let '(self', r) := SchemaValidator.validate self key value in
  SchemaValidator.schema self' = SchemaValidator.schema self
  /\ (length (SchemaValidator.get_validation_errors self') <= 1)%nat
  /\ r = Ok (is_nil (SchemaValidator.get_validation_errors self'))
  /\ forall errors,
       SchemaValidator.validate (SchemaValidator.mk (SchemaValidator.schema self) errors)
         key value = (self', r).
Proof.
  assert (Hlen : (length (schema_messages (SchemaValidator.schema self) key value) <= 1)%nat).
  { unfold schema_messages, SchemaValidator.validate, SchemaValidator.pass,
      SchemaValidator.fail.
    cbn [SchemaValidator.schema].
    repeat case_match; cbn; lia. }
  rewrite schema_validate_spec.
  unfold SchemaValidator.get_validation_errors. cbn [SchemaValidator.schema SchemaValidator.errors].
  repeat split; auto.
  intros errors. now rewrite schema_validate_spec.
Qed.

(** X4: under a key whose schema entry does not ask for a [bool], a boolean
    is validated as the integer 0 or 1 is: it passes where an [int] is asked
    for and it is compared with the bounds. *)
Theorem schema_validator_takes_a_boolean_for_an_integer
    (self : SchemaValidator.t) (key : string) (b : bool) :
  (forall entry, PyDict.get (SchemaValidator.schema self) key = Some entry ->
                 SchemaValidator.entry_type entry <> Some SchemaValidator.py_bool) ->
  SchemaValidator.validate self key (VBool b)
  = SchemaValidator.validate self key (VInt (Z.b2z b)).
Proof.
  intros Hty. unfold SchemaValidator.validate.
  destruct (PyDict.get (SchemaValidator.schema self) key) as [entry|]; [|reflexivity].
  specialize (Hty entry eq_refl).
  cbn [is_None]. rewrite !andb_false_r.
  unfold SchemaValidator.check_type, SchemaValidator.check_min, SchemaValidator.check_max,
    SchemaValidator.check_pattern, SchemaValidator.check_choices,
    SchemaValidator.below, SchemaValidator.above, SchemaValidator.number_compare,
    SchemaValidator.in_choices.
  destruct (SchemaValidator.entry_type entry) as [[]|]; try congruence; reflexivity.
Qed.

(** X5: on a value that is not [None] a [TypeValidator] returns what a
    [SchemaValidator] returns whose schema names the same types and nothing
    else, and leaves the same message.  On [None] they differ: the schema
    validator passes it under every key, the type validator rejects it under
    every key of its mapping. *)
Theorem type_validator_agrees_with_a_schema_of_types_except_on_none
    (type_mapping : list (string * SchemaValidator.PyType)) (errors errors' : list string)
    (key : string) (value : Value) :
  let by_type := TypeValidator.validate (TypeValidator.mk type_mapping errors) key in
  let by_schema :=
    SchemaValidator.validate (SchemaValidator.mk (schema_of_types type_mapping) errors') key in
  (value <> VNone ->
     snd (by_type value) = snd (by_schema value)
     /\ TypeValidator.get_validation_errors (fst (by_type value))
        = SchemaValidator.get_validation_errors (fst (by_schema value)))
  /\ snd (by_schema VNone) = Ok true
  /\ (PyDict.mem key type_mapping = true -> snd (by_type VNone) = Ok false).
Proof.
  intros by_type by_schema. subst by_type by_schema.
  assert (Hget : PyDict.get (schema_of_types type_mapping) key
                 = option_map (fun ty => SchemaValidator.mkEntry (Some ty) false None None None [])
                              (PyDict.get type_mapping key)).
  { unfold schema_of_types. induction type_mapping as [|[k ty] l IH]; [reflexivity|].
    cbn [map PyDict.get fst snd]. destruct (String.eqb k key); [reflexivity | exact IH]. }
  unfold TypeValidator.validate, SchemaValidator.validate.
  cbn [TypeValidator.type_mapping SchemaValidator.schema]. rewrite Hget.
  unfold PyDict.mem.
  destruct (PyDict.get type_mapping key) as [ty|]; cbn [option_map].
  - split; [|split].
    + intros Hv. cbn [SchemaValidator.entry_required andb].
      destruct (is_None value) eqn:Hn; [destruct value; cbn in Hn; congruence|].
      unfold SchemaValidator.check_type. cbn [SchemaValidator.entry_type].
      destruct (SchemaValidator.isinstance value ty); cbn [negb].
      * unfold SchemaValidator.check_min, SchemaValidator.check_max,
          SchemaValidator.check_pattern, SchemaValidator.check_choices.
        cbn [SchemaValidator.entry_min SchemaValidator.entry_max
             SchemaValidator.entry_pattern SchemaValidator.entry_choices].
        destruct value; split; reflexivity.
      * split; reflexivity.
    + reflexivity.
    + intros _. now destruct ty.
  - split; [|split]; [intros _; split; reflexivity | reflexivity | discriminate].
Qed.

End ValidatorFacts.

Section ValidatorExamples.
#[local] Existing Instance Sample.python.

Lemma schema_validator_takes_a_boolean_for_an_integer_witness :
  let self := SchemaValidator.mk DatabaseConfig.get_schema [] in
  SchemaValidator.validate self "port" (VBool true)
  = SchemaValidator.validate self "port" (VInt (Z.b2z true)).
Proof.
  intros self.
  apply (schema_validator_takes_a_boolean_for_an_integer self "port" true).
  intros entry [= <-]. discriminate.
Defined.

End ValidatorExamples.

(** ** The container of services *)

Section ContainerFacts.
Context {W Service : Type}.
Implicit Types (self : ConfigContainer.t W Service) (w : W) (name : string).

(** X6: a [ConfigContainer.get] that returned an instance has kept it: the
    next [get] of the name returns the same instance and calls no factory, so
    it leaves the world and the container as they are.  The factories and
    the singletons of the other names are not touched. *)
Theorem container_calls_a_factory_at_most_once name w self w1 self1 instance :
  ConfigContainer.get name (w, self) = ((w1, self1), Ok instance) ->
  ConfigContainer.get name (w1, self1) = ((w1, self1), Ok instance)
  /\ ConfigContainer.has self1 name = true
  /\ ConfigContainer._factories self1 = ConfigContainer._factories self
  /\ forall name', name' <> name ->
       PyDict.get (ConfigContainer._singletons self1) name'
       = PyDict.get (ConfigContainer._singletons self) name'.
Proof.
  unfold ConfigContainer.get, ConfigContainer.has, PyDict.mem.
  destruct (PyDict.get (ConfigContainer._singletons self) name) as [i|] eqn:Hs.
  - intros [= <- <- <-]. rewrite Hs. auto.
  - destruct (PyDict.get (ConfigContainer._factories self) name) as [f|]; [|discriminate].
    destruct (f w) as [w' [i|e]]; [|discriminate].
    intros [= <- <- <-]. cbn [ConfigContainer._singletons ConfigContainer._factories].
    rewrite dict_get_set_eq. repeat split; auto.
    intros name' Hne. apply dict_get_set_ne. congruence.
Qed.

(** X7: [ConfigContainer.get] raises for a name that is neither a singleton
    nor a factory, and changes nothing; it returns the singleton of a name
    that has a factory too, without calling the factory; and when it raises
    for a known name, the error is the one the factory of the name raised,
    and nothing is kept. *)
Theorem container_finds_singletons_first_and_rejects_unknown_names name w self :
  (ConfigContainer.has self name = false ->
     ConfigContainer.get name (w, self)
     = ((w, self), Raise (ConfigException ("Service '" +:+ name +:+ "' not found"))))
  /\ (forall instance factory,
        ConfigContainer.get name
          (w, ConfigContainer.register_factory name factory
                (ConfigContainer.register_singleton name instance self))
        = ((w, ConfigContainer.register_factory name factory
                 (ConfigContainer.register_singleton name instance self)),
           Ok instance))
  /\ (forall e, ConfigContainer.has self name = true ->
        snd (ConfigContainer.get name (w, self)) = Raise e ->
        exists factory,
          PyDict.get (ConfigContainer._factories self) name = Some factory
          /\ snd (factory w) = Raise e
          /\ ConfigContainer.get name (w, self) = ((fst (factory w), self), Raise e)).
Proof.
  unfold ConfigContainer.get, ConfigContainer.has, PyDict.mem. split; [|split].
  - destruct (PyDict.get (ConfigContainer._singletons self) name); [discriminate|].
    destruct (PyDict.get (ConfigContainer._factories self) name); [discriminate|].
    reflexivity.
  - intros instance factory.
    cbn [ConfigContainer.register_factory ConfigContainer.register_singleton
         ConfigContainer._singletons ConfigContainer._factories].
    now rewrite dict_get_set_eq.
  - intros e.
    destruct (PyDict.get (ConfigContainer._singletons self) name); [discriminate|].
    destruct (PyDict.get (ConfigContainer._factories self) name) as [f|]; [|discriminate].
    intros _. destruct (f w) as [w' [i|e']] eqn:Hf; [discriminate|].
    cbn [snd]. intros [= ->]. exists f. rewrite Hf. auto.
Qed.

End ContainerFacts.

(** A factory that counts its calls in the world. *)
Lemma container_calls_a_factory_at_most_once_witness :
  let counter : nat -> nat * Outcome nat := fun n => (S n, Ok n) in
  let self := ConfigContainer.register_factory "ticket" counter ConfigContainer.init in
  let self1 := ConfigContainer.mk [("ticket", 0%nat)] [("ticket", counter)] in
  ConfigContainer.get "ticket" (1%nat, self1) = ((1%nat, self1), Ok 0%nat)
  /\ ConfigContainer.has self1 "ticket" = true
  /\ ConfigContainer._factories self1 = ConfigContainer._factories self
  /\ forall name', name' <> "ticket" ->
       PyDict.get (ConfigContainer._singletons self1) name'
       = PyDict.get (ConfigContainer._singletons self) name'.
Proof.
  intros counter self self1.
  exact (container_calls_a_factory_at_most_once "ticket" 0%nat self 1%nat self1 0%nat eq_refl).
Defined.

(** ** Hot reloading *)

Section AutoReload.
Context `{Python} {V C : Type} `{!IConfigValidator V} `{!IConfigCache C}.
Implicit Types (m : ConfigManager.t V C).

Lemma timedelta_seconds_range d : 0 <= ConfigManager.timedelta_seconds d < 86400.
Proof. unfold ConfigManager.timedelta_seconds. apply Z.mod_pos_bound. lia. Qed.

Lemma check_and_reload_cases m now :
  (ConfigManager._auto_reload m = false -> ConfigManager.check_and_reload now m = (m, Ok tt))
  /\ (ConfigManager._auto_reload m = true ->
      0 <= now - ConfigManager._last_reload m < 86400000000 ->
      ConfigManager._reload_interval m * 1000000 <= now - ConfigManager._last_reload m ->
      ConfigManager.check_and_reload now m = ConfigManager.reload_all now m)
  /\ (forall days rest,
        now = ConfigManager._last_reload m + days * 86400000000 + rest ->
        0 <= rest < ConfigManager._reload_interval m * 1000000 ->
        ConfigManager.check_and_reload now m = (m, Ok tt))
  /\ (86400 <= ConfigManager._reload_interval m ->
      ConfigManager.check_and_reload now m = (m, Ok tt)).
Proof.
  unfold ConfigManager.check_and_reload. split; [|split; [|split]].
  - now intros ->.
  - intros -> Hday Hint. cbn [negb].
    assert (Hsec : ConfigManager.timedelta_seconds (now - ConfigManager._last_reload m)
                   = (now - ConfigManager._last_reload m) / 1000000).
    { unfold ConfigManager.timedelta_seconds. apply Z.mod_small.
      split; [apply Z.div_pos; lia | apply Z.div_lt_upper_bound; lia]. }
    rewrite Hsec.
    assert (Hge : ConfigManager._reload_interval m
                  <= (now - ConfigManager._last_reload m) / 1000000)
      by (apply Z.div_le_lower_bound; lia).
    destruct (Z.geb_spec ((now - ConfigManager._last_reload m) / 1000000)
                (ConfigManager._reload_interval m)); [|lia].
    unfold try_except, ConfigManager.reload_all.
    now destruct (ConfigManager.each_config _ _ m).
  - intros days rest -> Hrest.
    destruct (ConfigManager._auto_reload m); [|reflexivity]. cbn [negb].
    assert (Hsec : ConfigManager.timedelta_seconds
                     (ConfigManager._last_reload m + days * 86400000000 + rest
                      - ConfigManager._last_reload m)
                   < ConfigManager._reload_interval m).
    { unfold ConfigManager.timedelta_seconds.
      replace (ConfigManager._last_reload m + days * 86400000000 + rest
               - ConfigManager._last_reload m)
        with (rest + (days * 86400) * 1000000) by lia.
      rewrite Z.div_add by lia. rewrite Z.mod_add by lia.
      assert (0 <= rest / 1000000) by (apply Z.div_pos; lia).
      assert (rest / 1000000 < ConfigManager._reload_interval m)
        by (apply Z.div_lt_upper_bound; lia).
      pose proof (Z.mod_le (rest / 1000000) 86400). lia. }
    match goal with |- context [Z.geb ?x ?y] => destruct (Z.geb_spec x y) end;
      [lia | reflexivity].
  - intros Hint. destruct (ConfigManager._auto_reload m); [|reflexivity]. cbn [negb].
    pose proof (timedelta_seconds_range (now - ConfigManager._last_reload m)).
    destruct (Z.geb_spec (ConfigManager.timedelta_seconds (now - ConfigManager._last_reload m))
                (ConfigManager._reload_interval m)); [lia | reflexivity].
Qed.

(** X8: [check_and_reload] does nothing when auto reload is off, as after
    [disable_auto_reload].  When it is on, it compares the interval with
    [timedelta.seconds], the seconds of the elapsed time that are left once
    the whole days are taken out: within the first day it reloads as soon as
    the interval has passed; whole days that have passed do not count, so it
    does nothing while the rest of the elapsed time is under the interval,
    and it never reloads with an interval of a day or more, as after
    [enable_auto_reload] with such an interval. *)
Theorem check_and_reload_compares_the_seconds_within_the_day m now :
  (ConfigManager._auto_reload m = false -> ConfigManager.check_and_reload now m = (m, Ok tt))
  /\ (ConfigManager._auto_reload m = true ->
      0 <= now - ConfigManager._last_reload m < 86400000000 ->
      ConfigManager._reload_interval m * 1000000 <= now - ConfigManager._last_reload m ->
      ConfigManager.check_and_reload now m = ConfigManager.reload_all now m)
  /\ (forall days rest,
        now = ConfigManager._last_reload m + days * 86400000000 + rest ->
        0 <= rest < ConfigManager._reload_interval m * 1000000 ->
        ConfigManager.check_and_reload now m = (m, Ok tt))
  /\ (86400 <= ConfigManager._reload_interval m ->
      ConfigManager.check_and_reload now m = (m, Ok tt))
  /\ ConfigManager.check_and_reload now (ConfigManager.disable_auto_reload m)
     = (ConfigManager.disable_auto_reload m, Ok tt)
  /\ (forall interval, 86400 <= interval ->
        ConfigManager.check_and_reload now (ConfigManager.enable_auto_reload interval m)
        = (ConfigManager.enable_auto_reload interval m, Ok tt)).
Proof.
  destruct (check_and_reload_cases m now) as (H1 & H2 & H3 & H4).
  split; [exact H1|]. split; [exact H2|]. split; [exact H3|]. split; [exact H4|]. split.
  - destruct (check_and_reload_cases (ConfigManager.disable_auto_reload m) now) as (Hd & _).
    now apply Hd.
  - intros interval Hint.
    destruct (check_and_reload_cases (ConfigManager.enable_auto_reload interval m) now)
      as (_ & _ & _ & He).
    now apply He.
Qed.

End AutoReload.

(** ** Observers *)

Section Observers.
Context `{Python} {V C : Type} `{!IConfigValidator V} `{!IConfigCache C}.
Implicit Types (c : BaseConfig.t V C) (o : nat).

Lemma list_remove_app_absent o l : ~ In o l -> Py.list_remove o (l ++ [o]) = l.
Proof.
  induction l as [|x l IH]; cbn.
  - now rewrite Nat.eqb_refl.
  - intros Hn. destruct (Nat.eqb_spec x o) as [->|Hne]; [tauto|]. rewrite IH; tauto.
Qed.

Lemma list_remove_count o l o' :
  In o l ->
  count_occ Nat.eq_dec (Py.list_remove o l) o'
  = (count_occ Nat.eq_dec l o' - (if Nat.eqb o o' then 1 else 0))%nat.
Proof.
  induction l as [|x l IH]; [intros []|].
  intros Hin. cbn [Py.list_remove]. destruct (Nat.eqb_spec x o) as [->|Hne].
  - cbn [count_occ]. destruct (Nat.eq_dec o o') as [->|Hd].
    + rewrite Nat.eqb_refl. lia.
    + destruct (Nat.eqb_spec o o'); [contradiction | lia].
  - destruct Hin as [Heq|Hin]; [congruence|]. cbn [count_occ]. rewrite IH by assumption.
    destruct (Nat.eq_dec x o') as [->|Hd]; [|reflexivity].
    destruct (Nat.eqb_spec o o'); [congruence | lia].
Qed.

(** X9: [remove_observer] takes back one [add_observer]: every observer is
    registered as many times as before the two calls, and the list is the
    same when the observer was not registered before.  [add_observer] does
    not look for duplicates: it adds one registration each time. *)
Theorem remove_observer_takes_back_one_registration c o :
  (~ In o (BaseConfig._observers c) ->
     BaseConfig.remove_observer o c = c
     /\ BaseConfig.remove_observer o (BaseConfig.add_observer o c) = c)
  /\ (forall o',
        count_occ Nat.eq_dec
          (BaseConfig._observers (BaseConfig.remove_observer o (BaseConfig.add_observer o c))) o'
        = count_occ Nat.eq_dec (BaseConfig._observers c) o')
  /\ (forall o',
        count_occ Nat.eq_dec (BaseConfig._observers (BaseConfig.add_observer o c)) o'
        = (count_occ Nat.eq_dec (BaseConfig._observers c) o'
           + (if Nat.eqb o o' then 1 else 0))%nat).
Proof.
  assert (Hadd : forall o', count_occ Nat.eq_dec (BaseConfig._observers (BaseConfig.add_observer o c)) o'
        = (count_occ Nat.eq_dec (BaseConfig._observers c) o'
           + (if Nat.eqb o o' then 1 else 0))%nat).
  { intros o'. cbn [BaseConfig.add_observer BaseConfig._observers].
    rewrite count_occ_app. cbn [count_occ].
    destruct (Nat.eq_dec o o') as [->|Hd].
    - now rewrite Nat.eqb_refl.
    - destruct (Nat.eqb_spec o o'); [contradiction | reflexivity]. }
  assert (Hmem : existsb (Nat.eqb o) (BaseConfig._observers (BaseConfig.add_observer o c)) = true).
  { cbn [BaseConfig.add_observer BaseConfig._observers]. rewrite existsb_app. cbn.
    rewrite Nat.eqb_refl. now rewrite orb_true_r. }
  split; [|split].
  - intros Hn. split.
    + unfold BaseConfig.remove_observer.
      destruct (existsb (Nat.eqb o) (BaseConfig._observers c)) eqn:He; [|reflexivity].
      apply existsb_exists in He as (x & Hx & Hox). apply Nat.eqb_eq in Hox. subst x.
      contradiction.
    + unfold BaseConfig.remove_observer. rewrite Hmem.
      cbn [BaseConfig.add_observer BaseConfig._observers BaseConfig.config_name
           BaseConfig.default_values BaseConfig.required_keys BaseConfig._data
           BaseConfig._metadata BaseConfig._validator BaseConfig._loader
           BaseConfig._encryption BaseConfig._cache BaseConfig._loaded
           BaseConfig._validated BaseConfig._readonly BaseConfig._validation_errors
           BaseConfig.notifications].
      rewrite list_remove_app_absent by assumption. now destruct c.
  - intros o'. unfold BaseConfig.remove_observer at 1. rewrite Hmem.
    cbn [BaseConfig._observers]. rewrite list_remove_count.
    + rewrite Hadd. lia.
    + cbn [BaseConfig.add_observer BaseConfig._observers]. apply in_or_app. right. now left.
  - exact Hadd.
Qed.

End Observers.

(** ** What a method leaves untouched *)

#[global] Instance same_on_preorder {S X : Type} (f : S -> X) : PreOrder (same_on f).
Proof.
  split.
  - intros s. reflexivity.
  - intros s1 s2 s3 H12 H23. unfold same_on in *. congruence.
Qed.

Section Respects.
Context {S : Type} (R : S -> S -> Prop) `{!PreOrder R}.

Lemma respects_ret {A : Type} (a : A) : respects R (ret a).
Proof. intros s s' r [= <- _]. reflexivity. Qed.

Lemma respects_raise {A : Type} (e : Exc) : respects R (raise (A := A) e).
Proof. intros s s' r [= <- _]. reflexivity. Qed.

Lemma respects_gets {A : Type} (f : S -> A) : respects R (gets f).
Proof. intros s s' r [= <- _]. reflexivity. Qed.

Lemma respects_modify (f : S -> S) : (forall s, R s (f s)) -> respects R (modify f).
Proof. intros Hf s s' r [= <- _]. apply Hf. Qed.

Lemma respects_bind {A B : Type} (m : M S A) (k : A -> M S B) :
  respects R m -> (forall a, respects R (k a)) -> respects R (bind m k).
Proof.
  intros Hm Hk s s' r. unfold bind. destruct (m s) as [s1 [a|e]] eqn:E.
  - intros Hka. transitivity s1; [exact (Hm _ _ _ E) | exact (Hk _ _ _ _ Hka)].
  - intros [= <- _]. exact (Hm _ _ _ E).
Qed.

Lemma respects_try_except {A : Type} (m : M S A) (h : Exc -> M S A) :
  respects R m -> (forall e, respects R (h e)) -> respects R (try_except m h).
Proof.
  intros Hm Hh s s' r. unfold try_except. destruct (m s) as [s1 [a|e]] eqn:E.
  - intros [= <- _]. exact (Hm _ _ _ E).
  - intros Hhe. transitivity s1; [exact (Hm _ _ _ E) | exact (Hh _ _ _ _ Hhe)].
Qed.

Lemma respects_for_each {A : Type} (l : list A) (body : A -> M S unit) :
  (forall x, respects R (body x)) -> respects R (for_each l body).
Proof.
  intros Hb. induction l as [|x l IH]; cbn [for_each].
  - apply respects_ret.
  - apply respects_bind; auto.
Qed.

Lemma respects_state {A : Type} (m : M S A) :
  (forall s, R s (fst (m s))) -> respects R m.
Proof. intros Hm s s' r E. specialize (Hm s). now rewrite E in Hm. Qed.

End Respects.

(** One step through the structure of a method. *)
Ltac respects_step :=
  cbv beta;
  lazymatch goal with
  | |- respects _ (bind _ _) => apply respects_bind; [assumption| |intros ?]
  | |- respects _ (try_except _ _) => apply respects_try_except; [assumption| |intros ?]
  | |- respects _ (for_each _ _) => apply respects_for_each; [assumption|intros ?]
  | |- respects _ (ret _) => apply respects_ret; assumption
  | |- respects _ (raise _) => apply respects_raise; assumption
  | |- respects _ (gets _) => apply respects_gets; assumption
  | |- respects _ (modify _) => apply respects_modify; intros ?
  | |- respects _ (if ?b then _ else _) => destruct b
  | |- respects _ (match ?x with _ => _ end) => destruct x
  end.

Section ConfigRespects.
Context `{Python} {V C : Type} `{!IConfigValidator V} `{!IConfigCache C}.
Context (R : BaseConfig.t V C -> BaseConfig.t V C -> Prop) `{!PreOrder R}.
Implicit Types (c : BaseConfig.t V C) (key : string) (now : datetime).

Hypothesis R_cache : forall x c, R c (BaseConfig.with_cache x c).

Lemma respects_on_cache {A : Type} (op : C -> C * Outcome A) (absent : A) :
  respects R (BaseConfig.on_cache op absent).
Proof.
  apply respects_state. intros c.
  destruct (on_cache_state op absent c) as [x ->]. apply R_cache.
Qed.

Lemma respects_decrypt_if_needed key value :
  respects R (BaseConfig.decrypt_if_needed key value).
Proof. apply respects_state. intros c. rewrite decrypt_if_needed_state. reflexivity. Qed.

Lemma respects_encrypt_if_needed key value :
  respects R (BaseConfig.encrypt_if_needed key value).
Proof. apply respects_state. intros c. rewrite encrypt_if_needed_state. reflexivity. Qed.

Lemma respects_get now key default : respects R (BaseConfig.get now key default).
Proof.
  unfold BaseConfig.get, BaseConfig.get_try.
  repeat respects_step;
    auto using respects_on_cache, respects_decrypt_if_needed.
Qed.

Hypothesis R_validator : forall x c, R c (BaseConfig.with_validator x c).

Lemma respects_on_validator key value : respects R (BaseConfig.on_validator key value).
Proof.
  apply respects_state. intros c. unfold BaseConfig.on_validator.
  destruct (BaseConfig._validator c) as [v|] eqn:Ev.
  - destruct (validator_validate v key value) as [v' r]. apply R_validator.
  - reflexivity.
Qed.

Hypothesis R_validation_errors : forall l c, R c (BaseConfig.with_validation_errors l c).
Hypothesis R_validated : forall b c, R c (BaseConfig.with_validated b c).

Lemma respects_validate : respects R BaseConfig.validate.
Proof.
  unfold BaseConfig.validate, BaseConfig.add_validation_errors.
  repeat respects_step; auto using respects_on_validator.
Qed.

Hypothesis R_notifications : forall l c, R c (BaseConfig.with_notifications l c).

Section RespectsSet.
Variable key : string.
Hypothesis R_set_nested_value :
  forall value, respects R (BaseConfig._set_nested_value key value).
Hypothesis R_metadata_key :
  forall m c, R c (BaseConfig.with_metadata (<[key := m]> (BaseConfig._metadata c)) c).

Lemma respects_set now value metadata : respects R (BaseConfig.set now key value metadata).
Proof.
  unfold BaseConfig.set, BaseConfig._notify_observers.
  repeat respects_step;
    auto using respects_on_cache, respects_on_validator, respects_get,
      respects_encrypt_if_needed.
Qed.

End RespectsSet.

End ConfigRespects.

#[global] Instance same_except_preorder {S K X : Type} (g : S -> K -> X) (k0 : K) :
  PreOrder (same_except g k0).
Proof.
  split.
  - intros s k _. reflexivity.
  - intros s1 s2 s3 H12 H23 k Hk. rewrite (H23 k Hk). exact (H12 k Hk).
Qed.

(** A write along a path leaves the other keys of the mapping it starts from. *)
Lemma set_path_other_keys d k0 keys value d' r k :
  BaseConfig.set_path (VDict d) (k0 :: keys) value = (VDict d', r) ->
  k <> k0 -> PyDict.get d' k = PyDict.get d k.
Proof.
  destruct keys as [|k2 keys].
  - cbn. intros [= <- _] Hne. apply dict_get_set_ne. congruence.
  - rewrite set_path_step. cbv zeta.
    set (d1 := if PyDict.mem k0 d then d else PyDict.set d k0 (VDict [])).
    assert (Hd1 : forall k, k <> k0 -> PyDict.get d1 k = PyDict.get d k).
    { intros k' Hne. subst d1. destruct (PyDict.mem k0 d); [reflexivity|].
      apply dict_get_set_ne. congruence. }
    destruct (PyDict.get d1 k0) as [child|].
    + destruct (BaseConfig.set_path child (k2 :: keys) value) as [child' r'].
      intros [= <- _] Hne. rewrite dict_get_set_ne by congruence. now apply Hd1.
    + intros [= <- _] Hne. now apply Hd1.
Qed.

(** A write along a path never removes a key of the mapping it starts from. *)
Lemma set_path_keeps_keys d keys value d' r k :
  BaseConfig.set_path (VDict d) keys value = (VDict d', r) ->
  PyDict.mem k d = true -> PyDict.mem k d' = true.
Proof.
  destruct keys as [|k0 keys]; [cbn; now intros [= <- _]|].
  intros Hs Hm. destruct (String.eqb_spec k k0) as [->|Hne].
  - destruct keys as [|k2 keys].
    + cbn in Hs. injection Hs as <- _. rewrite dict_mem_set, String.eqb_refl. reflexivity.
    + rewrite set_path_step in Hs. cbv zeta in Hs. rewrite Hm in Hs.
      destruct (PyDict.get d k0) as [child|]; [|now injection Hs as <- _].
      destruct (BaseConfig.set_path child (k2 :: keys) value) as [child' r'].
      injection Hs as <- _. rewrite dict_mem_set, String.eqb_refl. reflexivity.
  - unfold PyDict.mem in *. now rewrite (set_path_other_keys _ _ _ _ _ _ _ Hs Hne).
Qed.

Section SetRun.
Context `{Python} {V C : Type} `{!IConfigValidator V} `{!IConfigCache C}.
Implicit Types (c : BaseConfig.t V C) (key : string) (now : datetime).

Lemma with_data_id c : BaseConfig.with_data (BaseConfig._data c) c = c.
Proof. now destruct c. Qed.

Lemma on_validator_state key value c :
  exists vs, fst (BaseConfig.on_validator key value c) = BaseConfig.with_validator vs c.
Proof.
  unfold BaseConfig.on_validator. destruct (BaseConfig._validator c) as [v|] eqn:Ev.
  - destruct (validator_validate v key value) as [v' r]. cbn. eauto.
  - exists None. cbn. now rewrite <- Ev, with_validator_id.
Qed.

(** Every way through [set] on an object that is not readonly. *)
Lemma set_run c now key value metadata :
  BaseConfig._readonly c = false ->
  exists vs, fst (BaseConfig.on_validator key value c) = BaseConfig.with_validator vs c /\
  let c_v := BaseConfig.with_validator vs c in
  match snd (BaseConfig.on_validator key value c) with
  | Raise e => BaseConfig.set now key value metadata c = (c_v, Raise e)
  | Ok false =>
      BaseConfig.set now key value metadata c
      = (c_v, Raise (ConfigValidationError key (BaseConfig.validator_errors c_v)))
  | Ok true =>
      exists x1 old,
        BaseConfig.get now key VNone c_v = (BaseConfig.with_cache x1 c_v, Ok old)
        /\ (BaseConfig._cache c = None -> x1 = None)
        /\ let c_g := BaseConfig.with_cache x1 c_v in
           match stored c key value with
           | Raise e => BaseConfig.set now key value metadata c = (c_g, Raise e)
           | Ok w =>
               exists d' r,
                 BaseConfig.set_path (VDict (BaseConfig._data c)) (Py.split "." key) w
                 = (VDict d', r)
                 /\ match r with
                    | Raise e =>
                        d' = BaseConfig._data c
                        /\ BaseConfig.set now key value metadata c = (c_g, Raise e)
                    | Ok _ =>
                        let c_m :=
                          BaseConfig.with_metadata
                            (<[key := metadata_written metadata now]> (BaseConfig._metadata c))
                            (BaseConfig.with_data d' c_g) in
                        let c_i :=
                          fst (BaseConfig.on_cache (fun ch => cache_invalidate ch key) tt c_m) in
                        match snd (BaseConfig.on_cache (fun ch => cache_invalidate ch key) tt c_m) with
                        | Raise e => BaseConfig.set now key value metadata c = (c_i, Raise e)
                        | Ok _ =>
                            BaseConfig.set now key value metadata c
                            = (BaseConfig.with_notifications
                                 (BaseConfig.notifications c
                                  ++ map (fun o => mkNotification o key old w)
                                       (BaseConfig._observers c)) c_i,
                               Ok tt)
                        end
                    end
           end
  end.
Proof.
  intros Hro.
  destruct (on_validator_state key value c) as [vs Hvs]. exists vs. split; [exact Hvs|].
  cbv zeta.
  destruct (BaseConfig.on_validator key value c) as [c_v' rv] eqn:Hv.
  cbn [fst snd] in *. subst c_v'.
  set (c_v := BaseConfig.with_validator vs c) in *.
  assert (Hstart : BaseConfig.set now key value metadata c
    = bind (if match rv with Ok b => b | Raise _ => true end then ret tt
            else bind (gets BaseConfig.validator_errors)
                   (fun errors => raise (ConfigValidationError key errors)))
        (fun _ =>
           bind (BaseConfig.get now key VNone) (fun old =>
           bind (BaseConfig.encrypt_if_needed key value) (fun value =>
           bind (BaseConfig._set_nested_value key value) (fun _ =>
           bind (modify (fun c => BaseConfig.with_metadata
                   (<[key := metadata_written metadata now]> (BaseConfig._metadata c)) c))
             (fun _ =>
           bind (BaseConfig.on_cache (fun ch => cache_invalidate ch key) tt) (fun _ =>
           BaseConfig._notify_observers key old value)))))) c_v
      \/ exists e, rv = Raise e).
  { destruct rv as [b|e]; [left|right; eauto].
    unfold BaseConfig.set. unfold bind at 1, gets at 1. rewrite Hro.
    unfold bind at 1. rewrite Hv. reflexivity. }
  destruct rv as [[|]|e].
  2: { destruct Hstart as [->|[e [=]]]. reflexivity. }
  2: { unfold BaseConfig.set. unfold bind at 1, gets at 1. rewrite Hro.
       unfold bind at 1. rewrite Hv. reflexivity. }
  destruct Hstart as [Hstart|[e [=]]].
  assert (Hrew : forall res, bind (ret tt) (fun _ : unit =>
           bind (BaseConfig.get now key VNone) (fun old =>
           bind (BaseConfig.encrypt_if_needed key value) (fun value =>
           bind (BaseConfig._set_nested_value key value) (fun _ =>
           bind (modify (fun c => BaseConfig.with_metadata
                   (<[key := metadata_written metadata now]> (BaseConfig._metadata c)) c))
             (fun _ =>
           bind (BaseConfig.on_cache (fun ch => cache_invalidate ch key) tt) (fun _ =>
           BaseConfig._notify_observers key old value)))))) c_v = res ->
      BaseConfig.set now key value metadata c = res).
  { intros res <-. exact Hstart. }
  clear Hstart.
  destruct (get_returns c_v now key VNone) as (x1 & old & Hg & Hx1).
  exists x1, old. split; [exact Hg|]. split; [exact Hx1|].
  set (c_g := BaseConfig.with_cache x1 c_v) in *.
  pose proof (encrypt_if_needed_state key value c_g) as He.
  assert (Hst : snd (BaseConfig.encrypt_if_needed key value c_g) = stored c key value)
    by (apply encrypt_if_needed_result; reflexivity).
  destruct (BaseConfig.encrypt_if_needed key value c_g) as [c' [w|e]] eqn:Henc;
    cbn [fst snd] in He, Hst; subst c'; rewrite <- Hst.
  2: { apply Hrew. unfold bind at 1, ret at 1. unfold bind at 1. rewrite Hg.
       unfold bind at 1. fold c_g. rewrite Henc. reflexivity. }
  destruct (set_path_dict (BaseConfig._data c) (Py.split "." key) w) as [d' Hd].
  destruct (BaseConfig.set_path (VDict (BaseConfig._data c)) (Py.split "." key) w)
    as [tree r] eqn:Hsp.
  cbn [fst] in Hd. subst tree. exists d', r. split; [reflexivity|].
  assert (Hnest : BaseConfig._set_nested_value key w c_g = (BaseConfig.with_data d' c_g, r)).
  { unfold BaseConfig._set_nested_value.
    change (BaseConfig._data c_g) with (BaseConfig._data c). now rewrite Hsp. }
  destruct r as [[]|e].
  - set (c_m := BaseConfig.with_metadata _ _).
    destruct (on_cache_state (fun ch => cache_invalidate ch key) tt c_m) as [x2 Hx2].
    destruct (BaseConfig.on_cache (fun ch => cache_invalidate ch key) tt c_m)
      as [c_i [[]|e]] eqn:Hinv; cbn [fst snd] in *; subst c_i; apply Hrew;
      unfold bind at 1, ret at 1; unfold bind at 1; rewrite Hg;
      unfold bind at 1; fold c_g; rewrite Henc;
      unfold bind at 1; rewrite Hnest;
      unfold bind at 1, modify at 1;
      change (BaseConfig.with_metadata _ (BaseConfig.with_data d' c_g)) with c_m;
      unfold bind at 1; rewrite Hinv; reflexivity.
  - apply set_path_raise_unchanged in Hsp. injection Hsp as ->.
    split; [reflexivity|].
    change (BaseConfig._data c) with (BaseConfig._data c_g) in Hnest.
    rewrite with_data_id in Hnest.
    apply Hrew. unfold bind at 1, ret at 1. unfold bind at 1. rewrite Hg.
    unfold bind at 1. fold c_g. rewrite Henc.
    unfold bind at 1. rewrite Hnest. reflexivity.
Qed.

End SetRun.

#[global] Instance keeps_keys_preorder {V C : Type} : PreOrder (@keeps_keys V C).
Proof. split; [intros c k Hk; exact Hk | intros c1 c2 c3 H12 H23 k Hk; auto]. Qed.


Lemma dict_del_set {A : Type} (d : list (string * A)) k v :
  PyDict.del (PyDict.set d k v) k = PyDict.del d k.
Proof.
  induction d as [|[k' v'] d IH]; cbn.
  - now rewrite String.eqb_refl.
  - destruct (String.eqb k' k) eqn:E; cbn; rewrite E; [reflexivity | now rewrite IH].
Qed.

Lemma dict_get_del_ne {A : Type} (d : list (string * A)) k k' :
  k <> k' -> PyDict.get (PyDict.del d k) k' = PyDict.get d k'.
Proof.
  intros Hne. induction d as [|[k0 v0] d IH]; cbn; [reflexivity|].
  destruct (String.eqb_spec k0 k) as [->|Hk]; cbn.
  - destruct (String.eqb_spec k k'); [congruence | exact IH].
  - now rewrite IH.
Qed.

Section SetFacts.
Context `{Python} {V C : Type} `{!IConfigValidator V} `{!IConfigCache C}.
Implicit Types (c : BaseConfig.t V C) (key : string) (now : datetime).

Lemma respects_set_nested_value (R : BaseConfig.t V C -> BaseConfig.t V C -> Prop)
    `{!PreOrder R} key value :
  (forall c d' r,
     BaseConfig.set_path (VDict (BaseConfig._data c)) (Py.split "." key) value = (VDict d', r) ->
     R c (BaseConfig.with_data d' c)) ->
  respects R (BaseConfig._set_nested_value key value).
Proof.
  intros HR. apply respects_state. intros c. unfold BaseConfig._set_nested_value.
  destruct (BaseConfig.set_path (VDict (BaseConfig._data c)) (Py.split "." key) value)
    as [tree r] eqn:Hsp.
  destruct tree; cbn [fst]; try reflexivity. exact (HR _ _ _ Hsp).
Qed.


End SetFacts.

Section SetOutcomes.
Context `{Python} {V C : Type} `{!IConfigValidator V} `{!IConfigCache C}.
Implicit Types (c : BaseConfig.t V C) (key : string) (now : datetime).

Lemma on_cache_invalidate_returns c key :
  BaseConfig._cache c = None \/ CacheLaws C ->
  snd (BaseConfig.on_cache (fun ch => cache_invalidate ch key) tt c) = Ok tt.
Proof.
  intros Hcache. destruct (BaseConfig._cache c) as [ch|] eqn:Hc.
  - destruct Hcache as [?|Hlaws]; [discriminate|].
    rewrite (on_cache_present _ _ _ ch Hc). cbn [snd].
    pose proof (cache_invalidate_returns ch key) as Hr.
    destruct (cache_invalidate ch key) as [ch' [[]|e]]; [reflexivity | discriminate].
  - now rewrite on_cache_absent.
Qed.

(** X11: a [set] that raises has written nothing, as long as the cache, if
    there is one, works: [_data], [_metadata] and the calls to the observers
    are as before.  When the validator rejects the value, what is raised is
    the [ConfigValidationError] that carries the messages of the validator. *)
Theorem set_that_raises_writes_nothing c now key value metadata c1 e :
  BaseConfig._cache c = None \/ CacheLaws C ->
  BaseConfig.set now key value metadata c = (c1, Raise e) ->
  BaseConfig._data c1 = BaseConfig._data c
  /\ BaseConfig._metadata c1 = BaseConfig._metadata c
  /\ BaseConfig.notifications c1 = BaseConfig.notifications c
  /\ (BaseConfig._readonly c = false ->
      snd (BaseConfig.on_validator key value c) = Ok false ->
      e = ConfigValidationError key
            (BaseConfig.validator_errors (fst (BaseConfig.on_validator key value c)))).
Proof.
  intros Hcache Hset.
  destruct (BaseConfig._readonly c) eqn:Hro.
  { unfold BaseConfig.set, bind, gets, raise in Hset. rewrite Hro in Hset.
    injection Hset as <- _. repeat split; auto. discriminate. }
  destruct (set_run c now key value metadata Hro) as (vs & Hvs & Hrun).
  cbv zeta in Hrun. rewrite Hvs.
  destruct (snd (BaseConfig.on_validator key value c)) as [[|]|ev].
  - destruct Hrun as (x1 & old & Hg & Hx1 & Hrun).
    destruct (stored c key value) as [w|es].
    + destruct Hrun as (d' & r & Hsp & Hrun).
      destruct r as [[]|ep].
      * set (c_m := BaseConfig.with_metadata _ _) in Hrun.
        assert (Hinv : snd (BaseConfig.on_cache (fun ch => cache_invalidate ch key) tt c_m)
                       = Ok tt).
        { apply on_cache_invalidate_returns. destruct Hcache as [Hn|Hl]; [left|now right].
          subst c_m. cbn. auto. }
        rewrite Hinv in Hrun. rewrite Hrun in Hset. discriminate.
      * destruct Hrun as [-> Hrun]. rewrite Hrun in Hset. injection Hset as <- _.
        repeat split; auto. discriminate.
    + rewrite Hrun in Hset. injection Hset as <- _. repeat split; auto. discriminate.
  - rewrite Hrun in Hset. injection Hset as <- <-. repeat split; auto.
  - rewrite Hrun in Hset. injection Hset as <- _. repeat split; auto. discriminate.
Qed.


(** X13: [remove_key] after a [set] of a key without a dot that returned:
    [remove_key] returns, the key and its metadata record are gone, a [get]
    of the key returns the default, the observers are told the stored value
    and [None], and [_data] is what it was before the [set] when the key was
    new. *)
Theorem remove_key_takes_back_a_set c now key value metadata c1 :
  BaseConfig._cache c = None \/ CacheLaws C ->
  top_level key ->
  BaseConfig.set now key value metadata c = (c1, Ok tt) ->
  exists c2 w,
    stored c key value = Ok w
    /\ BaseConfig.remove_key key c1 = (c2, Ok tt)
    /\ BaseConfig._data c2 = PyDict.del (BaseConfig._data c) key
    /\ (BaseConfig.has_key c key = false -> BaseConfig._data c2 = BaseConfig._data c)
    /\ BaseConfig.has_key c2 key = false
    /\ BaseConfig.get_metadata c2 key = None
    /\ BaseConfig.notifications c2
       = BaseConfig.notifications c1
         ++ map (fun o => mkNotification o key w VNone) (BaseConfig._observers c)
    /\ forall now' default, snd (BaseConfig.get now' key default c2) = Ok default.
Proof.
  intros Hcache Htop Hset.
  apply set_returns_inv in Hset
    as (Hro & vs & x1 & x2 & old & w & d' & Hst & Hsp & Hx & Hnone & ->).
  unfold top_level in Htop. rewrite Htop in Hsp. cbn in Hsp. injection Hsp as <-.
  set (c1 := BaseConfig.with_notifications _ _).
  set (c_d := BaseConfig.with_metadata (delete key (BaseConfig._metadata c1))
                (BaseConfig.with_data (PyDict.del (BaseConfig._data c1) key) c1)).
  assert (Hinv : snd (BaseConfig.on_cache (fun ch => cache_invalidate ch key) tt c_d) = Ok tt).
  { apply on_cache_invalidate_returns. destruct Hcache as [Hn|Hl]; [left|now right].
    cbn. auto. }
  destruct (on_cache_state (fun ch => cache_invalidate ch key) tt c_d) as [x3 Hx3].
  assert (Hx3' : x3 = None \/ exists ch, x2 = Some ch /\ x3 = Some (fst (cache_invalidate ch key))).
  { destruct x2 as [ch|] eqn:E2.
    - right. exists ch. split; [reflexivity|].
      rewrite (on_cache_present _ _ _ ch) in Hx3 by reflexivity. cbn [fst] in Hx3.
      apply (f_equal BaseConfig._cache) in Hx3. cbn in Hx3. congruence.
    - left. rewrite on_cache_absent in Hx3 by reflexivity. cbn [fst] in Hx3.
      apply (f_equal BaseConfig._cache) in Hx3. cbn in Hx3. congruence. }
  destruct (BaseConfig.on_cache (fun ch => cache_invalidate ch key) tt c_d) as [c_i ri] eqn:Hi.
  cbn [fst snd] in *. subst ri c_i.
  set (c2 := BaseConfig.with_notifications
               (BaseConfig.notifications c1
                ++ map (fun o => mkNotification o key w VNone) (BaseConfig._observers c))
               (BaseConfig.with_cache x3 c_d)).
  exists c2, w. split; [exact Hst|].
  assert (Hrun : BaseConfig.remove_key key c1 = (c2, Ok tt)).
  { unfold BaseConfig.remove_key. unfold bind at 1, gets at 1.
    change (BaseConfig._readonly c1) with (BaseConfig._readonly c). rewrite Hro.
    unfold bind at 1, gets at 1.
    change (BaseConfig._data c1) with (PyDict.set (BaseConfig._data c) key w).
    rewrite dict_get_set_eq.
    unfold bind at 1, modify at 1. unfold bind at 1, modify at 1.
    unfold bind at 1.
    change (BaseConfig.with_metadata _ (BaseConfig.with_data _ c1)) with c_d.
    rewrite Hi. reflexivity. }
  split; [exact Hrun|].
  assert (Hdata : BaseConfig._data c2 = PyDict.del (BaseConfig._data c) key).
  { cbn. apply dict_del_set. }
  split; [exact Hdata|]. split.
  { unfold BaseConfig.has_key. intros Hk. rewrite Hdata.
    apply dict_del_absent. now apply dict_mem_false_get. }
  split.
  { unfold BaseConfig.has_key. rewrite Hdata. apply dict_mem_false_get, dict_get_del_eq. }
  split.
  { unfold BaseConfig.get_metadata. cbn. apply lookup_delete_eq. }
  split; [reflexivity|].
  intros now' default.
  assert (Hread : read c2 key default = Ok default).
  { unfold read, BaseConfig.decrypt_if_needed, BaseConfig._is_encrypted.
    replace (BaseConfig._metadata c2 !! key) with (@None ConfigMetadata)
      by (cbn; now rewrite lookup_delete_eq).
    cbn [snd]. f_equal. unfold BaseConfig._get_nested_value. rewrite Htop, Hdata.
    cbn [BaseConfig.get_path]. now rewrite dict_get_del_eq. }
  destruct Hx3' as [-> | (ch & -> & ->)].
  - rewrite get_no_cache by reflexivity. cbn [snd]. now rewrite Hread.
  - destruct Hcache as [Hn | Hlaws]; [apply Hnone in Hn; discriminate|].
    rewrite (get_cache_miss c2 now' key default (fst (cache_invalidate ch key)))
      by (try reflexivity; apply cache_get_invalidated).
    now rewrite Hread.
Qed.

End SetOutcomes.

Section SetOutcomesExamples.
#[local] Existing Instance Sample.python.

(** A port that is a text, on an object with the schema of the database. *)
Lemma set_that_raises_writes_nothing_witness :
  let c : BaseConfig.t SchemaValidator.t MemoryCache.t :=
    BaseConfig.with_data [("port", VInt 5432)]
      (BaseConfig.init "database" [] []
         (Some (SchemaValidator.mk DatabaseConfig.get_schema [])) None None None) in
  let c1 := fst (BaseConfig.set 0 "port" (VStr "eighty") None c) in
  let e := ConfigValidationError "port" ["'port' must be of type int"] in
  BaseConfig._data c1 = BaseConfig._data c
  /\ BaseConfig._metadata c1 = BaseConfig._metadata c
  /\ BaseConfig.notifications c1 = BaseConfig.notifications c
  /\ (BaseConfig._readonly c = false ->
      snd (BaseConfig.on_validator "port" (VStr "eighty") c) = Ok false ->
      e = ConfigValidationError "port"
            (BaseConfig.validator_errors (fst (BaseConfig.on_validator "port" (VStr "eighty") c)))).
Proof.
  intros c c1 e.
  exact (set_that_raises_writes_nothing c 0 "port" (VStr "eighty") None c1 e
           (or_introl eq_refl) eq_refl).
Defined.


Lemma remove_key_takes_back_a_set_witness :
  let c := BaseConfig.add_observer 7
             (BaseConfig.with_data [("host", VStr "localhost")] Sample.with_memory_cache) in
  let c1 := fst (BaseConfig.set 0 "port" (VInt 8000) None c) in
  exists c2 w,
    stored c "port" (VInt 8000) = Ok w
    /\ BaseConfig.remove_key "port" c1 = (c2, Ok tt)
    /\ BaseConfig._data c2 = PyDict.del (BaseConfig._data c) "port"
    /\ (BaseConfig.has_key c "port" = false -> BaseConfig._data c2 = BaseConfig._data c)
    /\ BaseConfig.has_key c2 "port" = false
    /\ BaseConfig.get_metadata c2 "port" = None
    /\ BaseConfig.notifications c2
       = BaseConfig.notifications c1
         ++ map (fun o => mkNotification o "port" w VNone) (BaseConfig._observers c)
    /\ forall now' default, snd (BaseConfig.get now' "port" default c2) = Ok default.
Proof.
  intros c c1.
  exact (remove_key_takes_back_a_set c 0 "port" (VInt 8000) None c1
           (or_intror memory_cache_laws) eq_refl eq_refl).
Defined.

End SetOutcomesExamples.

(** ** Loading *)

Lemma bind_assoc {S A B D : Type} (m : M S A) (k1 : A -> M S B) (k2 : B -> M S D) s :
  bind (bind m k1) k2 s = bind m (fun a => bind (k1 a) k2) s.
Proof. unfold bind. destruct (m s) as [s1 [a|e]]; reflexivity. Qed.

Lemma bind_ext {S A B : Type} (m : M S A) (k k' : A -> M S B) s :
  (forall a s, k a s = k' a s) -> bind m k s = bind m k' s.
Proof. intros Hk. unfold bind. destruct (m s) as [s1 [a|e]]; auto. Qed.

Lemma bind_ok_inv {S A B : Type} (m : M S A) (k : A -> M S B) s s' b :
  bind m k s = (s', Ok b) -> exists s1 a, m s = (s1, Ok a) /\ k a s1 = (s', Ok b).
Proof. unfold bind. destruct (m s) as [s1 [a|e]]; [eauto | discriminate]. Qed.

Lemma try_except_ext {S A : Type} (m m' : M S A) (h : Exc -> M S A) s :
  m s = m' s -> try_except m h s = try_except m' h s.
Proof. unfold try_except. now intros ->. Qed.

Lemma try_bind_modify {S A : Type} (m : M S A) (f : S -> S) (h : Exc -> M S unit) s :
  try_except (bind m (fun _ => modify f)) h s
  = match m s with
    | (s1, Ok _) => (f s1, Ok tt)
    | (s1, Raise e) => h e s1
    end.
Proof. unfold try_except, bind, modify. destruct (m s) as [s1 [a|e]]; reflexivity. Qed.

Section LoadFacts.
Context `{Python} {V C : Type} `{!IConfigValidator V} `{!IConfigCache C}.
Implicit Types (c : BaseConfig.t V C) (key : string) (now : datetime).

(** [load] runs its body, then sets [_loaded]; an exception of the body is
    wrapped. *)
Lemma load_run now src c :
  BaseConfig.load now src c
  = match load_body now src c with
    | (c1, Ok _) => (BaseConfig.with_loaded true c1, Ok tt)
    | (c1, Raise e) => (c1, Raise (ConfigLoadError "Failed to load configuration: " e))
    end.
Proof.
  unfold BaseConfig.load.
  rewrite (try_except_ext _ (bind (load_body now src)
                               (fun _ => modify (BaseConfig.with_loaded true)))).
  - rewrite try_bind_modify. destruct (load_body now src c) as [c1 [[]|e]]; reflexivity.
  - unfold load_body. rewrite !bind_assoc. apply bind_ext. intros _ s.
    rewrite bind_assoc. reflexivity.
Qed.

End LoadFacts.

(** *** Merging *)

Lemma merge_value_cons key value rest target :
  BaseConfig.merge_value (VDict ((key, value) :: rest)) target
  = BaseConfig.merge_value (VDict rest)
      match PyDict.get target key, value with
      | Some (VDict t'), VDict _ =>
          PyDict.set target key (VDict (BaseConfig.merge_value value t'))
      | _, _ => PyDict.set target key value
      end.
Proof. reflexivity. Qed.

Lemma merge_value_keeps_keys s target k :
  PyDict.mem k target = true ->
  PyDict.mem k (BaseConfig.merge_value (VDict s) target) = true.
Proof.
  revert target. induction s as [|[key value] rest IH]; intros target Hk; [exact Hk|].
  rewrite merge_value_cons. apply IH.
  destruct (PyDict.get target key) as [[]|], value;
    rewrite dict_mem_set, Hk; apply orb_true_r.
Qed.

Section LoadTheorems.
Context `{Python} {V C : Type} `{!IConfigValidator V} `{!IConfigCache C}.
Implicit Types (c : BaseConfig.t V C) (key : string) (now : datetime).

Lemma set_keeps_keys now key value metadata :
  respects keeps_keys (BaseConfig.set now key value metadata).
Proof.
  apply (respects_set keeps_keys); try (intros ? ? ? ?; assumption).
  intros v. apply respects_set_nested_value; [apply _|].
  intros c0 d' r0 Hsp k Hk. cbn [BaseConfig._data BaseConfig.with_data].
  exact (set_path_keeps_keys _ _ _ _ _ _ Hsp Hk).
Qed.

Lemma set_same_on {X : Type} (f : BaseConfig.t V C -> X) now key value metadata :
  (forall x c, f (BaseConfig.with_cache x c) = f c) ->
  (forall x c, f (BaseConfig.with_validator x c) = f c) ->
  (forall l c, f (BaseConfig.with_notifications l c) = f c) ->
  (forall d c, f (BaseConfig.with_data d c) = f c) ->
  (forall m c, f (BaseConfig.with_metadata m c) = f c) ->
  respects (same_on f) (BaseConfig.set now key value metadata).
Proof.
  intros Hc Hv Hn Hd Hm.
  apply (respects_set (same_on f)); try (intros ? ?; unfold same_on; solve [auto]).
  intros v. apply respects_set_nested_value; [apply _|]. intros; unfold same_on; auto.
Qed.

Lemma load_source_none c : load_source None c = (c, Ok tt).
Proof. unfold load_source. now destruct (BaseConfig._loader c). Qed.

Lemma respects_load_source (R : BaseConfig.t V C -> BaseConfig.t V C -> Prop) `{!PreOrder R} src :
  (forall data c, R c (BaseConfig.with_data
                         (BaseConfig.merge_value (VDict data) (BaseConfig._data c)) c)) ->
  respects R (load_source src).
Proof.
  intros HR. apply respects_state. intros c. unfold load_source.
  destruct (BaseConfig._loader c) as [l|]; [|reflexivity].
  destruct src as [[|a s]|]; try reflexivity.
  destruct (loader_load l (String a s)) as [data|e]; [|reflexivity].
  apply HR.
Qed.

Lemma respects_load_missing (R : BaseConfig.t V C -> BaseConfig.t V C -> Prop) `{!PreOrder R}
    now l :
  (forall key value metadata, respects R (BaseConfig.set now key value metadata)) ->
  respects R (load_missing now l).
Proof. intros Hset. unfold load_missing. repeat respects_step; auto. Qed.

Lemma respects_load_body (R : BaseConfig.t V C -> BaseConfig.t V C -> Prop) `{!PreOrder R}
    now src :
  (forall data c, R c (BaseConfig.with_data
                         (BaseConfig.merge_value (VDict data) (BaseConfig._data c)) c)) ->
  (forall key value metadata, respects R (BaseConfig.set now key value metadata)) ->
  respects R (load_body now src).
Proof.
  intros Hm Hset. unfold load_body. repeat respects_step.
  - now apply respects_load_source.
  - now apply respects_load_missing.
Qed.

(** The loop leaves every default without a dot as a key of [_data]. *)
Lemma load_missing_covers now l c c' :
  load_missing now l c = (c', Ok tt) ->
  forall k, In k (PyDict.keys l) -> top_level k -> PyDict.mem k (BaseConfig._data c') = true.
Proof.
  revert c. induction l as [|[key value] l IH]; intros c Hrun k Hin Htop; [destruct Hin|].
  unfold load_missing in Hrun. cbn [for_each] in Hrun.
  apply bind_ok_inv in Hrun as (c1 & [] & Hstep & Hrest).
  fold (load_missing now l) in Hrest.
  destruct Hin as [Heq|Hin]; [|exact (IH _ Hrest _ Hin Htop)].
  cbn in Heq. subst key.
  assert (Hk : PyDict.mem k (BaseConfig._data c1) = true).
  { unfold bind, gets in Hstep.
    destruct (PyDict.mem k (BaseConfig._data c)) eqn:Hm.
    - unfold ret in Hstep. now injection Hstep as <-.
    - apply set_returns_inv in Hstep
        as (_ & vs & x1 & x2 & old & w & d' & _ & Hsp & _ & _ & ->).
      unfold top_level in Htop. rewrite Htop in Hsp. cbn in Hsp. injection Hsp as <-.
      cbn. rewrite dict_mem_set, String.eqb_refl. reflexivity. }
  eapply (respects_load_missing keeps_keys); [|exact Hrest|exact Hk].
  intros. apply set_keeps_keys.
Qed.

(** X14: [load] either returns, with [_loaded] set and every default without
    a dot in its key present in [_data], or raises a [ConfigLoadError] that
    wraps the cause and leaves [_loaded] as it was.  Either way no top-level
    key of [_data] is lost, and [_validated] is not touched. *)
Theorem load_sets_the_flag_and_the_defaults_or_raises c now src :
  let '(c', r) := BaseConfig.load now src c in
  match r with
  | Ok _ =>
      BaseConfig.is_loaded c' = true
      /\ forall k, In k (PyDict.keys (BaseConfig.default_values c)) -> top_level k ->
                   BaseConfig.has_key c' k = true
  | Raise e =>
      (exists cause, e = ConfigLoadError "Failed to load configuration: " cause)
      /\ BaseConfig.is_loaded c' = BaseConfig.is_loaded c
  end
  /\ (forall k, BaseConfig.has_key c k = true -> BaseConfig.has_key c' k = true)
  /\ BaseConfig.is_validated c' = BaseConfig.is_validated c
  /\ fixed_part c' = fixed_part c.
Proof.
  rewrite load_run.
  destruct (load_body now src c) as [c1 r] eqn:Hbody.
  assert (Hkeys : keeps_keys c c1).
  { eapply (respects_load_body keeps_keys); [| |exact Hbody].
    - intros data c0 k Hk. cbn. now apply merge_value_keeps_keys.
    - intros. apply set_keeps_keys. }
  assert (Hsame : same_on (fun c => (fixed_part c, BaseConfig._loaded c, BaseConfig._validated c))
                    c c1).
  { eapply (respects_load_body (same_on _)); [| |exact Hbody].
    - intros; reflexivity.
    - intros. apply set_same_on; intros; reflexivity. }
  unfold same_on in Hsame.
  pose proof (f_equal (fun p => fst (fst p)) Hsame) as Hfixed.
  pose proof (f_equal (fun p => snd (fst p)) Hsame) as Hloaded.
  pose proof (f_equal snd Hsame) as Hvalidated.
  cbn [fst snd] in Hfixed, Hloaded, Hvalidated. clear Hsame.
  destruct r as [[]|e].
  - split; [split; [reflexivity|]|split; [exact Hkeys|split; [exact Hvalidated|exact Hfixed]]].
    intros k Hin Htop. unfold BaseConfig.has_key. cbn [BaseConfig._data BaseConfig.with_loaded].
    unfold load_body in Hbody. apply bind_ok_inv in Hbody as (c0 & [] & Hsrc & Hrest).
    unfold bind, gets in Hrest.
    assert (Hd : same_on BaseConfig.default_values c c0).
    { eapply (respects_load_source (same_on _)); [|exact Hsrc]. intros; reflexivity. }
    unfold same_on in Hd. rewrite Hd in Hrest.
    eapply load_missing_covers; eauto.
  - split; [split; [eauto|exact Hloaded]|split; [exact Hkeys|split; [exact Hvalidated|]]].
    exact Hfixed.
Qed.

Lemma stored_without_encryptor c key value :
  BaseConfig._encryption c = None -> stored c key value = Ok value.
Proof.
  unfold stored, BaseConfig.encrypt_if_needed. intros ->.
  now destruct (BaseConfig._should_encrypt key).
Qed.

(** Without an encryptor the loop of [load] writes what the loop of
    [load_defaults] writes. *)
Lemma load_missing_as_load_default now l c c' (c0 : BaseConfig.t V C) :
  load_missing now l c = (c', Ok tt) ->
  BaseConfig._encryption c = None ->
  Forall top_level (PyDict.keys l) ->
  BaseConfig._data c0 = BaseConfig._data c ->
  BaseConfig._metadata c0 = BaseConfig._metadata c ->
  BaseConfig._data c' = BaseConfig._data (fold_left (load_default now) l c0)
  /\ BaseConfig._metadata c' = BaseConfig._metadata (fold_left (load_default now) l c0).
Proof.
  revert c c0. induction l as [|[key value] l IH]; intros c c0 Hrun Henc Htop Hd Hm.
  - unfold load_missing in Hrun. cbn in Hrun. injection Hrun as <-. cbn. auto.
  - unfold load_missing in Hrun. cbn [for_each] in Hrun.
    apply bind_ok_inv in Hrun as (c1 & [] & Hstep & Hrest).
    fold (load_missing now l) in Hrest.
    cbn [PyDict.keys map fst] in Htop. apply Forall_cons in Htop as [Hk Htop].
    cbn [fold_left]. unfold load_default at 2 4. cbn [fst snd]. rewrite Hd.
    unfold bind, gets in Hstep.
    destruct (PyDict.mem key (BaseConfig._data c)) eqn:Hmem.
    + unfold ret in Hstep. injection Hstep as <-. now apply (IH c c0).
    + apply set_returns_inv in Hstep
        as (_ & vs & x1 & x2 & old & w & d' & Hst & Hsp & _ & _ & ->).
      rewrite stored_without_encryptor in Hst by assumption. injection Hst as <-.
      unfold top_level in Hk. rewrite Hk in Hsp. cbn in Hsp. injection Hsp as <-.
      apply (IH _ _ Hrest); [exact Henc | exact Htop | cbn; now rewrite ?Hd | cbn; now rewrite ?Hm].
Qed.

(** X15: without an encryptor, and with defaults whose keys have no dot, a
    [load] without source that returns leaves the data and the metadata that
    [load_defaults] leaves: the data before it with the missing defaults
    added. *)
Theorem load_stores_what_load_defaults_stores c now c' :
  BaseConfig._encryption c = None ->
  Forall top_level (PyDict.keys (BaseConfig.default_values c)) ->
  BaseConfig.load now None c = (c', Ok tt) ->
  BaseConfig._data c' = BaseConfig._data (fst (BaseConfig.load_defaults now c))
  /\ BaseConfig._metadata c' = BaseConfig._metadata (fst (BaseConfig.load_defaults now c))
  /\ BaseConfig._data c' = add_defaults (BaseConfig.default_values c) (BaseConfig._data c).
Proof.
  intros Henc Htop Hload. rewrite load_run in Hload.
  unfold load_body, bind in Hload. rewrite load_source_none in Hload.
  unfold gets in Hload.
  destruct (load_missing now (BaseConfig.default_values c) c) as [c1 [[]|e]] eqn:Hloop;
    [|discriminate].
  injection Hload as <-.
  destruct (load_missing_as_load_default now _ c c1 c Hloop Henc Htop eq_refl eq_refl)
    as [Hd Hm].
  rewrite load_defaults_unfold. cbn [fst BaseConfig._data BaseConfig._metadata
    BaseConfig.with_loaded].
  split; [exact Hd|]. split; [exact Hm|]. rewrite Hd. apply load_default_data.
Qed.

End LoadTheorems.

Section LoadExamples.
#[local] Existing Instance Sample.python.

Lemma top_level_defaults_of_the_database :
  Forall top_level (PyDict.keys DatabaseConfig.get_defaults).
Proof. repeat constructor. Qed.

Lemma load_stores_what_load_defaults_stores_witness :
  let c : BaseConfig.t SchemaValidator.t MemoryCache.t :=
    BaseConfig.init "database" DatabaseConfig.get_defaults
      ["host"; "port"; "database"; "username"; "password"]
      (Some (SchemaValidator.mk DatabaseConfig.get_schema [])) None None None in
  let c' := fst (BaseConfig.load 0 None c) in
  BaseConfig._data c' = BaseConfig._data (fst (BaseConfig.load_defaults 0 c))
  /\ BaseConfig._metadata c' = BaseConfig._metadata (fst (BaseConfig.load_defaults 0 c))
  /\ BaseConfig._data c' = add_defaults (BaseConfig.default_values c) (BaseConfig._data c).
Proof.
  intros c c'.
  apply (load_stores_what_load_defaults_stores c 0 c');
    [reflexivity | exact top_level_defaults_of_the_database | vm_compute; reflexivity].
Defined.

End LoadExamples.

(** ** The registry as a mapping *)

Section RegistryFacts.
Context `{Python} {V C : Type} `{!IConfigValidator V} `{!IConfigCache C}.
Implicit Types (m : ConfigManager.t V C) (name : string) (config : BaseConfig.t V C).

Lemma dict_keys_set_absent {A : Type} (d : list (string * A)) k v :
  PyDict.get d k = None -> PyDict.keys (PyDict.set d k v) = (PyDict.keys d ++ [k])%list.
Proof.
  unfold PyDict.keys. induction d as [|[k' v'] d IH]; cbn; [reflexivity|].
  destruct (String.eqb k' k); [discriminate|]. intros Hg. cbn. now rewrite IH.
Qed.

(** X16: [register_config] without loading, under a name that is new,
    returns, puts the name last in [get_config_names] and binds it to the
    object; [remove_config] of the name then gives back the registry as it
    was; [remove_config] of a name that is not registered changes nothing,
    and [clear_all] leaves no name.  Under a strategy that is not the eager
    one [register_config] returns without loading, whatever [auto_load]. *)
Theorem remove_config_takes_back_a_registration m now name config :
  ConfigManager.has_config m name = false ->
  exists m1,
    ConfigManager.register_config now name config false m = (m1, Ok tt)
    /\ ConfigManager.has_config m1 name = true
    /\ ConfigManager.get_config_names m1 = (ConfigManager.get_config_names m ++ [name])%list
    /\ PyDict.get (ConfigManager._configs m1) name = Some config
    /\ ConfigManager.remove_config name m1 = m
    /\ ConfigManager.remove_config name m = m
    /\ ConfigManager.get_config_names (ConfigManager.clear_all m1) = []
    /\ (forall strategy auto_load, strategy <> ConfigManager.EAGER ->
          snd (ConfigManager.register_config now name config auto_load
                 (ConfigManager.set_loading_strategy strategy m)) = Ok tt
          /\ PyDict.get
               (ConfigManager._configs
                  (fst (ConfigManager.register_config now name config auto_load
                          (ConfigManager.set_loading_strategy strategy m)))) name
             = Some config).
Proof.
  intros Hno. apply dict_mem_false_get in Hno.
  eexists. split; [|split; [|split; [|split; [|split; [|split; [|split]]]]]]; cycle 7.
  - intros strategy auto_load Hs.
    unfold ConfigManager.register_config, bind, modify, gets.
    cbn [ConfigManager._strategy ConfigManager.with_configs ConfigManager.set_loading_strategy].
    assert (He : ConfigManager.is_EAGER strategy = false) by now destruct strategy.
    rewrite He, andb_false_r. cbn [fst snd ConfigManager._configs ret].
    split; [reflexivity | apply dict_get_set_eq].
  - unfold ConfigManager.register_config, bind, modify, gets. cbn [andb]. reflexivity.
  - unfold ConfigManager.has_config. cbn [ConfigManager._configs ConfigManager.with_configs].
    apply dict_mem_get. rewrite dict_get_set_eq. eauto.
  - unfold ConfigManager.get_config_names.
    cbn [ConfigManager._configs ConfigManager.with_configs]. now apply dict_keys_set_absent.
  - cbn [ConfigManager._configs ConfigManager.with_configs]. apply dict_get_set_eq.
  - unfold ConfigManager.remove_config.
    cbn [ConfigManager._configs ConfigManager.with_configs].
    unfold PyDict.mem. rewrite dict_get_set_eq.
    rewrite dict_del_set, dict_del_absent by exact Hno. now destruct m.
  - unfold ConfigManager.remove_config, PyDict.mem. now rewrite Hno.
  - reflexivity.
Qed.

End RegistryFacts.

Section RegistryExample.
#[local] Existing Instance Sample.python.

Lemma remove_config_takes_back_a_registration_witness :
  exists m1,
    ConfigManager.register_config 0 "payment" Sample.plain false Sample.registry = (m1, Ok tt)
    /\ ConfigManager.has_config m1 "payment" = true
    /\ ConfigManager.get_config_names m1
       = (ConfigManager.get_config_names Sample.registry ++ ["payment"])%list
    /\ PyDict.get (ConfigManager._configs m1) "payment" = Some Sample.plain
    /\ ConfigManager.remove_config "payment" m1 = Sample.registry
    /\ ConfigManager.remove_config "payment" Sample.registry = Sample.registry
    /\ ConfigManager.get_config_names (ConfigManager.clear_all m1) = []
    /\ (forall strategy auto_load, strategy <> ConfigManager.EAGER ->
          snd (ConfigManager.register_config 0 "payment" Sample.plain auto_load
                 (ConfigManager.set_loading_strategy strategy Sample.registry)) = Ok tt
          /\ PyDict.get
               (ConfigManager._configs
                  (fst (ConfigManager.register_config 0 "payment" Sample.plain auto_load
                          (ConfigManager.set_loading_strategy strategy Sample.registry))))
               "payment"
             = Some Sample.plain).
Proof.
  apply (remove_config_takes_back_a_registration Sample.registry 0 "payment" Sample.plain).
  reflexivity.
Defined.

End RegistryExample.

(** ** The catalog of application configurations *)

Section Catalog.
Context `{Python}.

(** X17: every configuration [create_all_configs] builds carries the name
    it is listed under; [load] without source returns on it and leaves its
    defaults as [_data]; [validate] then passes on all of them but the
    database configuration, whose defaults lack three of its required keys. *)
Theorem catalog_validates_out_of_the_box_except_for_the_database
    (token : string) (now : datetime) (name : string)
    (c : BaseConfig.t SchemaValidator.t MemoryCache.t) :
  In (name, c) (AppConfigFactory.create_all_configs token) ->
  let c1 := fst (BaseConfig.load now None c) in
  let c2 := fst (BaseConfig.validate c1) in
  BaseConfig.config_name c = name
  /\ snd (BaseConfig.load now None c) = Ok tt
  /\ BaseConfig._data c1 = BaseConfig.default_values c
  /\ BaseConfig.get_validation_errors c2
     = (if String.eqb name "database"
        then [MissingRequiredKeys ["database"; "username"; "password"]]
        else [])
  /\ snd (BaseConfig.validate c1) = Ok (negb (String.eqb name "database")).
Proof.
  intros Hin. cbn [AppConfigFactory.create_all_configs In] in Hin.
  repeat (destruct Hin as [Hin|Hin]; [injection Hin as <- <-; vm_compute; repeat split|]).
  destruct Hin.
Qed.

End Catalog.

Section CatalogExample.
#[local] Existing Instance Sample.python.

(** The database configuration, as the factory builds it. *)
Lemma catalog_validates_out_of_the_box_except_for_the_database_witness :
  let c : BaseConfig.t SchemaValidator.t MemoryCache.t :=
    BaseConfig.init "database" DatabaseConfig.get_defaults
      ["host"; "port"; "database"; "username"; "password"]
      (Some (SchemaValidator.mk DatabaseConfig.get_schema [])) None None None in
  let c1 := fst (BaseConfig.load 0 None c) in
  let c2 := fst (BaseConfig.validate c1) in
  BaseConfig.config_name c = "database"
  /\ snd (BaseConfig.load 0 None c) = Ok tt
  /\ BaseConfig._data c1 = BaseConfig.default_values c
  /\ BaseConfig.get_validation_errors c2
     = [MissingRequiredKeys ["database"; "username"; "password"]]
  /\ snd (BaseConfig.validate c1) = Ok false.
Proof.
  intros c.
  apply (catalog_validates_out_of_the_box_except_for_the_database "s3cret" 0 "database" c).
  cbn. right. left. reflexivity.
Defined.

End CatalogExample.
